(** * Signature handlers of CRITs: versioned records, provenance, highlights

    A shallow embedding of [crits/signatures/handlers.py].  The handlers
    talk to a document store (mongoengine); here the store is an explicit
    value threaded through a small state-and-exception monad, so that a
    raised Python exception and a returned result stay apart. *)

From Stdlib Require Import String List ZArith Bool Arith Lia.
Import ListNotations.
Open Scope string_scope.
Open Scope list_scope.

(** ** Python values used by the handlers *)

(** A parameter documented as [str] that may also be [None]. *)
Definition py_str := option string.

(** Truth value of a [str]-or-[None] argument: [None] and [''] are false. *)
Definition truthy (s : py_str) : bool :=
  match s with
  | Some s => negb (s =? "")
  | None => false
  end.

Definition py_str_eqb (a b : py_str) : bool :=
  match a, b with
  | Some x, Some y => x =? y
  | None, None => true
  | _, _ => false
  end.

(** A line argument documented as [str, int]. *)
Inductive int_arg : Type :=
| IntArg (z : Z)
| StrArg (s : string).

(** ** Documents *)

Record SourceInstance : Type := mkInstance {
  inst_date : Z;
  inst_method : string;
  inst_reference : string;
  inst_analyst : py_str
}.

Record EmbeddedSource : Type := mkSource {
  src_name : string;
  instances : list SourceInstance
}.

Record EmbeddedRelationship : Type := mkRelationship {
  rel_type : string;
  rel_object_id : nat;
  relationship : string;
  relationship_date : Z;
  rel_analyst : py_str
}.

Record EmbeddedHighlight : Type := mkHighlight {
  line : Z;
  line_data : string;
  comment : py_str;
  line_date : Z;
  hl_analyst : string
}.

Record EmbeddedInline : Type := mkInline {
  inl_line : Z;
  inl_comment : string;
  inl_analyst : string;
  inl_date : Z
}.

Record Signature : Type := mkSignature {
  _id : option nat;
  created : Z;
  description : py_str;
  md5 : string;
  data : string;
  title : string;
  data_type : string;
  link_id : py_str;
  version : option nat;
  source : list EmbeddedSource;
  relationships : list EmbeddedRelationship;
  highlights : list EmbeddedHighlight;
  inlines : list EmbeddedInline;
  bucket_list : list string;
  tickets : list string
}.

Definition set_id (s : Signature) (i : option nat) : Signature :=
  mkSignature i (created s) (description s) (md5 s) (data s) (title s)
    (data_type s) (link_id s) (version s) (source s) (relationships s)
    (highlights s) (inlines s) (bucket_list s) (tickets s).

Definition set_data_type (s : Signature) (t : string) : Signature :=
  mkSignature (_id s) (created s) (description s) (md5 s) (data s) (title s)
    t (link_id s) (version s) (source s) (relationships s)
    (highlights s) (inlines s) (bucket_list s) (tickets s).

Definition set_link_id (s : Signature) (l : py_str) : Signature :=
  mkSignature (_id s) (created s) (description s) (md5 s) (data s) (title s)
    (data_type s) l (version s) (source s) (relationships s)
    (highlights s) (inlines s) (bucket_list s) (tickets s).

Definition set_version (s : Signature) (v : option nat) : Signature :=
  mkSignature (_id s) (created s) (description s) (md5 s) (data s) (title s)
    (data_type s) (link_id s) v (source s) (relationships s)
    (highlights s) (inlines s) (bucket_list s) (tickets s).

Definition set_source (s : Signature) (l : list EmbeddedSource) : Signature :=
  mkSignature (_id s) (created s) (description s) (md5 s) (data s) (title s)
    (data_type s) (link_id s) (version s) l (relationships s)
    (highlights s) (inlines s) (bucket_list s) (tickets s).

Definition set_relationships (s : Signature)
    (l : list EmbeddedRelationship) : Signature :=
  mkSignature (_id s) (created s) (description s) (md5 s) (data s) (title s)
    (data_type s) (link_id s) (version s) (source s) l
    (highlights s) (inlines s) (bucket_list s) (tickets s).

Definition set_highlights (s : Signature)
    (l : list EmbeddedHighlight) : Signature :=
  mkSignature (_id s) (created s) (description s) (md5 s) (data s) (title s)
    (data_type s) (link_id s) (version s) (source s) (relationships s)
    l (inlines s) (bucket_list s) (tickets s).

Definition set_inlines (s : Signature) (l : list EmbeddedInline) : Signature :=
  mkSignature (_id s) (created s) (description s) (md5 s) (data s) (title s)
    (data_type s) (link_id s) (version s) (source s) (relationships s)
    (highlights s) l (bucket_list s) (tickets s).

Definition set_bucket_list (s : Signature) (l : list string) : Signature :=
  mkSignature (_id s) (created s) (description s) (md5 s) (data s) (title s)
    (data_type s) (link_id s) (version s) (source s) (relationships s)
    (highlights s) (inlines s) l (tickets s).

Definition set_tickets (s : Signature) (l : list string) : Signature :=
  mkSignature (_id s) (created s) (description s) (md5 s) (data s) (title s)
    (data_type s) (link_id s) (version s) (source s) (relationships s)
    (highlights s) (inlines s) (bucket_list s) l.

Definition set_comment (h : EmbeddedHighlight) (c : py_str) : EmbeddedHighlight :=
  mkHighlight (line h) (line_data h) c (line_date h) (hl_analyst h).

Definition set_line_date (h : EmbeddedHighlight) (d : Z) : EmbeddedHighlight :=
  mkHighlight (line h) (line_data h) (comment h) d (hl_analyst h).

(** ** The document store *)

(** The [Signature] collection in insertion order, the names of the
    registered [SignatureType]s, the next free ObjectId, and the ids handed
    to the triage pipeline. *)
Record Store : Type := mkStore {
  signatures : list Signature;
  signature_types : list string;
  next_id : nat;
  triaged : list nat
}.

Definition with_signatures (st : Store) (l : list Signature) : Store :=
  mkStore l (signature_types st) (next_id st) (triaged st).

(** ** Exceptions, outcomes and the handler monad *)

Inductive exn : Type :=
| ValidationError (msg : string)
| AttributeError
| ValueError
| DoesNotExist.

Inductive outcome (A : Type) : Type :=
| Return (a : A)
| Raise (e : exn).
Arguments Return {A} a.
Arguments Raise {A} e.

(** A handler runs on a store and leaves a store behind even when it
    raises: what was saved before the exception stays saved. *)
Definition M (A : Type) : Type := Store -> outcome A * Store.

Definition ret {A} (a : A) : M A := fun st => (Return a, st).

Definition raise {A} (e : exn) : M A := fun st => (Raise e, st).

Definition bind {A B} (c : M A) (k : A -> M B) : M B :=
  fun st =>
    match c st with
    | (Return a, st') => k a st'
    | (Raise e, st') => (Raise e, st')
    end.

Notation "x <- c ;; k" := (bind c (fun x => k))
  (at level 61, c at next level, right associativity).
Notation "c ;;; k" := (bind c (fun _ => k))
  (at level 61, right associativity).

(** [try: c  except ValidationError, e: h e] *)
Definition try_except_ValidationError {A} (c : M A) (h : string -> M A) : M A :=
  fun st =>
    match c st with
    | (Raise (ValidationError msg), st') => h msg st'
    | r => r
    end.

(** What a handler hands back to its caller: [None]; a dict
    [{'success': b, 'message': m}]; a dict [{'success': b}]; the dict of a
    successful upload; the dict of a new inline comment (its message is
    fixed by the line); [{'success': True, 'html': h}]; or, where the
    source says [return e], the exception object itself. *)
Inductive result : Type :=
| RNone
| RStatus (success : bool) (message : string)
| RSuccessOnly (success : bool)
| RUploaded (message : string) (oid : option nat) (object : Signature)
| RInline (line_num : Z) (html : string)
| RHtml (html : string)
| RException (e : exn).

(** ** Queries *)

Definition id_is (i : nat) (s : Signature) : bool :=
  match _id s with
  | Some j => Nat.eqb i j
  | None => false
  end.

Definition md5_is (h : string) (s : Signature) : bool := md5 s =? h.

Definition link_id_is (l : py_str) (s : Signature) : bool :=
  py_str_eqb (link_id s) l.

(** [Signature.objects(...)] as a filter over the collection and
    [.first()] as the head of the answer. *)
Definition objects (p : Signature -> bool) (st : Store) : list Signature :=
  filter p (signatures st).

Definition first {A} (l : list A) : option A := hd_error l.

Definition Signature_first (p : Signature -> bool) : M (option Signature) :=
  fun st => (Return (first (objects p st)), st).

Definition Signature_count (p : Signature -> bool) : M nat :=
  fun st => (Return (length (objects p st)), st).

Definition SignatureType_first (name : py_str) : M (option string) :=
  fun st =>
    (Return (first (filter (fun t => py_str_eqb (Some t) name)
                           (signature_types st))), st).

(** ** Arguments of a submission *)

(** An element of a list passed as [source_name]. *)
Inductive source_item : Type :=
| ItemSource (e : EmbeddedSource)
| ItemOther.

(** [source_name] is documented as a str, an [EmbeddedSource] or a list of
    [EmbeddedSource]; Python lets the caller pass anything, so the last
    constructor stands for any other object, with its truth value. *)
Inductive source_arg : Type :=
| SrcNone
| SrcStr (s : string)
| SrcEmbedded (e : EmbeddedSource)
| SrcList (l : list source_item)
| SrcOther (truth : bool).

Definition source_truthy (a : source_arg) : bool :=
  match a with
  | SrcNone => false
  | SrcStr s => negb (s =? "")
  | SrcEmbedded _ => true
  | SrcList l => negb (Nat.eqb (length l) 0)
  | SrcOther b => b
  end.

Definition str_value (s : py_str) : string :=
  match s with
  | Some x => x
  | None => ""
  end.

Definition len (s : py_str) : nat := String.length (str_value s).

(** ** Methods of the [Signature] document class

    [crits/signatures/signature.py] and [crits/core/crits_mongoengine.py]
    are not part of the sources at hand; the methods the handlers call are
    written from the specification's data model. *)

(** Modelled from the spec: [create_embedded_source] (crits.core) is
    missing; a bare name becomes one provenance entry
    [{sourceName, date, method, reference, analyst}]. *)
Definition create_embedded_source (name : string) (date : Z)
    (method reference : string) (analyst : py_str) : EmbeddedSource :=
  mkSource name [mkInstance date method reference analyst].

(** Modelled from the spec: [Signature.add_source] is missing; entries
    normalize into [source], merging by source name: an existing source
    with the same name gains the new instances rather than a second
    source entry of that name. *)
Fixpoint merge_source (new : EmbeddedSource) (l : list EmbeddedSource)
    : list EmbeddedSource :=
  match l with
  | [] => [new]
  | s :: rest =>
      if src_name s =? src_name new
      then mkSource (src_name s) (instances s ++ instances new) :: rest
      else s :: merge_source new rest
  end.

(** The keyword arguments [method] and [reference] accompany a
    fully-formed entry; the specification gives them no effect on the
    merge. *)
Definition add_source (s : Signature) (item : EmbeddedSource)
    (method reference : string) : Signature :=
  set_source s (merge_source item (source s)).

(** Modelled from the spec: [Signature.add_relationship] is missing; the
    relationship is re-created on the target with the original kind and
    date, attributed to the current actor. *)
Definition add_relationship (s : Signature) (rel : EmbeddedRelationship)
    (analyst : py_str) : Signature :=
  set_relationships s
    (relationships s ++
     [mkRelationship (rel_type rel) (rel_object_id rel) (relationship rel)
        (relationship_date rel) analyst]).

(** Modelled from the spec: [add_bucket_list] and [add_ticket] (tagging,
    an external collaborator) attach the tags to the record. *)
Definition add_bucket_list (s : Signature) (tags : list string)
    (analyst : py_str) : Signature :=
  set_bucket_list s (bucket_list s ++ tags).

Definition add_ticket (s : Signature) (tags : list string)
    (analyst : py_str) : Signature :=
  set_tickets s (tickets s ++ tags).

(** Modelled from the spec: [Signature.add_highlight] is missing; it
    appends [{line, lineContent, comment absent, date, author}]
    unconditionally, duplicate lines included. *)
Definition add_highlight (s : Signature) (line_num : Z) (line_data : string)
    (analyst : string) (now : Z) : Signature :=
  set_highlights s
    (highlights s ++ [mkHighlight line_num line_data None now analyst]).

(** Modelled from the spec: [Signature.add_inline_comment] is missing; it
    appends [{line, comment, author, date}]; several per line are fine. *)
Definition add_inline_comment (s : Signature) (comment : string)
    (line_num : Z) (analyst : string) (now : Z) : Signature :=
  set_inlines s (inlines s ++ [mkInline line_num comment analyst now]).

(** Modelled from the spec: [Signature.remove_highlight] is missing; it
    removes all highlights matching the line. *)
Definition remove_highlight (s : Signature) (line_num : Z)
    (analyst : string) : Signature :=
  set_highlights s
    (filter (fun h => negb (Z.eqb (line h) line_num)) (highlights s)).

(** ** The handlers *)

Section Handlers.

(** Collaborators outside [handlers.py]: the digest of [hashlib], the
    schema check mongoengine runs on [save] ([None]: the document is
    accepted; [Some msg]: [ValidationError(msg)]), the resolver of
    related objects, the admin check, the date parser of [dateutil]
    called with [fuzzy=True] ([None]: it raises), the built-in [int] on
    a str, and the two templates. *)
Variable hashlib_md5 : string -> string.
Variable validate : Signature -> option string.
Variable class_from_id : string -> nat -> bool.
Variable is_admin : py_str -> bool.
Variable parse_fuzzy : string -> option Z.
Variable int_of_str : string -> option Z.
Variable render_inline_comment :
  string -> string -> Z -> Z -> nat -> string.
Variable render_signature_highlights :
  nat -> list EmbeddedHighlight -> string.

(** [int(line)] *)
Definition py_int (a : int_arg) : M Z :=
  match a with
  | IntArg z => ret z
  | StrArg s =>
      match int_of_str s with
      | Some z => ret z
      | None => raise ValueError
      end
  end.

(** *** Writes *)

Definition replace_doc (i : nat) (s : Signature) (l : list Signature)
    : list Signature :=
  map (fun d => if id_is i d then s else d) l.

(** The write of a document that passed validation: insert under a
    fresh id, or overwrite the stored document of the same id.  The
    object in memory learns its id. *)
Definition write (s : Signature) (st : Store) : Signature * Store :=
  match _id s with
  | Some i =>
      if existsb (id_is i) (signatures st)
      then (s, with_signatures st (replace_doc i s (signatures st)))
      else (s, with_signatures st (signatures st ++ [s]))
  | None =>
      let s' := set_id s (Some (next_id st)) in
      (s', mkStore (signatures st ++ [s']) (signature_types st)
             (S (next_id st)) (triaged st))
  end.

(** [signature.save(username=...)]: validate, then write. *)
Definition save (s : Signature) (username : py_str) : M Signature :=
  fun st =>
    match validate s with
    | Some msg => (Raise (ValidationError msg), st)
    | None => (Return (fst (write s st)), snd (write s st))
    end.

(** [signature.reload()] *)
Definition reload (s : Signature) : M Signature :=
  fun st =>
    match _id s with
    | Some i =>
        match first (objects (id_is i) st) with
        | Some d => (Return d, st)
        | None => (Raise DoesNotExist, st)
        end
    | None => (Raise DoesNotExist, st)
    end.

(** [signature.delete(username=...)] *)
Definition delete (s : Signature) (username : py_str) : M unit :=
  fun st =>
    match _id s with
    | Some i =>
        (Return tt,
         with_signatures st
           (filter (fun d => negb (id_is i d)) (signatures st)))
    | None => (Return tt, st)
    end.

(** [run_triage(signature, user)]: the pipeline is external and is not
    awaited; the store only remembers that the record was handed over. *)
Definition run_triage (s : Signature) (user : py_str) : M unit :=
  fun st =>
    (Return tt,
     mkStore (signatures st) (signature_types st) (next_id st)
       (match _id s with
        | Some i => triaged st ++ [i]
        | None => triaged st
        end)).

(** *** handle_signature_file

    Two values the source draws from its environment are arguments
    here: [timestamp], the [datetime.now()] of line 350, and
    [own_link], the link id a new [Signature()] document has before
    line 384 may replace it.

    Modelled from the spec: the default of [link_id] is declared in the
    missing document class.  A record submitted without a link id is
    the root of a chain of its own, under a link id later versions can
    be submitted with, and a count over an absent link id finds no
    record. *)

(** Lines 367-380: the three shapes of [source_name]. *)
Definition add_submitted_sources (signature : Signature)
    (source_name : source_arg) (timestamp : Z) (method reference : string)
    (user : py_str) : Signature :=
  match source_name with
  | SrcStr s =>
      if Nat.ltb 0 (String.length s)
      then add_source signature
             (create_embedded_source s timestamp method reference user)
             "" ""
      else signature
  | SrcEmbedded e => add_source signature e method reference
  | SrcList l =>
      if Nat.ltb 0 (length l)
      then fold_left
             (fun sg it =>
                match it with
                | ItemSource e => add_source sg e method reference
                | ItemOther => sg
                end) l signature
      else signature
  | SrcNone | SrcOther _ => signature
  end.

(** Lines 391-398: relationships of the first record of the chain. *)
Definition copy_relationships (signature : Signature)
    (rels : list EmbeddedRelationship) (user : py_str) : Signature :=
  fold_left
    (fun sg rel =>
       if class_from_id (rel_type rel) (rel_object_id rel)
       then add_relationship sg rel user
       else sg) rels signature.

(** Lines 383-398. *)
Definition link_signature (signature : Signature) (link_id : py_str)
    (copy_rels : bool) (user : py_str) : M Signature :=
  if truthy link_id then
    let signature := set_link_id signature link_id in
    if copy_rels then
      rd2 <- Signature_first (link_id_is link_id) ;;
      match rd2 with
      | Some rd2 =>
          if Nat.ltb 0 (length (relationships rd2)) then
            signature <- save signature user ;;
            signature <- reload signature ;;
            ret (copy_relationships signature (relationships rd2) user)
          else ret signature
      | None => ret signature
      end
    else ret signature
  else ret signature.

Definition handle_signature_file (data : py_str) (source_name : source_arg)
    (user description title data_type link_id : py_str)
    (method reference : string) (copy_rels : bool)
    (bucket_list ticket : list string) (timestamp : Z) (own_link : string)
    : M result :=
  if negb (truthy data) || negb (truthy title) || negb (truthy data_type)
  then ret (RStatus false "No data object, title, or data type passed in")
  else if negb (source_truthy source_name)
  then ret (RStatus false "Missing source information.")
  else
    rdt <- SignatureType_first data_type ;;
    match rdt with
    | None => ret (RStatus false "Invalid data type passed in")
    | Some _ =>
        if Nat.leb (len data) 0
        then ret (RStatus false "Data length <= 0")
        else
          let md5 := hashlib_md5 (str_value data) in
          found <- Signature_first (md5_is md5) ;;
          let signature :=
            match found with
            | Some s => s
            | None =>
                mkSignature None timestamp description md5 (str_value data)
                  (str_value title) (str_value data_type) (Some own_link)
                  None [] [] [] [] [] []
            end in
          let is_signature_new :=
            match found with
            | Some _ => false
            | None => true
            end in
          let signature :=
            add_submitted_sources signature source_name timestamp
              method reference user in
          signature <- link_signature signature link_id copy_rels user ;;
          n <- Signature_count (link_id_is link_id) ;;
          let signature := set_version signature (Some (n + 1)) in
          let signature :=
            if Nat.ltb 0 (length bucket_list)
            then add_bucket_list signature bucket_list user
            else signature in
          let signature :=
            if Nat.ltb 0 (length ticket)
            then add_ticket signature ticket user
            else signature in
          signature <- save signature user ;;
          signature <-
            (if is_signature_new
             then (s <- reload signature ;;
                   run_triage s user ;;;
                   ret s)
             else ret signature) ;;
          ret (RUploaded "Uploaded signature" (_id signature) signature)
    end.

(** *** update_signature_type *)

Definition update_signature_type (oid : nat) (data_type : py_str)
    (analyst : py_str) : M result :=
  signature <- Signature_first (id_is oid) ;;
  data_type <- SignatureType_first data_type ;;
  match data_type with
  | None => ret RNone
  | Some name =>
      match signature with
      | None => raise AttributeError
      | Some signature =>
          let signature := set_data_type signature name in
          try_except_ValidationError
            (save signature analyst ;;; ret (RSuccessOnly true))
            (fun msg => ret (RStatus false msg))
      end
  end.

(** *** update_signature_highlight_comment, update_signature_highlight_date *)

(** The [for highlight in signature.highlights] loop of both updates:
    [before] are the highlights already passed, [rest] those to come.
    At the first highlight whose line is [int(line)] the highlight is
    changed in place, the record saved and the loop left. *)
Fixpoint highlight_loop (change : EmbeddedHighlight -> M EmbeddedHighlight)
    (signature : Signature) (line_arg : int_arg) (analyst : py_str)
    (before rest : list EmbeddedHighlight) : M result :=
  match rest with
  | [] => ret (RStatus false "Could not find highlight.")
  | highlight :: after =>
      n <- py_int line_arg ;;
      if Z.eqb (line highlight) n then
        highlight <- change highlight ;;
        let signature :=
          set_highlights signature (before ++ highlight :: after) in
        try_except_ValidationError
          (save signature analyst ;;; ret (RSuccessOnly true))
          (fun msg => ret (RStatus false msg))
      else
        highlight_loop change signature line_arg analyst
          (before ++ [highlight]) after
  end.

Definition update_signature_highlight_comment (oid : nat)
    (comment : string) (line_arg : int_arg) (analyst : py_str) : M result :=
  signature <- Signature_first (id_is oid) ;;
  match signature with
  | None => ret RNone
  | Some signature =>
      highlight_loop (fun h => ret (set_comment h (Some comment)))
        signature line_arg analyst [] (highlights signature)
  end.

Definition update_signature_highlight_date (oid : nat) (date : string)
    (line_arg : int_arg) (analyst : py_str) : M result :=
  signature <- Signature_first (id_is oid) ;;
  match signature with
  | None => ret RNone
  | Some signature =>
      highlight_loop
        (fun h =>
           match parse_fuzzy date with
           | Some d => ret (set_line_date h d)
           | None => raise ValueError
           end)
        signature line_arg analyst [] (highlights signature)
  end.

(** *** new_inline_comment, new_highlight, delete_highlight

    The line goes straight to a method of the missing document class;
    the data model has [line: int], so the handlers are modelled on an
    integer line.  A method call on [None] is an [AttributeError]. *)

Definition new_inline_comment (oid : nat) (comment : string) (line_num : Z)
    (analyst : string) (now : Z) : M result :=
  signature <- Signature_first (id_is oid) ;;
  match signature with
  | None => raise AttributeError
  | Some signature =>
      let signature :=
        add_inline_comment signature comment line_num analyst now in
      try_except_ValidationError
        (save signature (Some analyst) ;;;
         let html :=
           render_inline_comment analyst comment now line_num oid in
         ret (RInline line_num html))
        (fun msg => ret (RException (ValidationError msg)))
  end.

Definition new_highlight (oid : nat) (line_num : Z) (line_data : string)
    (analyst : string) (now : Z) : M result :=
  signature <- Signature_first (id_is oid) ;;
  match signature with
  | None => raise AttributeError
  | Some signature =>
      let signature :=
        add_highlight signature line_num line_data analyst now in
      try_except_ValidationError
        (save signature (Some analyst) ;;;
         let html :=
           render_signature_highlights oid (highlights signature) in
         ret (RHtml html))
        (fun msg => ret (RException (ValidationError msg)))
  end.

Definition delete_highlight (oid : nat) (line_num : Z) (analyst : string)
    : M result :=
  signature <- Signature_first (id_is oid) ;;
  match signature with
  | None => raise AttributeError
  | Some signature =>
      let highlights_before := length (highlights signature) in
      let signature := remove_highlight signature line_num analyst in
      if Nat.ltb (length (highlights signature)) highlights_before then
        try_except_ValidationError
          (save signature (Some analyst) ;;;
           let html :=
             render_signature_highlights oid (highlights signature) in
           ret (RHtml html))
          (fun msg => ret (RException (ValidationError msg)))
      else ret (RSuccessOnly false)
  end.

(** *** delete_signature *)

Definition delete_signature (oid : nat) (username : py_str) : M bool :=
  if is_admin username then
    signature <- Signature_first (id_is oid) ;;
    match signature with
    | Some signature => delete signature username ;;; ret true
    | None => ret false
    end
  else ret false.

End Handlers.

(** ** Well-formed stores *)

(** Every stored document has an id below [next_id], and no two share one. *)
Fixpoint distinct_ids (l : list Signature) : bool :=
  match l with
  | [] => true
  | d :: rest =>
      match _id d with
      | Some i => negb (existsb (id_is i) rest) && distinct_ids rest
      | None => false
      end
  end.

Definition id_below (n : nat) (d : Signature) : bool :=
  match _id d with
  | Some i => Nat.ltb i n
  | None => false
  end.

Definition store_ok (st : Store) : bool :=
  forallb (id_below (next_id st)) (signatures st) &&
  distinct_ids (signatures st).

(** The [data_type] names a registered [SignatureType]. *)
Definition registered (name : py_str) (st : Store) : bool :=
  existsb (fun t => py_str_eqb (Some t) name) (signature_types st).

(** The conditions under which a submission is turned away. *)
Definition invalid_submission (data : py_str) (source_name : source_arg)
    (title data_type : py_str) (st : Store) : Prop :=
  truthy data = false \/ truthy title = false \/ truthy data_type = false \/
  source_truthy source_name = false \/
  registered data_type st = false \/
  (len data <= 0)%nat.

(** A truthy [source_name] that is no str, no [EmbeddedSource] and no list
    holding an [EmbeddedSource]. *)
Definition carries_no_source (a : source_arg) : bool :=
  match a with
  | SrcOther b => b
  | SrcList l =>
      negb (Nat.eqb (length l) 0) &&
      forallb (fun it => match it with ItemOther => true | _ => false end) l
  | _ => false
  end.

(** How many highlights bear the pair (line, comment). *)
Definition bears (n : Z) (c : string) (h : EmbeddedHighlight) : bool :=
  Z.eqb (line h) n && py_str_eqb (comment h) (Some c).

Definition count_bearing (n : Z) (c : string) (hs : list EmbeddedHighlight)
    : nat :=
  length (filter (bears n c) hs).

Definition has_line (n : Z) (hs : list EmbeddedHighlight) : bool :=
  existsb (fun h => Z.eqb (line h) n) hs.

(** The value [int(line)] would give, when it gives one. *)
Definition int_value (int_of_str : string -> option Z) (a : int_arg)
    : option Z :=
  match a with
  | IntArg z => Some z
  | StrArg s => int_of_str s
  end.

(** Highlight lists the annotation operations can build, starting from a
    record without highlights: appending a fresh highlight, commenting or
    dating the first highlight of a line, removing the highlights of a
    line. *)
Definition change_first (n : Z) (f : EmbeddedHighlight -> EmbeddedHighlight)
    : list EmbeddedHighlight -> list EmbeddedHighlight :=
  fix go hs :=
    match hs with
    | [] => []
    | h :: rest => if Z.eqb (line h) n then f h :: rest else h :: go rest
    end.

Inductive built : list EmbeddedHighlight -> Prop :=
| built_nil : built []
| built_add hs n d a t :
    built hs -> built (hs ++ [mkHighlight n d None t a])
| built_comment hs n c :
    built hs -> built (change_first n (fun h => set_comment h (Some c)) hs)
| built_date hs n d :
    built hs -> built (change_first n (fun h => set_line_date h d) hs)
| built_remove hs n :
    built hs ->
    built (filter (fun h => negb (Z.eqb (line h) n)) hs).

(** Only the first highlight of a line can carry a comment: every later
    highlight of the same line has none. *)
Fixpoint comment_on_first_only (hs : list EmbeddedHighlight) : Prop :=
  match hs with
  | [] => True
  | h :: rest =>
      (forall h', In h' rest -> line h' = line h -> comment h' = None) /\
      comment_on_first_only rest
  end.

(** The object in memory is new, or the store has a document of its id. *)
Definition attached (s : Signature) (st : Store) : Prop :=
  match _id s with
  | Some i => existsb (id_is i) (signatures st) = true
  | None => True
  end.

(** [obj] is what the store [st] holds for the record being submitted,
    and [st] is otherwise the store [st0] the submission started from:
    the document of id [i] overwritten, or a document appended. *)
Definition stored_as (st0 : Store) (base_id : option nat) (obj : Signature)
    (st : Store) : Prop :=
  signature_types st = signature_types st0 /\
  triaged st = triaged st0 /\
  match base_id with
  | Some i =>
      _id obj = Some i /\ next_id st = next_id st0 /\
      signatures st = replace_doc i obj (signatures st0)
  | None =>
      _id obj = Some (next_id st0) /\ next_id st = S (next_id st0) /\
      signatures st = signatures st0 ++ [obj]
  end.

(** The relationships the submission copies, when it copies any: a link
    id was given, copying was asked for, and the first record of the
    chain has relationships.  This is when the record is saved early. *)
Definition relationships_to_copy (link_id : py_str) (copy_rels : bool)
    (st : Store) : option (list EmbeddedRelationship) :=
  if truthy link_id && copy_rels then
    match first (objects (link_id_is link_id) st) with
    | Some rd2 =>
        if Nat.ltb 0 (length (relationships rd2))
        then Some (relationships rd2)
        else None
    | None => None
    end
  else None.

(** The record a submission works on: the one found by digest, or a new
    one. *)
Definition submitted_record (found : option Signature) (timestamp : Z)
    (own_link : string) (description : py_str) (digest : string)
    (data title data_type : py_str) : Signature :=
  match found with
  | Some s => s
  | None =>
      mkSignature None timestamp description digest (str_value data)
        (str_value title) (str_value data_type) (Some own_link) None
        [] [] [] [] [] []
  end.

(** Lines 401-407: version, buckets, tickets. *)
Definition finish (s : Signature) (n : nat) (buckets ticket : list string)
    (user : py_str) : Signature :=
  let s := set_version s (Some (n + 1)) in
  let s := if Nat.ltb 0 (length buckets)
           then add_bucket_list s buckets user else s in
  if Nat.ltb 0 (length ticket) then add_ticket s ticket user else s.

(** The fields a submission never touches on a record it reuses. *)
Definition content_of (s : Signature) :=
  (created s, description s, md5 s, data s, title s, data_type s,
   highlights s, inlines s).

Definition same_content (a b : Signature) : Prop :=
  content_of a = content_of b.

(** Everything of a record but its sources, and everything but its
    relationships. *)
Definition but_source (s : Signature) :=
  (_id s, created s, description s, md5 s, data s, title s, data_type s,
   link_id s, version s, relationships s, highlights s, inlines s,
   bucket_list s, tickets s).

Definition but_relationships (s : Signature) :=
  (_id s, created s, description s, md5 s, data s, title s, data_type s,
   link_id s, version s, source s, highlights s, inlines s,
   bucket_list s, tickets s).

(** The store in which line 401 counts the chain: the store the
    submission started from, or the store after the early save. *)
Definition store_at_count (sourced : Signature) (link_id : py_str)
    (copy_rels : bool) (st : Store) : Store :=
  match relationships_to_copy link_id copy_rels st with
  | Some _ => snd (write (set_link_id sourced link_id) st)
  | None => st
  end.


(** The store after the triage hand-over of record [i]. *)
Definition handed_over (i : option nat) (st : Store) : Store :=
  mkStore (signatures st) (signature_types st) (next_id st)
    (match i with
     | Some i => triaged st ++ [i]
     | None => triaged st
     end).

(** Every stored record has highlights the annotation operations can
    build. *)
Definition all_built (st : Store) : Prop :=
  Forall (fun d => built (highlights d)) (signatures st).



(** ** Sequences of submissions into one chain *)

(** The arguments of one submission, link id and [copy_rels] apart. *)
Record submission : Type := mkSubmission {
  s_data : py_str;
  s_source : source_arg;
  s_user : py_str;
  s_description : py_str;
  s_title : py_str;
  s_data_type : py_str;
  s_method : string;
  s_reference : string;
  s_buckets : list string;
  s_ticket : list string;
  s_timestamp : Z;
  s_own_link : string
}.

(** Calls to [handle_signature_file] one after the other, all with the
    same link id. *)
Fixpoint submit_chain (hashlib_md5 : string -> string)
    (validate : Signature -> option string)
    (class_from_id : string -> nat -> bool)
    (link : py_str) (copy_rels : bool) (subs : list submission) (st : Store)
    : list (outcome result) * Store :=
  match subs with
  | [] => ([], st)
  | s :: rest =>
      let r :=
        handle_signature_file hashlib_md5 validate class_from_id
          (s_data s) (s_source s) (s_user s) (s_description s) (s_title s)
          (s_data_type s) link (s_method s) (s_reference s) copy_rels
          (s_buckets s) (s_ticket s) (s_timestamp s) (s_own_link s) st in
      let rs := submit_chain hashlib_md5 validate class_from_id
                  link copy_rels rest (snd r) in
      (fst r :: fst rs, snd rs)
  end.

(** The version a call assigned, read off the record it returned. *)
Definition assigned_version (o : outcome result) : option nat :=
  match o with
  | Return (RUploaded _ _ obj) => version obj
  | _ => None
  end.

(** A submission that passes the checks and brings content the store
    does not have. *)
Definition fresh_submission (hashlib_md5 : string -> string)
    (s : submission) (st : Store) : Prop :=
  truthy (s_data s) = true /\ truthy (s_title s) = true /\
  truthy (s_data_type s) = true /\ source_truthy (s_source s) = true /\
  registered (s_data_type s) st = true /\
  first (objects (md5_is (hashlib_md5 (str_value (s_data s)))) st) = None.

(** ** Stand-ins for concrete runs *)

(** The collaborators are parameters of the handlers; concrete runs fix
    them: a digest that is injective on the few contents used, a schema
    that accepts every document, a resolver that finds every object, one
    administrator, a date parser that knows one date, and numerals up to
    the few lines used. *)
Definition demo_md5 (s : string) : string := ("md5:" ++ s)%string.
Definition accept_all (s : Signature) : option string := None.
Definition resolve_all (t : string) (i : nat) : bool := true.
Definition only_root (u : py_str) : bool := py_str_eqb u (Some "root").
Definition demo_parse (s : string) : option Z :=
  if s =? "2015-03-01 or so" then Some 20150301%Z else None.
Definition demo_int (s : string) : option Z :=
  if s =? "5" then Some 5%Z else if s =? "99" then Some 99%Z else None.
Definition demo_inline (a c : string) (d l : Z) (i : nat) : string := c.
Definition demo_highlights (i : nat) (hs : list EmbeddedHighlight) : string :=
  "".

Definition empty_store : Store := mkStore [] ["YARA"; "Snort"] 0 [].

Definition demo_relationship : EmbeddedRelationship :=
  mkRelationship "Sample" 41 "Related_To" 100 (Some "alice").

(** One record, version 1 of chain [L], with one relationship. *)
Definition chain_root : Signature :=
  mkSignature (Some 0) 100 None (demo_md5 "ruleA") "ruleA" "T1" "YARA"
    (Some "L") (Some 1)
    [create_embedded_source "OSINT" 100 "" "" (Some "alice")]
    [demo_relationship] [] [] [] [].

Definition chain_store : Store := mkStore [chain_root] ["YARA"; "Snort"] 1 [].

(** One record with two highlights on line 5. *)
Definition highlighted : Signature :=
  mkSignature (Some 0) 100 None (demo_md5 "ruleA") "ruleA" "T1" "YARA"
    (Some "uuid-0") (Some 1)
    [create_embedded_source "OSINT" 100 "" "" (Some "alice")] []
    [mkHighlight 5 "foo" None 100 "alice";
     mkHighlight 7 "baz" None 101 "alice"] [] [] [].

Definition highlight_store : Store :=
  mkStore [highlighted] ["YARA"; "Snort"] 1 [].

(** Records and stores the concrete runs pass through. *)

(** The record of the first upload of ["ruleA"] into chain [L]. *)
Definition first_record : Signature :=
  mkSignature (Some 0) 100 (Some "first") (demo_md5 "ruleA") "ruleA" "T1"
    "YARA" (Some "L") (Some 1)
    [mkSource "OSINT" [mkInstance 100 "" "" (Some "alice")]]
    [] [] [] [] [].

Definition first_store : Store :=
  mkStore [first_record] ["YARA"; "Snort"] 1 [0].

(** The same record after ["ruleA"] was submitted again. *)
Definition second_record : Signature :=
  mkSignature (Some 0) 100 (Some "first") (demo_md5 "ruleA") "ruleA" "T1"
    "YARA" (Some "L") (Some 2)
    [mkSource "OSINT" [mkInstance 100 "" "" (Some "alice")];
     mkSource "OtherFeed" [mkInstance 200 "" "" (Some "bob")]]
    [] [] [] [] [].

Definition second_store : Store :=
  mkStore [second_record] ["YARA"; "Snort"] 1 [0].

(** ["ruleB"] submitted into chain [L] of [chain_store] with
    [copy_rels=True]. *)
Definition copied_record : Signature :=
  mkSignature (Some 1) 200 None (demo_md5 "ruleB") "ruleB" "T2" "YARA"
    (Some "L") (Some 3)
    [mkSource "OSINT" [mkInstance 200 "" "" (Some "bob")]]
    [mkRelationship "Sample" 41 "Related_To" 100 (Some "bob")]
    [] [] [] [].

Definition copied_store : Store :=
  mkStore [chain_root; copied_record] ["YARA"; "Snort"] 2 [1].

(** ["ruleC"] submitted next into the same chain, without copying. *)
Definition next_record : Signature :=
  mkSignature (Some 2) 300 None (demo_md5 "ruleC") "ruleC" "T3" "YARA"
    (Some "L") (Some 3)
    [mkSource "OSINT" [mkInstance 300 "" "" (Some "bob")]]
    [] [] [] [] [].

(** A record saved without any source. *)
Definition unsourced_record : Signature :=
  mkSignature (Some 0) 100 None (demo_md5 "ruleA") "ruleA" "T1" "YARA"
    (Some "uuid-0") (Some 1) [] [] [] [] [] [].

(** [highlighted] with the comment ["bar"] on line 5, with line 5 dated,
    and without line 5. *)
Definition commented : Signature :=
  set_highlights highlighted
    [mkHighlight 5 "foo" (Some "bar") 100 "alice";
     mkHighlight 7 "baz" None 101 "alice"].

Definition dated : Signature :=
  set_highlights highlighted
    [mkHighlight 5 "foo" None 20150301 "alice";
     mkHighlight 7 "baz" None 101 "alice"].

Definition shortened : Signature :=
  set_highlights highlighted [mkHighlight 7 "baz" None 101 "alice"].

(** A record no sequence of annotation operations produces: the second
    highlight of line 5 carries a comment. *)
Definition doubled : Signature :=
  set_highlights highlighted
    [mkHighlight 5 "foo" None 100 "alice";
     mkHighlight 5 "foo" (Some "bar") 102 "bob"].

Definition doubled_store : Store :=
  mkStore [doubled] ["YARA"; "Snort"] 1 [].

(** ** Look-ups, listings and type registration *)

(** [str.strip()] of a byte string: leading and trailing whitespace
    (space, tab, newline, carriage return, vertical tab, form feed) goes. *)
Definition is_space (c : Ascii.ascii) : bool :=
  match Ascii.nat_of_ascii c with
  | 9 | 10 | 11 | 12 | 13 | 32 => true
  | _ => false
  end.

Fixpoint lstrip (s : string) : string :=
  match s with
  | EmptyString => EmptyString
  | String c rest => if is_space c then lstrip rest else s
  end.

Fixpoint rstrip (s : string) : string :=
  match s with
  | EmptyString => EmptyString
  | String c rest =>
      if is_space c && (rstrip rest =? "")%string
      then EmptyString
      else String c (rstrip rest)
  end.

Definition strip (s : string) : string := lstrip (rstrip s).

(** One entry of [generate_signature_versions]:
    [{'title': ..., 'version': ..., 'data': ..., 'link': ...}]. *)
Record version_entry : Type := mkVersionEntry {
  v_title : string;
  v_version : option nat;
  v_data : string;
  v_link : string
}.

(** The arguments [get_signature_details] hands to the template: the
    error dict, or the details dict.  Of the details dict the keys
    ['signature'] and ['versions'] are embedded; the other keys
    (services, objects, relationships, comments, favorite, subscription,
    screenshots, analysis results) are answers of collaborators and play
    no part in what the function decides. *)
Inductive details_args : Type :=
| ErrorArgs (error : string)
| DetailArgs (signature : Signature) (versions : nat).

Definition version_is (v : nat) (s : Signature) : bool :=
  match version s with
  | Some w => Nat.eqb v w
  | None => false
  end.

(** [source__name__in=sources] *)
Definition source_name_in (sources : list string) (s : Signature) : bool :=
  existsb (fun e => existsb (String.eqb (src_name e)) sources) (source s).

(** [Signature.objects(...)] iterated: all matches, in store order. *)
Definition Signature_all (p : Signature -> bool) : M (list Signature) :=
  fun st => (Return (objects p st), st).

Section Listings.

(** Collaborators: the inline-comment template, the URL of a record's
    detail page ([reverse]), the sources a user may see, the
    sanitizing of a record for a user, and the schema check of a
    [SignatureType]. *)
Variable render_inline_comment :
  string -> string -> Z -> Z -> nat -> string.
Variable reverse_detail : option nat -> string.
Variable user_sources : string -> list string.
Variable sanitize : Signature -> string -> Signature.
Variable validate_type : string -> option string.

(** *** get_id_from_link_and_version *)

Definition get_id_from_link_and_version (link : py_str) (v : nat)
    : M (option nat) :=
  signature <-
    Signature_first (fun s => link_id_is link s && version_is v s) ;;
  match signature with
  | None => ret None
  | Some signature => ret (_id signature)
  end.

(** *** get_signature_details

    [oid] is [None] for a false [_id].  The removal of the user's
    pending notifications touches another collection and is not part
    of the store. *)
Definition get_signature_details (oid : option nat) (analyst : string)
    : M (option string * details_args) :=
  let sources := user_sources analyst in
  signature <-
    match oid with
    | None => ret None
    | Some i =>
        Signature_first (fun s => id_is i s && source_name_in sources s)
    end ;;
  match signature with
  | None =>
      ret (Some "error.html",
           ErrorArgs
             "signature not yet available or you do not have access to view it.")
  | Some signature =>
      let signature := sanitize signature analyst in
      versions <- Signature_count (link_id_is (link_id signature)) ;;
      ret (None, DetailArgs signature versions)
  end.

(** *** generate_inline_comments *)

Definition generate_inline_comments (oid : nat) : M (list (Z * string)) :=
  signature <- Signature_first (id_is oid) ;;
  match signature with
  | None => ret []
  | Some signature =>
      ret (map (fun i =>
                  (inl_line i,
                   render_inline_comment (inl_analyst i) (inl_comment i)
                     (inl_date i) (inl_line i) oid))
               (inlines signature))
  end.

(** *** generate_signature_versions *)

Definition generate_signature_versions (oid : nat)
    : M (list version_entry) :=
  signature <- Signature_first (id_is oid) ;;
  match signature with
  | None => ret []
  | Some signature =>
      rvs <- Signature_all (link_id_is (link_id signature)) ;;
      ret (map (fun rv =>
                  mkVersionEntry (title rv) (version rv) (data rv)
                    (reverse_detail (_id rv)))
               rvs)
  end.

(** *** add_new_signature_type *)

(** [signature_type.save(username=...)] *)
Definition save_type (name : string) (username : py_str) : M unit :=
  fun st =>
    match validate_type name with
    | Some msg => (Raise (ValidationError msg), st)
    | None =>
        (Return tt,
         mkStore (signatures st) (signature_types st ++ [name])
           (next_id st) (triaged st))
    end.

Definition add_new_signature_type (data_type : string) (analyst : py_str)
    : M bool :=
  let data_type := strip data_type in
  try_except_ValidationError
    (signature_type <- SignatureType_first (Some data_type) ;;
     match signature_type with
     | Some _ => ret false
     | None => save_type data_type analyst ;;; ret true
     end)
    (fun _ => ret false).

End Listings.

(** The versions of a chain, in store order. *)
Definition chain_versions (link : py_str) (st : Store) : list (option nat) :=
  map version (objects (link_id_is link) st).

(** Stand-ins for the collaborators of the listings. *)
Definition demo_reverse (i : option nat) : string :=
  match i with
  | Some 0 => "/signatures/details/0/"
  | Some 1 => "/signatures/details/1/"
  | _ => "/signatures/details/"
  end.
Definition demo_sources (u : string) : list string :=
  if (u =? "alice")%string then ["OSINT"] else [].
Definition demo_sanitize (s : Signature) (u : string) : Signature := s.
Definition accept_type (n : string) : option string := None.
Definition reject_all (s : Signature) : option string := Some "invalid".

(** The type store after [" Sigma "] was registered. *)
Definition sigma_store : Store := mkStore [] ["YARA"; "Snort"; "Sigma"] 0 [].

(** ["ruleB"] submitted into chain [L] of [chain_store] without copying. *)
Definition plain_record : Signature :=
  mkSignature (Some 1) 200 None (demo_md5 "ruleB") "ruleB" "T2" "YARA"
    (Some "L") (Some 2)
    [mkSource "OSINT" [mkInstance 200 "" "" (Some "bob")]]
    [] [] [] [] [].

Definition plain_store : Store :=
  mkStore [chain_root; plain_record] ["YARA"; "Snort"] 2 [1].

Definition unsourced_store : Store :=
  mkStore [unsourced_record] ["YARA"; "Snort"] 1 [0].

(** [highlighted] with an inline comment on line 5. *)
Definition noted : Signature :=
  set_inlines highlighted [mkInline 5 "note" "alice" 300].

Definition noted_store : Store := mkStore [noted] ["YARA"; "Snort"] 1 [].

(** ** What an update leaves alone *)

(** Everything of a record but its data type. *)
Definition but_data_type (s : Signature) :=
  (_id s, created s, description s, md5 s, data s, title s,
   link_id s, version s, source s, relationships s, highlights s, inlines s,
   bucket_list s, tickets s).

(** ** Schemas for concrete runs *)

(** A schema that declares [source] a required field: a document
    without sources is refused. *)
Definition require_source (s : Signature) : option string :=
  match source s with
  | [] => Some "Field is required: source"
  | _ :: _ => None
  end.

(** A schema that refuses the documents of chain [L] that have no
    source, and no other document. *)
Definition chain_schema (s : Signature) : option string :=
  match source s with
  | [] => if link_id_is (Some "L") s then Some "no source" else None
  | _ :: _ => None
  end.

(** A record outside every chain, without sources, next to the root of
    chain [L]; and the same record after its content was uploaded into
    [L] with [copy_rels=True]: saved early for the relationships and
    again at the end. *)
Definition stray_record : Signature :=
  mkSignature (Some 1) 150 None (demo_md5 "ruleD") "ruleD" "T4" "YARA"
    None (Some 1) [] [] [] [] [] [].

Definition stray_store : Store :=
  mkStore [chain_root; stray_record] ["YARA"; "Snort"] 2 [].

Definition adopted_record : Signature :=
  mkSignature (Some 1) 150 None (demo_md5 "ruleD") "ruleD" "T4" "YARA"
    (Some "L") (Some 3)
    [mkSource "OSINT" [mkInstance 200 "" "" (Some "bob")]]
    [mkRelationship "Sample" 41 "Related_To" 100 (Some "bob")]
    [] [] [] [].

Definition adopted_store : Store :=
  mkStore [chain_root; adopted_record] ["YARA"; "Snort"] 2 [].


(** ** Properties *)

Section Properties.

Set Default Proof Using "Type".

Variable hashlib_md5 : string -> string.
Variable validate : Signature -> option string.
Variable class_from_id : string -> nat -> bool.
Variable is_admin : py_str -> bool.
Variable parse_fuzzy : string -> option Z.
Variable int_of_str : string -> option Z.
Variable render_inline_comment :
  string -> string -> Z -> Z -> nat -> string.
Variable render_signature_highlights :
  nat -> list EmbeddedHighlight -> string.

Local Notation "'submit'" :=
  (handle_signature_file hashlib_md5 validate class_from_id).

(** *** Queries and stores *)

Lemma first_filter_none {A} (p : A -> bool) (l : list A) :
  first (filter p l) = None <-> existsb p l = false.
Proof.
  induction l as [|a l IH]; simpl; [split; reflexivity|].
  destruct (p a); simpl; [split; discriminate | exact IH].
Qed.

Lemma first_filter_some {A} (p : A -> bool) (l : list A) (a : A) :
  first (filter p l) = Some a -> p a = true /\ In a l /\ existsb p l = true.
Proof.
  induction l as [|b l IH]; simpl; [discriminate|].
  destruct (p b) eqn:E; simpl.
  - intros H; inversion H; subst; auto.
  - intros H; destruct (IH H) as (? & ? & ?); auto.
Qed.

Lemma id_is_eq i d : id_is i d = true <-> _id d = Some i.
Proof.
  unfold id_is; destruct (_id d) as [j|]; [|split; discriminate].
  rewrite Nat.eqb_eq; split; congruence.
Qed.

Lemma py_str_eqb_eq a b : py_str_eqb a b = true <-> a = b.
Proof.
  destruct a, b; simpl; try (split; congruence).
  rewrite String.eqb_eq; split; congruence.
Qed.

Lemma py_str_eqb_refl a : py_str_eqb a a = true.
Proof. apply py_str_eqb_eq; reflexivity. Qed.

Lemma with_signatures_same st : with_signatures st (signatures st) = st.
Proof. destruct st; reflexivity. Qed.

Lemma SignatureType_first_registered name st :
  registered name st = true ->
  exists t, SignatureType_first name st = (Return (Some t), st) /\ Some t = name.
Proof.
  unfold registered, SignatureType_first; intros H.
  destruct (first (filter (fun t => py_str_eqb (Some t) name) (signature_types st)))
    as [t|] eqn:E.
  - exists t; split; [reflexivity|].
    apply first_filter_some in E; apply py_str_eqb_eq; exact (proj1 E).
  - apply first_filter_none in E; congruence.
Qed.

Lemma SignatureType_first_unregistered name st :
  registered name st = false ->
  SignatureType_first name st = (Return None, st).
Proof.
  unfold registered, SignatureType_first; intros H.
  apply first_filter_none in H; rewrite H; reflexivity.
Qed.

(** *** Submission: rejected input *)

Lemma submit_rejected :
  forall data source_name user description title data_type link_id
         method reference copy_rels buckets ticket timestamp own_link st,
    invalid_submission data source_name title data_type st ->
    exists msg,
      submit data source_name user description title data_type link_id
        method reference copy_rels buckets ticket timestamp own_link st
      = (Return (RStatus false msg), st).
Proof.
  intros data source_name user description title data_type link_id
         method reference copy_rels buckets ticket timestamp own_link st H.
  unfold handle_signature_file.
  destruct (truthy data) eqn:Hd; simpl; [|eexists; reflexivity].
  destruct (truthy title) eqn:Ht; simpl; [|eexists; reflexivity].
  destruct (truthy data_type) eqn:Hy; simpl; [|eexists; reflexivity].
  destruct (source_truthy source_name) eqn:Hs; simpl; [|eexists; reflexivity].
  unfold bind at 1.
  destruct (registered data_type st) eqn:Hr.
  - destruct (SignatureType_first_registered _ _ Hr) as (t & -> & _).
    destruct (Nat.leb (len data) 0) eqn:Hl; [eexists; reflexivity|].
    apply Nat.leb_gt in Hl.
    destruct H as [H|[H|[H|[H|[H|H]]]]]; try congruence; lia.
  - rewrite (SignatureType_first_unregistered _ _ Hr).
    eexists; reflexivity.
Qed.

(** C3: a submission whose data, title or data type is missing or empty,
    whose source is missing, whose data type is not registered, or whose
    content has no length, is answered by a [{'success': False}] status
    and the store is left as it was: no record is created. *)
Theorem handle_signature_file_rejects :
  forall data source_name user description title data_type link_id
         method reference copy_rels buckets ticket timestamp own_link st,
    invalid_submission data source_name title data_type st ->
    exists msg,
      submit data source_name user description title data_type link_id
        method reference copy_rels buckets ticket timestamp own_link st
      = (Return (RStatus false msg), st).
Proof.
  intros data source_name user description title data_type link_id
         method reference copy_rels buckets ticket timestamp own_link st H.
  apply submit_rejected; exact H.
Qed.

(** *** Deletion *)

Lemma filter_none_id {A} (p : A -> bool) (l : list A) :
  existsb p l = false -> filter (fun d => negb (p d)) l = l.
Proof.
  induction l as [|a l IH]; simpl; [reflexivity|].
  destruct (p a); simpl; [discriminate|].
  intros H; rewrite IH; auto.
Qed.

Lemma filter_filter_neg {A} (p : A -> bool) (l : list A) :
  filter p (filter (fun d => negb (p d)) l) = [].
Proof.
  induction l as [|a l IH]; simpl; [reflexivity|].
  destruct (p a) eqn:E; simpl; [exact IH|].
  rewrite E; exact IH.
Qed.

(** C6 (as the code has it): a caller who is not an administrator gets
    [False] and nothing is deleted; an administrator gets every
    document of that id removed and is told whether there was one.  The
    refusal and the answer for a missing record are the same value. *)
Theorem delete_signature_outcomes :
  forall oid username st,
    (is_admin username = false ->
       delete_signature is_admin oid username st = (Return false, st)) /\
    (is_admin username = true ->
       exists st',
         delete_signature is_admin oid username st
         = (Return (existsb (id_is oid) (signatures st)), st') /\
         objects (id_is oid) st' = [] /\
         signatures st'
         = filter (fun d => negb (id_is oid d)) (signatures st) /\
         (existsb (id_is oid) (signatures st) = false -> st' = st)).
Proof.
  intros oid username st; unfold delete_signature; split; intros ->.
  - reflexivity.
  - unfold bind, Signature_first.
    destruct (first (objects (id_is oid) st)) as [s|] eqn:E.
    + unfold objects in E. apply first_filter_some in E.
      destruct E as (Hid & _ & Hex). rewrite Hex.
      apply id_is_eq in Hid. unfold delete, ret. rewrite Hid.
      eexists; split; [reflexivity|].
      unfold objects; simpl. repeat split.
      * apply filter_filter_neg.
      * discriminate.
    + unfold objects in E. apply first_filter_none in E. rewrite E.
      exists st; unfold ret. repeat split.
      * apply first_filter_none in E. unfold objects.
        destruct (filter (id_is oid) (signatures st)); [reflexivity|discriminate].
      * symmetry; apply filter_none_id; exact E.
Qed.

(** *** Writes *)

Lemma save_invalid s u st msg :
  validate s = Some msg ->
  save validate s u st = (Raise (ValidationError msg), st).
Proof. unfold save; intros ->; reflexivity. Qed.

Lemma save_valid s u st :
  validate s = None ->
  save validate s u st = (Return (fst (write s st)), snd (write s st)).
Proof. unfold save; intros ->; reflexivity. Qed.

Lemma write_existing s st i :
  _id s = Some i -> existsb (id_is i) (signatures st) = true ->
  write s st = (s, with_signatures st (replace_doc i s (signatures st))).
Proof. unfold write; intros -> ->; reflexivity. Qed.

Lemma replace_doc_length i s l : length (replace_doc i s l) = length l.
Proof. apply length_map. Qed.

Lemma first_replace_doc i s l :
  _id s = Some i -> existsb (id_is i) l = true ->
  first (filter (id_is i) (replace_doc i s l)) = Some s.
Proof.
  intros Hs; apply id_is_eq in Hs.
  induction l as [|d l IH]; simpl; [discriminate|].
  destruct (id_is i d) eqn:E; simpl.
  - rewrite Hs; reflexivity.
  - rewrite E; exact IH.
Qed.

Lemma filter_other_replace_doc i j s l :
  _id s = Some i -> j <> i ->
  filter (id_is j) (replace_doc i s l) = filter (id_is j) l.
Proof.
  intros Hs Hj.
  assert (Hjs : id_is j s = false).
  { unfold id_is; rewrite Hs. apply Nat.eqb_neq; exact Hj. }
  induction l as [|d l IH]; simpl; [reflexivity|].
  destruct (id_is i d) eqn:E.
  - rewrite Hjs.
    assert (id_is j d = false) as ->.
    { apply id_is_eq in E. unfold id_is; rewrite E.
      apply Nat.eqb_neq; exact Hj. }
    exact IH.
  - destruct (id_is j d); rewrite IH; reflexivity.
Qed.

(** Overwriting the document found under [oid]. *)
Lemma write_found s s' st oid :
  first (objects (id_is oid) st) = Some s -> _id s' = Some oid ->
  exists st',
    write s' st = (s', st') /\
    first (objects (id_is oid) st') = Some s' /\
    length (signatures st') = length (signatures st) /\
    (forall j, j <> oid ->
       objects (id_is j) st' = objects (id_is j) st).
Proof.
  intros Hf Hs'. apply first_filter_some in Hf. destruct Hf as (_ & _ & Hex).
  rewrite (write_existing _ _ _ Hs' Hex).
  eexists; split; [reflexivity|]. unfold objects; simpl. repeat split.
  - apply first_replace_doc; assumption.
  - apply replace_doc_length.
  - intros j Hj; apply filter_other_replace_doc; assumption.
Qed.

Lemma found_id s st oid :
  first (objects (id_is oid) st) = Some s -> _id s = Some oid.
Proof.
  intros Hf; apply first_filter_some in Hf; apply id_is_eq; exact (proj1 Hf).
Qed.

(** *** Data type *)

(** A registered type together with an id that matches no record: the
    assignment to [None.data_type] raises. *)
Lemma update_signature_type_missing_record oid data_type analyst st :
  registered data_type st = true ->
  first (objects (id_is oid) st) = None ->
  update_signature_type validate oid data_type analyst st
  = (Raise AttributeError, st).
Proof.
  intros Hr Hf.
  destruct (SignatureType_first_registered _ _ Hr) as (t & Ht & _).
  unfold update_signature_type, bind at 1, Signature_first.
  rewrite Hf. unfold bind. rewrite Ht. reflexivity.
Qed.

(** A record is fixed by its data type and its other fields. *)
Lemma data_type_and_rest a b :
  data_type a = data_type b -> but_data_type a = but_data_type b -> a = b.
Proof.
  destruct a, b. unfold but_data_type. simpl. intros Ht Hb.
  injection Hb. intros. subst. reflexivity.
Qed.

(** C7 (what the code does), for every call.  An unregistered type is
    answered by [None], which is neither of the two [{'success': ...}]
    answers, and the store is untouched.  A registered type and an id
    that matches no record: line 444 assigns to [None.data_type], the
    [AttributeError] leaves the handler and nothing is stored.  A
    registered type and a record found: the record handed to [save]
    has the registered name as its data type and every other field as
    it was; when the schema accepts it, it is what the store holds
    under the id afterwards and no other record changes; when the
    save is refused, the answer is [{'success': False}] with the
    message of the [ValidationError] and nothing is stored. *)
Theorem update_signature_type_outcomes :
  forall oid kind analyst st,
    (registered kind st = false ->
       update_signature_type validate oid kind analyst st
       = (Return RNone, st)) /\
    (forall name,
       registered kind st = true -> kind = Some name ->
       (first (objects (id_is oid) st) = None ->
          update_signature_type validate oid kind analyst st
          = (Raise AttributeError, st)) /\
       (forall signature changed,
          first (objects (id_is oid) st) = Some signature ->
          data_type changed = name ->
          but_data_type changed = but_data_type signature ->
          (validate changed = None ->
             exists st',
               update_signature_type validate oid kind analyst st
               = (Return (RSuccessOnly true), st') /\
               first (objects (id_is oid) st') = Some changed /\
               length (signatures st') = length (signatures st) /\
               (forall j, j <> oid ->
                  objects (id_is j) st' = objects (id_is j) st)) /\
          (forall msg,
             validate changed = Some msg ->
             update_signature_type validate oid kind analyst st
             = (Return (RStatus false msg), st)))).
Proof.
  intros oid kind analyst st; split.
  - intros Hr. unfold update_signature_type, bind, Signature_first.
    rewrite (SignatureType_first_unregistered _ _ Hr). reflexivity.
  - intros name Hr Hn. split.
    { intros Hf. apply update_signature_type_missing_record; assumption. }
    intros signature changed Hf Hdt Hrest.
    assert (Hch : changed = set_data_type signature name).
    { apply data_type_and_rest; [exact Hdt|exact Hrest]. }
    subst changed.
    destruct (SignatureType_first_registered _ _ Hr) as (t & Ht & Hname).
    assert (t = name) by congruence; subst t.
    assert (Hrun :
      update_signature_type validate oid kind analyst st
      = try_except_ValidationError
          (save validate (set_data_type signature name) analyst ;;;
           ret (RSuccessOnly true))
          (fun msg => ret (RStatus false msg)) st).
    { unfold update_signature_type, bind at 1, Signature_first.
      rewrite Hf. unfold bind at 1. rewrite Ht. reflexivity. }
    rewrite Hrun. unfold try_except_ValidationError, bind.
    split.
    + intros Hv. rewrite (save_valid _ _ _ Hv).
      destruct (write_found signature (set_data_type signature name) st oid Hf)
        as (st' & Hw & H1 & H2 & H3).
      { simpl. eapply found_id; eassumption. }
      rewrite Hw; simpl. exists st'; repeat split; assumption.
    + intros msg Hv. rewrite (save_invalid _ _ _ _ Hv). reflexivity.
Qed.

(** *** Missing records *)

(** C9 (what the code does): with an id that matches no record the
    three handlers call a method on [None]; the [AttributeError] is not
    caught and no result is returned. *)
Theorem annotation_on_missing_record_raises :
  forall oid comment line_num line_data analyst now st,
    first (objects (id_is oid) st) = None ->
    new_inline_comment validate render_inline_comment
      oid comment line_num analyst now st = (Raise AttributeError, st) /\
    new_highlight validate render_signature_highlights
      oid line_num line_data analyst now st = (Raise AttributeError, st) /\
    delete_highlight validate render_signature_highlights
      oid line_num analyst st = (Raise AttributeError, st).
Proof.
  intros oid comment line_num line_data analyst now st Hf.
  unfold new_inline_comment, new_highlight, delete_highlight,
    bind, Signature_first.
  rewrite Hf. repeat split.
Qed.

(** *** Highlights *)

Lemma try_save_valid s u st (r : result) (h : string -> M result) :
  validate s = None ->
  try_except_ValidationError (save validate s u ;;; ret r) h st
  = (Return r, snd (write s st)).
Proof.
  intros Hv. unfold try_except_ValidationError, bind.
  rewrite (save_valid _ _ _ Hv). reflexivity.
Qed.

Lemma try_save_invalid s u st (r : result) (h : string -> M result) msg :
  validate s = Some msg ->
  try_except_ValidationError (save validate s u ;;; ret r) h st = h msg st.
Proof.
  intros Hv. unfold try_except_ValidationError, bind.
  rewrite (save_invalid _ _ _ _ Hv). reflexivity.
Qed.

Lemma py_int_value a n st :
  int_value int_of_str a = Some n -> py_int int_of_str a st = (Return n, st).
Proof.
  destruct a as [z|s]; simpl.
  - intros H; inversion H; reflexivity.
  - intros ->; reflexivity.
Qed.

Lemma has_line_app n l1 l2 :
  has_line n (l1 ++ l2) = has_line n l1 || has_line n l2.
Proof. apply existsb_app. Qed.

(** The first highlight of line [n] is the one that is changed. *)
Lemma change_first_split n f before h after :
  has_line n before = false -> line h = n ->
  change_first n f (before ++ h :: after) = before ++ f h :: after.
Proof.
  intros Hb Hh. induction before as [|b before IH]; simpl.
  - rewrite Hh, Z.eqb_refl; reflexivity.
  - simpl in Hb. apply orb_false_iff in Hb. destruct Hb as (Hb1 & Hb2).
    rewrite Hb1, (IH Hb2); reflexivity.
Qed.

Lemma change_first_absent n f hs :
  has_line n hs = false -> change_first n f hs = hs.
Proof.
  induction hs as [|h hs IH]; simpl; [reflexivity|].
  intros H; apply orb_false_iff in H. destruct H as (H1 & H2).
  rewrite H1, (IH H2); reflexivity.
Qed.

(** The loop with a change that cannot fail. *)
Lemma highlight_loop_pure f signature a analyst n st :
  int_value int_of_str a = Some n ->
  forall rest before,
    highlight_loop validate int_of_str (fun h => ret (f h))
      signature a analyst before rest st
    = if has_line n rest
      then try_except_ValidationError
             (save validate
                (set_highlights signature (before ++ change_first n f rest))
                analyst ;;; ret (RSuccessOnly true))
             (fun msg => ret (RStatus false msg)) st
      else (Return (RStatus false "Could not find highlight."), st).
Proof.
  intros Ha. induction rest as [|h rest IH]; intros before; simpl.
  - reflexivity.
  - unfold bind at 1. rewrite (py_int_value _ _ _ Ha).
    destruct (Z.eqb (line h) n) eqn:E; simpl.
    + reflexivity.
    + rewrite IH, <- app_assoc. reflexivity.
Qed.

(** The loop with a change that raises. *)
Lemma highlight_loop_raise e signature a analyst n st :
  int_value int_of_str a = Some n ->
  forall rest before,
    highlight_loop validate int_of_str (fun _ => raise e)
      signature a analyst before rest st
    = if has_line n rest
      then (Raise e, st)
      else (Return (RStatus false "Could not find highlight."), st).
Proof.
  intros Ha. induction rest as [|h rest IH]; intros before; simpl.
  - reflexivity.
  - unfold bind at 1. rewrite (py_int_value _ _ _ Ha).
    destruct (Z.eqb (line h) n) eqn:E; simpl.
    + reflexivity.
    + apply IH.
Qed.

Lemma change_first_in n f hs h' :
  In h' (change_first n f hs) ->
  In h' hs \/ exists h0, In h0 hs /\ line h0 = n /\ h' = f h0.
Proof.
  induction hs as [|h hs IH]; simpl; [intros []|].
  destruct (Z.eqb (line h) n) eqn:E; simpl.
  - intros [H|H]; [right|left; auto].
    exists h; apply Z.eqb_eq in E; auto.
  - intros [H|H]; [left; auto|].
    destruct (IH H) as [H1|(h0 & H1 & H2 & H3)]; [left; auto|right].
    exists h0; auto.
Qed.

Lemma comment_on_first_only_change n f hs :
  (forall h, line (f h) = line h) ->
  comment_on_first_only hs -> comment_on_first_only (change_first n f hs).
Proof.
  intros Hf. induction hs as [|h hs IH]; simpl; [auto|].
  intros (H1 & H2). destruct (Z.eqb (line h) n) eqn:E; simpl.
  - split; [|exact H2]. intros h' Hin Hl. apply H1; [exact Hin|].
    rewrite Hl; apply Hf.
  - split; [|apply IH; exact H2]. intros h' Hin Hl.
    destruct (change_first_in _ _ _ _ Hin) as [Hin'|(h0 & Hin' & Hn & ->)].
    + apply H1; assumption.
    + exfalso. rewrite Hf, Hn in Hl. apply Z.eqb_neq in E. congruence.
Qed.

Lemma built_comment_on_first_only hs :
  built hs -> comment_on_first_only hs.
Proof.
  induction 1 as [|hs n d a t _ IH|hs n c _ IH|hs n d _ IH|hs n _ IH].
  - exact I.
  - induction hs as [|h hs IHhs]; simpl.
    + split; [intros ? []|exact I].
    + destruct IH as (H1 & H2). split; [|apply IHhs; exact H2].
      intros h' Hin Hl. apply in_app_or in Hin. destruct Hin as [Hin|[<-|[]]].
      * apply H1; assumption.
      * reflexivity.
  - apply comment_on_first_only_change; [reflexivity|exact IH].
  - apply comment_on_first_only_change; [reflexivity|exact IH].
  - induction hs as [|h hs IHhs]; simpl; [exact I|].
    destruct IH as (H1 & H2).
    destruct (negb (Z.eqb (line h) n)); simpl; [|apply IHhs; exact H2].
    split; [|apply IHhs; exact H2].
    intros h' Hin Hl. apply filter_In in Hin.
    apply H1; [exact (proj1 Hin)|exact Hl].
Qed.

Lemma count_bearing_after_comment n c hs :
  comment_on_first_only hs -> has_line n hs = true ->
  count_bearing n c (change_first n (fun h => set_comment h (Some c)) hs) = 1.
Proof.
  unfold count_bearing.
  induction hs as [|h hs IH]; simpl; [discriminate|].
  intros (H1 & H2) Hl. destruct (Z.eqb (line h) n) eqn:E; simpl.
  - unfold bears at 1; simpl. rewrite E. simpl. rewrite String.eqb_refl. simpl.
    f_equal. apply Z.eqb_eq in E.
    assert (Hnone : forall h', In h' hs -> bears n c h' = false).
    { intros h' Hin. unfold bears. destruct (Z.eqb (line h') n) eqn:E'; [|reflexivity].
      apply Z.eqb_eq in E'. rewrite (H1 h' Hin) by congruence. reflexivity. }
    clear -Hnone. induction hs as [|x hs IH]; simpl; [reflexivity|].
    rewrite (Hnone x) by (left; reflexivity).
    apply IH. intros h' Hin; apply Hnone; right; exact Hin.
  - unfold bears at 1. rewrite E. simpl. apply IH; assumption.
Qed.

Lemma removal_shrinks n hs :
  (length (filter (fun h => negb (Z.eqb (line h) n)) hs) <= length hs)%nat /\
  (has_line n hs = true ->
   (length (filter (fun h => negb (Z.eqb (line h) n)) hs) < length hs)%nat) /\
  (has_line n hs = false ->
   filter (fun h => negb (Z.eqb (line h) n)) hs = hs).
Proof.
  induction hs as [|h hs (IH1 & IH2 & IH3)]; simpl.
  - repeat split; [lia|discriminate].
  - destruct (Z.eqb (line h) n) eqn:E; simpl.
    + repeat split; [lia|lia|discriminate].
    + repeat split; [lia| |].
      * intros H; specialize (IH2 H); lia.
      * intros H; rewrite (IH3 H); reflexivity.
Qed.

Lemma removal_complete n hs :
  has_line n (filter (fun h => negb (Z.eqb (line h) n)) hs) = false.
Proof.
  induction hs as [|h hs IH]; simpl; [reflexivity|].
  destruct (Z.eqb (line h) n) eqn:E; simpl; [exact IH|].
  rewrite E; exact IH.
Qed.

(** C5: [delete_highlight] drops every highlight of the line; the
    count goes down exactly when the line had a highlight.  On such a
    line the shrunken record is saved and the answer is a success; when
    nothing matched, the highlights and the store stay as they were and
    the answer is [{'success': False}]. *)
Theorem delete_highlight_outcomes :
  forall oid line_num analyst st signature,
    first (objects (id_is oid) st) = Some signature ->
    let kept := highlights (remove_highlight signature line_num analyst) in
    has_line line_num kept = false /\
    ((length kept < length (highlights signature))%nat <->
     has_line line_num (highlights signature) = true) /\
    (has_line line_num (highlights signature) = true ->
       (validate (remove_highlight signature line_num analyst) = None ->
          exists st',
            delete_highlight validate render_signature_highlights
              oid line_num analyst st
            = (Return (RHtml (render_signature_highlights oid kept)), st') /\
            first (objects (id_is oid) st')
            = Some (remove_highlight signature line_num analyst)) /\
       (forall msg,
          validate (remove_highlight signature line_num analyst) = Some msg ->
          delete_highlight validate render_signature_highlights
            oid line_num analyst st
          = (Return (RException (ValidationError msg)), st))) /\
    (has_line line_num (highlights signature) = false ->
       kept = highlights signature /\
       delete_highlight validate render_signature_highlights
         oid line_num analyst st
       = (Return (RSuccessOnly false), st)).
Proof.
  intros oid line_num analyst st signature Hf kept.
  destruct (removal_shrinks line_num (highlights signature)) as (Hle & Hlt & Hsame).
  assert (Hkept : kept
    = filter (fun h => negb (Z.eqb (line h) line_num)) (highlights signature))
    by reflexivity.
  assert (Hrun :
    delete_highlight validate render_signature_highlights oid line_num analyst st
    = if Nat.ltb (length kept) (length (highlights signature))
      then try_except_ValidationError
             (save validate (remove_highlight signature line_num analyst)
                (Some analyst) ;;;
              ret (RHtml (render_signature_highlights oid kept)))
             (fun msg => ret (RException (ValidationError msg))) st
      else (Return (RSuccessOnly false), st)).
  { unfold delete_highlight, bind at 1, Signature_first. rewrite Hf.
    fold kept. destruct (Nat.ltb (length kept) (length (highlights signature)));
      reflexivity. }
  split; [rewrite Hkept; apply removal_complete|].
  split.
  { split; [|rewrite Hkept; exact Hlt].
    intros Hlen. destruct (has_line line_num (highlights signature)) eqn:E;
      [reflexivity|].
    rewrite Hkept, (Hsame eq_refl) in Hlen. lia. }
  split.
  - intros Hl. specialize (Hlt Hl). rewrite <- Hkept in Hlt.
    apply Nat.ltb_lt in Hlt. rewrite Hlt in Hrun. rewrite Hrun. split.
    + intros Hv. rewrite (try_save_valid _ _ _ _ _ Hv).
      destruct (write_found signature
                  (remove_highlight signature line_num analyst) st oid Hf)
        as (st' & Hw & H1 & _).
      { simpl. eapply found_id; eassumption. }
      rewrite Hw; simpl. exists st'; split; [reflexivity|exact H1].
    + intros msg Hv. rewrite (try_save_invalid _ _ _ _ _ _ Hv). reflexivity.
  - intros Hl. specialize (Hsame Hl). rewrite <- Hkept in Hsame.
    split; [exact Hsame|].
    rewrite Hrun, Hsame, Nat.ltb_irrefl. reflexivity.
Qed.

(** C4: on a record whose highlights were built by the annotation
    operations, and for a line that denotes an integer:
    [update_signature_highlight_comment] changes the comment of the
    first highlight of that line, in place, and saves the record; once
    it has succeeded exactly one highlight bears that line and comment.
    When no highlight has the line, the answer is the soft failure
    ['Could not find highlight.'] and the store is untouched. *)
Theorem update_signature_highlight_comment_outcomes :
  forall oid new_comment line_arg analyst st signature n,
    first (objects (id_is oid) st) = Some signature ->
    int_value int_of_str line_arg = Some n ->
    built (highlights signature) ->
    (forall before h after,
       highlights signature = before ++ h :: after ->
       has_line n before = false -> line h = n ->
       let changed :=
         set_highlights signature
           (before ++ set_comment h (Some new_comment) :: after) in
       (validate changed = None ->
          exists st',
            update_signature_highlight_comment validate int_of_str
              oid new_comment line_arg analyst st
            = (Return (RSuccessOnly true), st') /\
            first (objects (id_is oid) st') = Some changed /\
            count_bearing n new_comment (highlights changed) = 1) /\
       (forall msg,
          validate changed = Some msg ->
          update_signature_highlight_comment validate int_of_str
            oid new_comment line_arg analyst st
          = (Return (RStatus false msg), st))) /\
    (has_line n (highlights signature) = false ->
       update_signature_highlight_comment validate int_of_str
         oid new_comment line_arg analyst st
       = (Return (RStatus false "Could not find highlight."), st)).
Proof.
  intros oid new_comment line_arg analyst st signature n Hf Ha Hb.
  assert (Hrun :
    update_signature_highlight_comment validate int_of_str
      oid new_comment line_arg analyst st
    = if has_line n (highlights signature)
      then try_except_ValidationError
             (save validate
                (set_highlights signature
                   (change_first n (fun h => set_comment h (Some new_comment))
                      (highlights signature)))
                analyst ;;; ret (RSuccessOnly true))
             (fun msg => ret (RStatus false msg)) st
      else (Return (RStatus false "Could not find highlight."), st)).
  { unfold update_signature_highlight_comment, bind at 1, Signature_first.
    rewrite Hf.
    rewrite (highlight_loop_pure _ _ _ _ _ _ Ha). reflexivity. }
  split.
  - intros before h after Hsplit Hbefore Hline changed.
    assert (Hhas : has_line n (highlights signature) = true).
    { rewrite Hsplit, has_line_app. simpl.
      rewrite Hline, Z.eqb_refl, orb_true_r. reflexivity. }
    assert (Hchanged : changed
      = set_highlights signature
          (change_first n (fun h => set_comment h (Some new_comment))
             (highlights signature))).
    { unfold changed. rewrite Hsplit.
      rewrite (change_first_split _ _ _ _ _ Hbefore Hline). reflexivity. }
    rewrite Hrun, Hhas, <- Hchanged. split.
    + intros Hv. rewrite (try_save_valid _ _ _ _ _ Hv).
      destruct (write_found signature changed st oid Hf)
        as (st' & Hw & H1 & _).
      { unfold changed; simpl. eapply found_id; eassumption. }
      rewrite Hw; simpl. exists st'; repeat split; [exact H1|].
      rewrite <- (change_first_split n
                    (fun h => set_comment h (Some new_comment))
                    _ _ _ Hbefore Hline), <- Hsplit.
      apply count_bearing_after_comment;
        [apply built_comment_on_first_only; exact Hb|exact Hhas].
    + intros msg Hv. rewrite (try_save_invalid _ _ _ _ _ _ Hv). reflexivity.
  - intros Hl. rewrite Hrun, Hl. reflexivity.
Qed.

(** C8 (what the code does): on a line that has a highlight, a date the
    fuzzy parser accepts is written to the first highlight of the line
    and the record is saved; a date it cannot parse makes the parser's
    [ValueError] leave the handler, with the store untouched. *)
Theorem update_signature_highlight_date_outcomes :
  forall oid date line_arg analyst st signature n,
    first (objects (id_is oid) st) = Some signature ->
    int_value int_of_str line_arg = Some n ->
    has_line n (highlights signature) = true ->
    (forall d,
       parse_fuzzy date = Some d ->
       let changed :=
         set_highlights signature
           (change_first n (fun h => set_line_date h d)
              (highlights signature)) in
       (validate changed = None ->
          exists st',
            update_signature_highlight_date validate parse_fuzzy int_of_str
              oid date line_arg analyst st
            = (Return (RSuccessOnly true), st') /\
            first (objects (id_is oid) st') = Some changed) /\
       (forall msg,
          validate changed = Some msg ->
          update_signature_highlight_date validate parse_fuzzy int_of_str
            oid date line_arg analyst st
          = (Return (RStatus false msg), st))) /\
    (parse_fuzzy date = None ->
       update_signature_highlight_date validate parse_fuzzy int_of_str
         oid date line_arg analyst st
       = (Raise ValueError, st)).
Proof.
  intros oid date line_arg analyst st signature n Hf Ha Hl. split.
  - intros d Hd changed.
    assert (Hrun :
      update_signature_highlight_date validate parse_fuzzy int_of_str
        oid date line_arg analyst st
      = try_except_ValidationError
          (save validate changed analyst ;;; ret (RSuccessOnly true))
          (fun msg => ret (RStatus false msg)) st).
    { unfold update_signature_highlight_date, bind at 1, Signature_first.
      rewrite Hf, Hd.
      rewrite (highlight_loop_pure (fun h => set_line_date h d) _ _ _ _ _ Ha).
      rewrite Hl. reflexivity. }
    rewrite Hrun. split.
    + intros Hv. rewrite (try_save_valid _ _ _ _ _ Hv).
      destruct (write_found signature changed st oid Hf)
        as (st' & Hw & H1 & _).
      { unfold changed; simpl. eapply found_id; eassumption. }
      rewrite Hw; simpl. exists st'; split; [reflexivity|exact H1].
    + intros msg Hv. rewrite (try_save_invalid _ _ _ _ _ _ Hv). reflexivity.
  - intros Hd.
    unfold update_signature_highlight_date, bind at 1, Signature_first.
    rewrite Hf, Hd.
    rewrite (highlight_loop_raise ValueError _ _ _ _ _ Ha).
    rewrite Hl. reflexivity.
Qed.

(** *** Well-formed stores under writes *)

Lemma id_preserved_map (f : Signature -> Signature) l :
  (forall d, _id (f d) = _id d) ->
  (forall j, existsb (id_is j) (map f l) = existsb (id_is j) l) /\
  (forall n, forallb (id_below n) (map f l) = forallb (id_below n) l) /\
  distinct_ids (map f l) = distinct_ids l.
Proof.
  intros Hf.
  assert (H1 : forall j, existsb (id_is j) (map f l) = existsb (id_is j) l).
  { intros j. induction l as [|d l IH]; simpl; [reflexivity|].
    rewrite IH. unfold id_is. rewrite Hf. reflexivity. }
  split; [exact H1|]. split.
  - intros n. clear H1. induction l as [|d l IH]; simpl; [reflexivity|].
    rewrite IH. unfold id_below. rewrite Hf. reflexivity.
  - clear H1. induction l as [|d l IH]; simpl; [reflexivity|].
    rewrite Hf, IH. destruct (_id d) as [i|]; [|reflexivity].
    f_equal. f_equal.
    clear IH. induction l as [|x l IH]; simpl; [reflexivity|].
    rewrite IH. unfold id_is. rewrite Hf. reflexivity.
Qed.

Lemma replace_doc_keeps_id i s :
  _id s = Some i ->
  forall d, _id (if id_is i d then s else d) = _id d.
Proof.
  intros Hs d. destruct (id_is i d) eqn:E; [|reflexivity].
  apply id_is_eq in E. congruence.
Qed.

Lemma replace_doc_twice i s1 s2 l :
  _id s1 = Some i ->
  replace_doc i s2 (replace_doc i s1 l) = replace_doc i s2 l.
Proof.
  intros Hs. unfold replace_doc. rewrite map_map. apply map_ext.
  intros d. destruct (id_is i d) eqn:E; [|rewrite E; reflexivity].
  apply id_is_eq in Hs. rewrite Hs. reflexivity.
Qed.

Lemma replace_doc_absent i s l :
  existsb (id_is i) l = false -> replace_doc i s l = l.
Proof.
  induction l as [|d l IH]; simpl; [reflexivity|].
  intros H. apply orb_false_iff in H. destruct H as (H1 & H2).
  rewrite H1, (IH H2). reflexivity.
Qed.

Lemma replace_doc_last i s x l :
  existsb (id_is i) l = false -> _id x = Some i ->
  replace_doc i s (l ++ [x]) = l ++ [s].
Proof.
  intros Hl Hx. unfold replace_doc. rewrite map_app. simpl.
  apply id_is_eq in Hx. rewrite Hx. f_equal.
  apply replace_doc_absent; exact Hl.
Qed.

Lemma fresh_id_unused st :
  store_ok st = true -> existsb (id_is (next_id st)) (signatures st) = false.
Proof.
  unfold store_ok. intros H. apply andb_true_iff in H. destruct H as (H & _).
  induction (signatures st) as [|d l IH]; simpl in *; [reflexivity|].
  apply andb_true_iff in H. destruct H as (H1 & H2).
  rewrite (IH H2), orb_false_r.
  unfold id_below in H1. unfold id_is.
  destruct (_id d) as [i|]; [|reflexivity].
  apply Nat.ltb_lt in H1. apply Nat.eqb_neq. lia.
Qed.

Lemma forallb_below_S n l :
  forallb (id_below n) l = true -> forallb (id_below (S n)) l = true.
Proof.
  induction l as [|d l IH]; simpl; [reflexivity|].
  intros H. apply andb_true_iff in H. destruct H as (H1 & H2).
  rewrite (IH H2), andb_true_r.
  unfold id_below in *. destruct (_id d) as [i|]; [|discriminate].
  apply Nat.ltb_lt in H1. apply Nat.ltb_lt. lia.
Qed.

Lemma distinct_ids_app l s n :
  distinct_ids l = true -> existsb (id_is n) l = false -> _id s = Some n ->
  distinct_ids (l ++ [s]) = true.
Proof.
  intros Hd Hn Hs. induction l as [|d l IH]; simpl in *.
  - rewrite Hs. reflexivity.
  - apply orb_false_iff in Hn. destruct Hn as (Hn1 & Hn2).
    destruct (_id d) as [i|] eqn:Ei; [|discriminate].
    apply andb_true_iff in Hd. destruct Hd as (Hd1 & Hd2).
    rewrite (IH Hd2 Hn2), andb_true_r.
    rewrite existsb_app. simpl. rewrite orb_false_r.
    apply negb_true_iff in Hd1. rewrite Hd1. simpl.
    unfold id_is in Hn1 |- *. rewrite Ei in Hn1. rewrite Hs.
    rewrite Nat.eqb_sym, Hn1. reflexivity.
Qed.

Lemma stored_as_ok st0 base_id obj st :
  store_ok st0 = true -> stored_as st0 base_id obj st -> store_ok st = true.
Proof.
  intros Hok (_ & _ & H). pose proof (fresh_id_unused _ Hok) as Hfresh.
  unfold store_ok in *. apply andb_true_iff in Hok. destruct Hok as (H1 & H2).
  destruct base_id as [i|].
  - destruct H as (Hid & Hn & Hs). rewrite Hs, Hn. unfold replace_doc.
    destruct (id_preserved_map (fun d => if id_is i d then obj else d)
                (signatures st0) (replace_doc_keeps_id i obj Hid))
      as (_ & Hb & Hd).
    rewrite Hb, Hd, H1, H2. reflexivity.
  - destruct H as (Hid & Hn & Hs). rewrite Hs, Hn.
    rewrite forallb_app. simpl.
    rewrite (forallb_below_S _ _ H1).
    rewrite (distinct_ids_app _ _ _ H2 Hfresh Hid).
    unfold id_below. rewrite Hid.
    assert (Nat.ltb (next_id st0) (S (next_id st0)) = true) as ->
      by (apply Nat.ltb_lt; lia).
    reflexivity.
Qed.

Lemma stored_as_first st0 base_id obj st :
  store_ok st0 = true ->
  match base_id with
  | Some i => existsb (id_is i) (signatures st0) = true
  | None => True
  end ->
  stored_as st0 base_id obj st ->
  exists i, _id obj = Some i /\
            first (objects (id_is i) st) = Some obj /\
            existsb (id_is i) (signatures st) = true.
Proof.
  intros Hok Hbase (_ & _ & H). pose proof (fresh_id_unused _ Hok) as Hfresh.
  unfold objects. destruct base_id as [i|].
  - destruct H as (Hid & _ & Hs). exists i. rewrite Hs.
    split; [exact Hid|]. split.
    + apply first_replace_doc; assumption.
    + unfold replace_doc.
      destruct (id_preserved_map (fun d => if id_is i d then obj else d)
                  (signatures st0) (replace_doc_keeps_id i obj Hid))
        as (He & _). rewrite He. exact Hbase.
  - destruct H as (Hid & _ & Hs). exists (next_id st0). rewrite Hs.
    split; [exact Hid|]. rewrite filter_app, existsb_app. simpl.
    apply id_is_eq in Hid. rewrite Hid. split; [|apply orb_true_r].
    apply first_filter_none in Hfresh.
    destruct (filter (id_is (next_id st0)) (signatures st0));
      [reflexivity|discriminate].
Qed.

(** The first write of a submission. *)
Lemma write_first s st0 :
  store_ok st0 = true -> attached s st0 ->
  stored_as st0 (_id s) (fst (write s st0)) (snd (write s st0)) /\
  fst (write s st0)
  = match _id s with
    | Some _ => s
    | None => set_id s (Some (next_id st0))
    end.
Proof.
  intros Hok Hatt. unfold write, attached, stored_as in *.
  destruct (_id s) as [i|] eqn:Ei.
  - rewrite Hatt. simpl. repeat split. exact Ei.
  - simpl. repeat split.
Qed.

(** A later write of the same submission. *)
Lemma write_again st0 base_id x st s :
  store_ok st0 = true ->
  match base_id with
  | Some i => existsb (id_is i) (signatures st0) = true
  | None => True
  end ->
  stored_as st0 base_id x st -> _id s = _id x ->
  write s st = (s, snd (write s st)) /\
  stored_as st0 base_id s (snd (write s st)).
Proof.
  intros Hok Hbase Hst Hid.
  destruct (stored_as_first _ _ _ _ Hok Hbase Hst) as (i & Hx & _ & Hex).
  destruct Hst as (Ht & Hg & H).
  rewrite Hx in Hid.
  rewrite (write_existing _ _ _ Hid Hex). simpl. split; [reflexivity|].
  unfold stored_as. simpl. repeat split; try assumption.
  destruct base_id as [j|].
  - destruct H as (Hxj & Hn & Hs). rewrite Hx in Hxj.
    inversion Hxj; subst j. repeat split; try assumption.
    rewrite Hs. apply replace_doc_twice. exact Hx.
  - destruct H as (Hxn & Hn & Hs). rewrite Hx in Hxn.
    inversion Hxn; subst i. repeat split; try assumption.
    rewrite Hs. apply replace_doc_last; [|exact Hx].
    apply fresh_id_unused; exact Hok.
Qed.

Lemma reload_stored st0 base_id x st :
  store_ok st0 = true ->
  match base_id with
  | Some i => existsb (id_is i) (signatures st0) = true
  | None => True
  end ->
  stored_as st0 base_id x st -> reload x st = (Return x, st).
Proof.
  intros Hok Hbase Hst.
  destruct (stored_as_first _ _ _ _ Hok Hbase Hst) as (i & Hx & Hf & _).
  unfold reload. rewrite Hx, Hf. reflexivity.
Qed.

(** *** Submission: what an accepted submission does *)

Lemma truthy_len data : truthy data = true -> Nat.leb (len data) 0 = false.
Proof.
  destruct data as [s|]; simpl; [|discriminate].
  destruct s; simpl; [discriminate|reflexivity].
Qed.

Lemma fold_left_field {A B} (g : Signature -> B)
    (f : Signature -> A -> Signature) l :
  (forall s x, g (f s x) = g s) ->
  forall s, g (fold_left f l s) = g s.
Proof.
  intros Hf. induction l as [|x l IH]; intros s; simpl; [reflexivity|].
  rewrite IH. apply Hf.
Qed.

Lemma add_submitted_sources_frame s a ts m r u :
  but_source (add_submitted_sources s a ts m r u) = but_source s.
Proof.
  destruct a as [|n|e|l|b]; simpl; try reflexivity.
  - destruct (Nat.ltb 0 (String.length n)); reflexivity.
  - destruct (Nat.ltb 0 (length l)); [|reflexivity].
    apply (fold_left_field but_source). intros x [e|]; reflexivity.
Qed.

Lemma copy_relationships_frame s rels u :
  but_relationships (copy_relationships class_from_id s rels u)
  = but_relationships s.
Proof.
  apply (fold_left_field but_relationships). intros x rel.
  destruct (class_from_id (rel_type rel) (rel_object_id rel)); reflexivity.
Qed.

Lemma link_signature_run s link cr user st :
  store_ok st = true -> attached s st ->
  link_signature validate class_from_id s link cr user st
  = match relationships_to_copy link cr st with
    | Some rels =>
        match validate (set_link_id s link) with
        | Some msg => (Raise (ValidationError msg), st)
        | None =>
            (Return (copy_relationships class_from_id
                       (fst (write (set_link_id s link) st)) rels user),
             snd (write (set_link_id s link) st))
        end
    | None => (Return (if truthy link then set_link_id s link else s), st)
    end.
Proof.
  intros Hok Hatt. unfold link_signature, relationships_to_copy.
  destruct (truthy link); simpl; [|reflexivity].
  destruct cr; simpl; [|reflexivity].
  unfold bind at 1, Signature_first.
  destruct (first (objects (link_id_is link) st)) as [rd2|]; [|reflexivity].
  destruct (Nat.ltb 0 (length (relationships rd2))); [|reflexivity].
  unfold bind at 1.
  destruct (validate (set_link_id s link)) as [msg|] eqn:Hv.
  - rewrite (save_invalid _ _ _ _ Hv). reflexivity.
  - rewrite (save_valid _ _ _ Hv). unfold bind at 1.
    assert (Hatt' : attached (set_link_id s link) st) by exact Hatt.
    destruct (write_first _ _ Hok Hatt') as (Hst & _).
    rewrite (reload_stored st (_id (set_link_id s link)) _ _ Hok Hatt' Hst).
    reflexivity.
Qed.

Lemma submit_run data source_name user description title data_type link_id
    method reference copy_rels buckets ticket timestamp own_link st :
  truthy data = true -> truthy title = true -> truthy data_type = true ->
  source_truthy source_name = true -> registered data_type st = true ->
  let digest := hashlib_md5 (str_value data) in
  let found := first (objects (md5_is digest) st) in
  let sourced :=
    add_submitted_sources
      (submitted_record found timestamp own_link description digest data
         title data_type)
      source_name timestamp method reference user in
  submit data source_name user description title data_type link_id
    method reference copy_rels buckets ticket timestamp own_link st
  = (s1 <- link_signature validate class_from_id sourced link_id
             copy_rels user ;;
     n <- Signature_count (link_id_is link_id) ;;
     s3 <- save validate (finish s1 n buckets ticket user) user ;;
     s4 <- (match found with
            | None => s <- reload s3 ;; run_triage s user ;;; ret s
            | Some _ => ret s3
            end) ;;
     ret (RUploaded "Uploaded signature" (_id s4) s4)) st.
Proof.
  intros Hd Ht Hy Hs Hr digest found sourced.
  unfold handle_signature_file. rewrite Hd, Ht, Hy, Hs. simpl.
  unfold bind at 1.
  destruct (SignatureType_first_registered _ _ Hr) as (t & -> & _).
  rewrite (truthy_len _ Hd).
  unfold bind at 1, Signature_first. fold digest. fold found.
  unfold sourced, submitted_record, finish.
  destruct found; reflexivity.
Qed.

Lemma finish_frame s n buckets ticket user :
  (_id (finish s n buckets ticket user) = _id s /\
   content_of (finish s n buckets ticket user) = content_of s /\
   source (finish s n buckets ticket user) = source s) /\
  link_id (finish s n buckets ticket user) = link_id s /\
  relationships (finish s n buckets ticket user) = relationships s /\
  version (finish s n buckets ticket user) = Some (n + 1).
Proof.
  unfold finish.
  destruct (Nat.ltb 0 (length buckets)), (Nat.ltb 0 (length ticket));
    repeat split.
Qed.

Lemma write_fst_frame s st :
  (content_of (fst (write s st)) = content_of s /\
   source (fst (write s st)) = source s) /\
  link_id (fst (write s st)) = link_id s /\
  relationships (fst (write s st)) = relationships s /\
  version (fst (write s st)) = version s.
Proof.
  unfold write. destruct (_id s) as [i|].
  - destruct (existsb (id_is i) (signatures st)); repeat split.
  - repeat split.
Qed.

Lemma sourced_frame s a ts m r u :
  (_id (add_submitted_sources s a ts m r u) = _id s /\
   content_of (add_submitted_sources s a ts m r u) = content_of s) /\
  link_id (add_submitted_sources s a ts m r u) = link_id s /\
  relationships (add_submitted_sources s a ts m r u) = relationships s.
Proof.
  pose proof (add_submitted_sources_frame s a ts m r u) as H.
  unfold but_source, content_of in *. injection H. intros.
  repeat split; congruence.
Qed.

Lemma copied_frame s rels u :
  (_id (copy_relationships class_from_id s rels u) = _id s /\
   content_of (copy_relationships class_from_id s rels u) = content_of s /\
   source (copy_relationships class_from_id s rels u) = source s) /\
  link_id (copy_relationships class_from_id s rels u) = link_id s /\
  version (copy_relationships class_from_id s rels u) = version s.
Proof.
  pose proof (copy_relationships_frame s rels u) as H.
  unfold but_relationships, content_of in *. injection H. intros.
  repeat split; congruence.
Qed.

(** An accepted submission either returns the uploaded record, stored
    under the id of the record found by digest or under a fresh one, or
    is stopped by the validation of a [save]. *)
Lemma submit_outcome data source_name user description title data_type
    link method reference copy_rels buckets ticket timestamp own_link st :
  store_ok st = true ->
  truthy data = true -> truthy title = true -> truthy data_type = true ->
  source_truthy source_name = true -> registered data_type st = true ->
  let digest := hashlib_md5 (str_value data) in
  let found := first (objects (md5_is digest) st) in
  let base :=
    submitted_record found timestamp own_link description digest data title
      data_type in
  let sourced :=
    add_submitted_sources base source_name timestamp method reference
      user in
  (exists obj st1,
     submit data source_name user description title data_type link
       method reference copy_rels buckets ticket timestamp own_link st
     = (Return (RUploaded "Uploaded signature" (_id obj) obj),
        match found with
        | Some _ => st1
        | None => handed_over (_id obj) st1
        end) /\
     stored_as st (_id base) obj st1 /\
     same_content base obj /\
     source obj = source sourced /\
     link_id obj = (if truthy link then link else link_id base) /\
     version obj
     = Some (length (objects (link_id_is link)
                       (store_at_count sourced link copy_rels st)) + 1) /\
     (relationships_to_copy link copy_rels st = None ->
      relationships obj = relationships base)) \/
  (exists msg s st1,
     submit data source_name user description title data_type link
       method reference copy_rels buckets ticket timestamp own_link st
     = (Raise (ValidationError msg), st1) /\
     validate s = Some msg /\ source s = source sourced /\
     (st1 = st \/ st1 = snd (write (set_link_id sourced link) st))).
Proof.
  intros Hok Hd Ht Hy Hs Hr digest found base sourced.
  pose proof (submit_run data source_name user description title data_type
                link method reference copy_rels buckets ticket timestamp own_link st
                Hd Ht Hy Hs Hr) as Hcall.
  cbv zeta in Hcall. fold digest in Hcall. fold found in Hcall.
  fold base in Hcall. fold sourced in Hcall.
  set (call := submit data source_name user description title data_type
                 link method reference copy_rels buckets ticket timestamp own_link st)
    in *.
  clearbody call.
  destruct (sourced_frame base source_name timestamp method reference user)
    as ((Hsid & Hsc) & Hsl & Hsr).
  fold sourced in Hsid, Hsc, Hsl, Hsr.
  assert (Hbase : match _id base with
                  | Some i => existsb (id_is i) (signatures st) = true
                  | None => True
                  end).
  { unfold base, submitted_record. destruct found as [s|] eqn:Hf.
    - unfold found, objects in Hf. apply first_filter_some in Hf.
      destruct Hf as (_ & Hin & _).
      destruct (_id s) as [i|] eqn:Ei; [|exact I].
      apply existsb_exists. exists s. split; [exact Hin|].
      apply id_is_eq; exact Ei.
    - exact I. }
  assert (Hatt : attached sourced st).
  { unfold attached. rewrite Hsid. exact Hbase. }
  unfold bind at 1 in Hcall.
  rewrite (link_signature_run _ _ _ _ _ Hok Hatt) in Hcall.
  unfold store_at_count.
  destruct (relationships_to_copy link copy_rels st) as [rels|] eqn:Hrel.
  - (* the record is saved before the count *)
    assert (Hlink : truthy link = true).
    { unfold relationships_to_copy in Hrel.
      destruct (truthy link); [reflexivity|discriminate]. }
    set (linked := set_link_id sourced link) in *.
    assert (Hlk : content_of linked = content_of sourced /\
                  source linked = source sourced /\
                  link_id linked = link) by (repeat split).
    destruct Hlk as (Hlc & Hls & Hll).
    destruct (validate linked) as [msg|] eqn:Hv.
    { right. exists msg, linked, st. repeat split; try assumption.
      left; reflexivity. }
    assert (Hatt' : attached linked st) by exact Hatt.
    destruct (write_first _ _ Hok Hatt') as (Hst & _).
    destruct (write_fst_frame linked st) as ((Hwc & Hws) & Hwl & Hwr & Hwv).
    set (early := fst (write linked st)) in *.
    set (st_e := snd (write linked st)) in *.
    destruct (copied_frame early rels user) as ((Hcid & Hcc & Hcs) & Hcl & Hcv).
    set (s1 := copy_relationships class_from_id early rels user) in *.
    unfold bind at 1, Signature_count in Hcall.
    set (n := length (objects (link_id_is link) st_e)) in *.
    destruct (finish_frame s1 n buckets ticket user)
      as ((Hfid & Hfc & Hfs) & Hfl & Hfr & Hfv).
    set (s2 := finish s1 n buckets ticket user) in *.
    unfold bind at 1 in Hcall.
    destruct (validate s2) as [msg|] eqn:Hv2.
    { rewrite (save_invalid _ _ _ _ Hv2) in Hcall. right.
      exists msg, s2, st_e.
      repeat split; [exact Hcall|exact Hv2| |right; reflexivity].
      congruence. }
    rewrite (save_valid _ _ _ Hv2) in Hcall.
    assert (Hbase' : match _id linked with
                     | Some i => existsb (id_is i) (signatures st) = true
                     | None => True
                     end) by exact Hatt.
    destruct (write_again st (_id linked) early st_e s2 Hok Hbase' Hst)
      as (Hw & Hst2); [congruence|].
    assert (Hfst : fst (write s2 st_e) = s2) by (rewrite Hw; reflexivity).
    rewrite Hfst in Hcall.
    set (st2 := snd (write s2 st_e)) in *.
    left. exists s2, st2.
    assert (Hidl : _id linked = _id base) by exact Hsid.
    rewrite Hidl in Hst2, Hbase'.
    split.
    { rewrite Hcall. unfold bind at 1. destruct found.
      - reflexivity.
      - unfold bind at 1.
        rewrite (reload_stored st (_id base) s2 st2 Hok Hbase' Hst2).
        reflexivity. }
    split; [exact Hst2|].
    split; [unfold same_content; congruence|].
    split; [congruence|].
    split; [rewrite Hlink; congruence|].
    split; [exact Hfv|discriminate].
  - (* no early save *)
    set (s1 := if truthy link then set_link_id sourced link else sourced) in *.
    assert (Hs1 : _id s1 = _id base /\ content_of s1 = content_of base /\
                  source s1 = source sourced /\
                  link_id s1 = (if truthy link then link else link_id base) /\
                  relationships s1 = relationships base).
    { unfold s1. destruct (truthy link); simpl; repeat split; assumption. }
    destruct Hs1 as (H1id & H1c & H1s & H1l & H1r).
    unfold bind at 1, Signature_count in Hcall.
    set (n := length (objects (link_id_is link) st)) in *.
    destruct (finish_frame s1 n buckets ticket user)
      as ((Hfid & Hfc & Hfs) & Hfl & Hfr & Hfv).
    set (s2 := finish s1 n buckets ticket user) in *.
    unfold bind at 1 in Hcall.
    destruct (validate s2) as [msg|] eqn:Hv2.
    { rewrite (save_invalid _ _ _ _ Hv2) in Hcall. right.
      exists msg, s2, st.
      repeat split; [exact Hcall|exact Hv2| |left; reflexivity].
      congruence. }
    rewrite (save_valid _ _ _ Hv2) in Hcall.
    assert (Hatt2 : attached s2 st).
    { unfold attached. rewrite Hfid, H1id. exact Hbase. }
    destruct (write_first _ _ Hok Hatt2) as (Hst & _).
    destruct (write_fst_frame s2 st) as ((Hwc & Hws) & Hwl & Hwr & Hwv).
    set (obj := fst (write s2 st)) in *.
    set (st2 := snd (write s2 st)) in *.
    left. exists obj, st2.
    assert (Hid2 : _id s2 = _id base) by congruence.
    rewrite Hid2 in Hst.
    split.
    { rewrite Hcall. unfold bind at 1. destruct found.
      - reflexivity.
      - unfold bind at 1.
        rewrite (reload_stored st (_id base) obj st2 Hok Hbase Hst).
        reflexivity. }
    split; [exact Hst|].
    split; [unfold same_content; congruence|].
    split; [congruence|].
    split; [congruence|].
    split; [congruence|intros _; congruence].
Qed.

(** A submission that was uploaded had passed every check. *)
Lemma submit_uploaded_valid {data source_name user description title
    data_type link method reference copy_rels buckets ticket timestamp
    own_link st msg oid obj st'} :
  submit data source_name user description title data_type link
    method reference copy_rels buckets ticket timestamp own_link st
  = (Return (RUploaded msg oid obj), st') ->
  truthy data = true /\ truthy title = true /\ truthy data_type = true /\
  source_truthy source_name = true /\ registered data_type st = true.
Proof.
  intros Hrun.
  assert (Hno : ~ invalid_submission data source_name title data_type st).
  { intros Hbad.
    destruct (submit_rejected data source_name user description title
                data_type link method reference copy_rels buckets ticket
                timestamp own_link st Hbad) as (m & Hm).
    rewrite Hm in Hrun. discriminate. }
  unfold invalid_submission in Hno.
  destruct (truthy data), (truthy title), (truthy data_type),
    (source_truthy source_name), (registered data_type st);
    try (exfalso; apply Hno; solve [auto 8]).
  repeat split.
Qed.

Lemma first_md5_replace digest i old obj l :
  distinct_ids l = true ->
  first (filter (md5_is digest) l) = Some old -> _id old = Some i ->
  md5 obj = digest ->
  first (filter (md5_is digest) (replace_doc i obj l)) = Some obj.
Proof.
  intros Hd Hf Hold Hobj.
  assert (Hm : md5_is digest obj = true).
  { unfold md5_is. rewrite Hobj. apply String.eqb_refl. }
  induction l as [|d l IH]; simpl in *; [discriminate|].
  destruct (_id d) as [j|] eqn:Ej; [|discriminate].
  apply andb_true_iff in Hd. destruct Hd as (Hd1 & Hd2).
  destruct (md5_is digest d) eqn:Em; simpl in Hf.
  - inversion Hf; subst d.
    assert (id_is i old = true) as -> by (apply id_is_eq; exact Hold).
    simpl. rewrite Hm. reflexivity.
  - assert (Hij : id_is i d = false).
    { destruct (id_is i d) eqn:Eid; [|reflexivity].
      apply id_is_eq in Eid. rewrite Ej in Eid. inversion Eid; subst j.
      apply first_filter_some in Hf. destruct Hf as (_ & Hin & _).
      apply negb_true_iff in Hd1.
      assert (existsb (id_is i) l = true).
      { apply existsb_exists. exists old. split; [exact Hin|].
        apply id_is_eq; exact Hold. }
      congruence. }
    rewrite Hij. simpl. rewrite Em. apply IH; assumption.
Qed.

Lemma stored_ids st :
  store_ok st = true ->
  forall d, In d (signatures st) -> exists i, _id d = Some i.
Proof.
  unfold store_ok. intros H d Hin. apply andb_true_iff in H.
  destruct H as (H & _). rewrite forallb_forall in H.
  specialize (H d Hin). unfold id_below in H.
  destruct (_id d) as [i|]; [exists i; reflexivity|discriminate].
Qed.

Lemma handed_over_ok i st : store_ok (handed_over i st) = store_ok st.
Proof. reflexivity. Qed.

(** After an upload the store is well formed and the uploaded record is
    the one a look-up by digest finds. *)
Lemma submit_leaves_record {data source_name user description title
    data_type link method reference copy_rels buckets ticket timestamp
    own_link st msg oid obj st'} :
  store_ok st = true ->
  submit data source_name user description title data_type link
    method reference copy_rels buckets ticket timestamp own_link st
  = (Return (RUploaded msg oid obj), st') ->
  store_ok st' = true /\ oid = _id obj /\
  first (objects (md5_is (hashlib_md5 (str_value data))) st') = Some obj /\
  exists i, _id obj = Some i /\ first (objects (id_is i) st') = Some obj.
Proof.
  intros Hok Hrun.
  destruct (submit_uploaded_valid Hrun)
    as (Hd & Ht & Hy & Hs & Hr).
  destruct (submit_outcome data source_name user description title data_type
              link method reference copy_rels buckets ticket timestamp own_link st
              Hok Hd Ht Hy Hs Hr)
    as [(o & st1 & Hcall & Hst & Hc & _)|(m & s & st1 & Hcall & _)];
    [|rewrite Hcall in Hrun; discriminate].
  rewrite Hcall in Hrun. inversion Hrun; subst; clear Hrun.
  set (digest := hashlib_md5 (str_value data)) in *.
  set (found := first (objects (md5_is digest) st)) in *.
  set (base := submitted_record found timestamp own_link description digest data
                 title data_type) in *.
  assert (Hmd5 : md5 obj = digest).
  { unfold same_content, content_of in Hc. injection Hc. intros.
    transitivity (md5 base); [congruence|].
    unfold base, submitted_record. destruct found as [s|] eqn:Hf.
    - unfold found, objects in Hf. apply first_filter_some in Hf.
      destruct Hf as (Hm & _). apply String.eqb_eq. exact Hm.
    - reflexivity. }
  assert (Hbase : match _id base with
                  | Some i => existsb (id_is i) (signatures st) = true
                  | None => True
                  end).
  { unfold base, submitted_record. destruct found as [s|] eqn:Hf.
    - unfold found, objects in Hf. apply first_filter_some in Hf.
      destruct Hf as (_ & Hin & _).
      destruct (_id s) as [i|] eqn:Ei; [|exact I].
      apply existsb_exists. exists s. split; [exact Hin|].
      apply id_is_eq; exact Ei.
    - exact I. }
  pose proof (stored_as_ok _ _ _ _ Hok Hst) as Hok1.
  destruct (stored_as_first _ _ _ _ Hok Hbase Hst) as (i & Hi & Hfi & _).
  assert (Hmd : first (objects (md5_is digest) st1) = Some obj).
  { destruct Hst as (_ & _ & Hshape). unfold base, submitted_record in Hshape.
    unfold objects. destruct found as [s|] eqn:Hf.
    - unfold found in Hf.
      assert (Hin : In s (signatures st)).
      { unfold objects in Hf. apply first_filter_some in Hf.
        exact (proj1 (proj2 Hf)). }
      destruct (stored_ids _ Hok _ Hin) as (k & Hk).
      rewrite Hk in Hshape. destruct Hshape as (_ & _ & Hsig).
      rewrite Hsig. apply (first_md5_replace digest k s); try assumption.
      unfold store_ok in Hok. apply andb_true_iff in Hok. exact (proj2 Hok).
    - simpl in Hshape. destruct Hshape as (_ & _ & Hsig). rewrite Hsig.
      rewrite filter_app. unfold found, objects in Hf.
      destruct (filter (md5_is digest) (signatures st)); [|discriminate].
      simpl. unfold md5_is at 1. rewrite Hmd5, String.eqb_refl. reflexivity. }
  destruct found; (split; [assumption|]); (split; [reflexivity|]);
    (split; [assumption|]); exists i; (split; [assumption|]); assumption.
Qed.

(** *** Submission: the same content twice *)






(** *** Submission: provenance *)

Lemma no_source_added s a ts m r u :
  carries_no_source a = true ->
  source_truthy a = true /\
  source (add_submitted_sources s a ts m r u) = source s.
Proof.
  destruct a as [|n|e|l|b]; simpl; try discriminate.
  - intros H. apply andb_true_iff in H. destruct H as (H1 & H2).
    split; [exact H1|].
    destruct (Nat.ltb 0 (length l)); [|reflexivity].
    clear H1. revert s.
    induction l as [|it l IH]; intros s; simpl; [reflexivity|].
    simpl in H2. apply andb_true_iff in H2. destruct H2 as (H2 & H3).
    destruct it; [discriminate|]. apply IH. exact H3.
  - intros ->. split; reflexivity.
Qed.

Lemma write_new s st :
  _id s = None ->
  signatures (snd (write s st))
  = signatures st ++ [set_id s (Some (next_id st))].
Proof. unfold write. intros ->. reflexivity. Qed.

(** A schema that refuses every document with the sources of the
    submitted record stops the submission at its first [save], and
    the store is left as it was. *)
Lemma submit_refused data source_name user description title data_type
    link method reference copy_rels buckets ticket timestamp own_link st :
  store_ok st = true ->
  truthy data = true -> truthy title = true -> truthy data_type = true ->
  source_truthy source_name = true -> registered data_type st = true ->
  let digest := hashlib_md5 (str_value data) in
  let found := first (objects (md5_is digest) st) in
  let sourced :=
    add_submitted_sources
      (submitted_record found timestamp own_link description digest data
         title data_type)
      source_name timestamp method reference user in
  (forall s, source s = source sourced -> validate s <> None) ->
  exists msg,
    submit data source_name user description title data_type link
      method reference copy_rels buckets ticket timestamp own_link st
    = (Raise (ValidationError msg), st).
Proof.
  intros Hok Hd Ht Hy Hs Hr digest found sourced Hrej.
  pose proof (submit_run data source_name user description title data_type
                link method reference copy_rels buckets ticket timestamp
                own_link st Hd Ht Hy Hs Hr) as Hcall.
  cbv zeta in Hcall. fold digest in Hcall. fold found in Hcall.
  fold sourced in Hcall. rewrite Hcall. clear Hcall.
  assert (Hatt : attached sourced st).
  { unfold attached, sourced.
    rewrite (proj1 (proj1 (sourced_frame _ source_name timestamp method
                             reference user))).
    unfold submitted_record. destruct found as [s|] eqn:Hf; [|exact I].
    unfold found, objects in Hf. apply first_filter_some in Hf.
    destruct Hf as (_ & Hin & _).
    destruct (_id s) as [i|] eqn:Ei; [|exact I].
    apply existsb_exists. exists s. split; [exact Hin|].
    apply id_is_eq; exact Ei. }
  unfold bind at 1. rewrite (link_signature_run _ _ _ _ _ Hok Hatt).
  destruct (relationships_to_copy link copy_rels st) as [rels|].
  - destruct (validate (set_link_id sourced link)) as [msg|] eqn:Hv.
    + exists msg. reflexivity.
    + exfalso. exact (Hrej (set_link_id sourced link) eq_refl Hv).
  - unfold bind at 1, Signature_count. unfold bind at 1.
    set (s1 := if truthy link then set_link_id sourced link else sourced).
    set (n := length (objects (link_id_is link) st)).
    destruct (finish_frame s1 n buckets ticket user) as ((_ & _ & Hfs) & _).
    assert (Hs1 : source s1 = source sourced).
    { unfold s1. destruct (truthy link); reflexivity. }
    destruct (validate (finish s1 n buckets ticket user)) as [msg|] eqn:Hv.
    + rewrite (save_invalid _ _ _ _ Hv). exists msg. reflexivity.
    + exfalso. apply (Hrej (finish s1 n buckets ticket user)); [|exact Hv].
      congruence.
Qed.

(** C10 (as the code has it): a truthy [source_name] that is no str,
    no [EmbeddedSource] and no list holding one passes the source
    check of line 330 and none of the branches of lines 367-380 adds
    a source.  On new content the handler builds a record without
    sources and hands it to [save] as it is, so that what happens is
    the schema's decision alone: the call either stores the record
    with an empty source list, or a [save] refuses a record without
    sources and its [ValidationError] leaves the handler, the store
    being as it was or holding the record, without sources, from the
    early save of line 389.  Under a schema that accepts documents
    without sources the record is persisted; under a schema that
    refuses them nothing is stored. *)
Theorem submission_without_provenance :
  forall content source_name user summary heading kind link
         method reference copy_rels buckets ticket timestamp own_link st,
    store_ok st = true ->
    truthy content = true -> truthy heading = true -> truthy kind = true ->
    registered kind st = true ->
    carries_no_source source_name = true ->
    first (objects (md5_is (hashlib_md5 (str_value content))) st) = None ->
    let run :=
      submit content source_name user summary heading kind link
        method reference copy_rels buckets ticket timestamp own_link st in
    let persisted :=
      exists obj st',
        run = (Return (RUploaded "Uploaded signature" (_id obj) obj), st') /\
        source obj = [] /\
        data obj = str_value content /\
        signatures st' = signatures st ++ [obj] /\
        first (objects (md5_is (hashlib_md5 (str_value content))) st')
        = Some obj in
    (persisted \/
     exists msg s st',
       run = (Raise (ValidationError msg), st') /\
       validate s = Some msg /\ source s = [] /\
       (st' = st \/
        exists early,
          source early = [] /\
          signatures st' = signatures st ++ [early])) /\
    ((forall s, source s = [] -> validate s = None) -> persisted) /\
    ((forall s, source s = [] -> validate s <> None) ->
     exists msg, run = (Raise (ValidationError msg), st)).
Proof.
  intros content source_name user summary heading kind link
         method reference copy_rels buckets ticket timestamp own_link st
         Hok Hd Ht Hy Hr Hno Hnew run persisted.
  set (base := submitted_record None timestamp own_link summary
                 (hashlib_md5 (str_value content)) content heading kind).
  destruct (no_source_added base source_name timestamp method reference
              user Hno) as (Hs & Hsrc).
  assert (Hbase : source base = []) by reflexivity.
  assert (Houtcome :
    persisted \/
    exists msg s st',
      run = (Raise (ValidationError msg), st') /\
      validate s = Some msg /\ source s = [] /\
      (st' = st \/
       exists early,
         source early = [] /\
         signatures st' = signatures st ++ [early])).
  { destruct (submit_outcome content source_name user summary heading kind
                link method reference copy_rels buckets ticket timestamp
                own_link st Hok Hd Ht Hy Hs Hr)
      as [(obj & st1 & Hcall & Hst & Hc & Hso & _)
         |(m & s & st1 & Hcall & Hv & Hss & Hst)];
      rewrite Hnew in *; fold base in Hsrc.
    - left. exists obj, (handed_over (_id obj) st1).
      assert (Hempty : source obj = [])
        by exact (eq_trans Hso (eq_trans Hsrc Hbase)).
      assert (Hsig : signatures st1 = signatures st ++ [obj]).
      { destruct Hst as (_ & _ & _ & _ & Hsig). exact Hsig. }
      split; [exact Hcall|]. split; [exact Hempty|].
      split.
      { unfold same_content, content_of in Hc. simpl in Hc.
        injection Hc. intros. congruence. }
      split; [exact Hsig|].
      pose proof Hcall as Hrun.
      apply (submit_leaves_record Hok) in Hrun.
      exact (proj1 (proj2 (proj2 Hrun))).
    - right. exists m, s, st1.
      split; [exact Hcall|]. split; [exact Hv|].
      split; [exact (eq_trans Hss (eq_trans Hsrc Hbase))|].
      destruct Hst as [->| ->]; [left; reflexivity|right].
      eexists. split;
        [|apply write_new;
          exact (proj1 (proj1 (sourced_frame base source_name timestamp
                                 method reference user)))].
      exact (eq_trans Hsrc Hbase). }
  split; [exact Houtcome|]. split.
  - intros Hschema.
    destruct Houtcome as [Hp|(m & s & st1 & _ & Hv & Hss & _)];
      [exact Hp|].
    rewrite (Hschema s Hss) in Hv. discriminate.
  - intros Hschema.
    apply (submit_refused content source_name user summary heading kind
             link method reference copy_rels buckets ticket timestamp
             own_link st Hok Hd Ht Hy Hs Hr).
    rewrite Hnew. intros s Hss. apply Hschema.
    exact (eq_trans Hss (eq_trans Hsrc Hbase)).
Qed.

(** *** Submission: versions within a chain *)

Lemma chain_count_append link l x :
  link_id x = link ->
  length (filter (link_id_is link) (l ++ [x]))
  = length (filter (link_id_is link) l) + 1.
Proof.
  intros Hx. rewrite filter_app, length_app. simpl.
  unfold link_id_is at 2. rewrite Hx, py_str_eqb_refl. reflexivity.
Qed.

(** New content, a link id, and no early save: the version is the size
    of the chain plus one, and the chain has grown by this record. *)
Lemma fresh_submission_version {data source_name user description title
    data_type link method reference copy_rels buckets ticket timestamp
    own_link st msg oid obj st'} :
  store_ok st = true ->
  truthy link = true ->
  first (objects (md5_is (hashlib_md5 (str_value data))) st) = None ->
  relationships_to_copy link copy_rels st = None ->
  submit data source_name user description title data_type link
    method reference copy_rels buckets ticket timestamp own_link st
  = (Return (RUploaded msg oid obj), st') ->
  version obj = Some (length (objects (link_id_is link) st) + 1) /\
  signatures st' = signatures st ++ [obj] /\
  length (objects (link_id_is link) st')
  = length (objects (link_id_is link) st) + 1.
Proof.
  intros Hok Hlink Hnew Hnone Hrun.
  destruct (submit_uploaded_valid Hrun)
    as (Hd & Ht & Hy & Hs & Hr).
  destruct (submit_outcome data source_name user description title data_type
              link method reference copy_rels buckets ticket timestamp own_link st
              Hok Hd Ht Hy Hs Hr)
    as [(o & st1 & Hcall & Hst & _ & _ & Hl & Hver & _)
       |(m & s & st1 & Hcall & _)];
    [|rewrite Hcall in Hrun; discriminate].
  rewrite Hnew in *. rewrite Hcall in Hrun.
  inversion Hrun; subst; clear Hrun.
  unfold store_at_count in Hver. rewrite Hnone in Hver.
  rewrite Hlink in Hl.
  destruct Hst as (_ & _ & _ & _ & Hsig). simpl.
  split; [exact Hver|]. split; [exact Hsig|].
  unfold objects. simpl. rewrite Hsig.
  apply chain_count_append. exact Hl.
Qed.

(** C2 (what the code does): when relationships are copied, the new
    record is saved before the chain is counted and counts itself: on
    new content the version is the size of the chain plus two, one more
    than the count of the records that were there, and a version number
    is skipped. *)
Theorem copy_rels_skips_a_version :
  forall data source_name user description title data_type link
         method reference buckets ticket timestamp own_link st rels msg oid obj st',
    store_ok st = true ->
    first (objects (md5_is (hashlib_md5 (str_value data))) st) = None ->
    relationships_to_copy link true st = Some rels ->
    submit data source_name user description title data_type link
      method reference true buckets ticket timestamp own_link st
    = (Return (RUploaded msg oid obj), st') ->
    version obj = Some (length (objects (link_id_is link) st) + 2) /\
    length (objects (link_id_is link) st')
    = length (objects (link_id_is link) st) + 1.
Proof.
  intros data source_name user description title data_type link
         method reference buckets ticket timestamp own_link st rels msg oid obj st'
         Hok Hnew Hcopy Hrun.
  destruct (submit_uploaded_valid Hrun)
    as (Hd & Ht & Hy & Hs & Hr).
  destruct (submit_outcome data source_name user description title data_type
              link method reference true buckets ticket timestamp own_link st
              Hok Hd Ht Hy Hs Hr)
    as [(o & st1 & Hcall & Hst & _ & _ & Hl & Hver & _)
       |(m & s & st1 & Hcall & _)];
    [|rewrite Hcall in Hrun; discriminate].
  rewrite Hnew in *. rewrite Hcall in Hrun.
  inversion Hrun; subst; clear Hrun.
  assert (Hlink : truthy link = true).
  { unfold relationships_to_copy in Hcopy.
    destruct (truthy link); [reflexivity|discriminate]. }
  rewrite Hlink in Hl.
  unfold store_at_count in Hver. rewrite Hcopy in Hver.
  destruct (sourced_frame
              (submitted_record None timestamp own_link description
                 (hashlib_md5 (str_value data)) data title data_type)
              source_name timestamp method reference user)
    as ((Hsid & _) & _).
  match type of Hver with
  | context [write ?s st] =>
      assert (Hw : signatures (snd (write s st))
                   = signatures st ++ [set_id s (Some (next_id st))])
        by (apply write_new; exact Hsid)
  end.
  unfold objects in Hver at 1. rewrite Hw in Hver.
  rewrite chain_count_append in Hver by reflexivity.
  destruct Hst as (_ & _ & _ & _ & Hsig).
  split.
  - rewrite Hver. unfold objects. f_equal. lia.
  - unfold objects. simpl. rewrite Hsig.
    apply chain_count_append. exact Hl.
Qed.

Lemma submit_succeeds data source_name user description title data_type
    link method reference copy_rels buckets ticket timestamp own_link st :
  store_ok st = true ->
  truthy data = true -> truthy title = true -> truthy data_type = true ->
  source_truthy source_name = true -> registered data_type st = true ->
  (forall s, validate s = None) ->
  exists obj st',
    submit data source_name user description title data_type link
      method reference copy_rels buckets ticket timestamp own_link st
    = (Return (RUploaded "Uploaded signature" (_id obj) obj), st') /\
    signature_types st' = signature_types st.
Proof.
  intros Hok Hd Ht Hy Hs Hr Hall.
  destruct (submit_outcome data source_name user description title data_type
              link method reference copy_rels buckets ticket timestamp own_link st
              Hok Hd Ht Hy Hs Hr)
    as [(obj & st1 & Hcall & Hst & _)|(m & s & st1 & _ & Hv & _)].
  - eexists; eexists; split; [exact Hcall|].
    destruct Hst as (Hty & _).
    destruct (first (objects (md5_is (hashlib_md5 (str_value data))) st));
      exact Hty.
  - rewrite Hall in Hv. discriminate.
Qed.

(** Sequential submissions of new, pairwise different content into one
    chain, none of them copying relationships, under a schema that
    accepts the records: the versions assigned continue the count of
    the chain without gap or repeat; from an empty chain they are
    [1 .. N]. *)
Theorem sequential_versions_without_copy :
  forall link subs st,
    store_ok st = true ->
    truthy link = true ->
    (forall s, validate s = None) ->
    Forall (fun s => fresh_submission hashlib_md5 s st) subs ->
    NoDup (map (fun s => hashlib_md5 (str_value (s_data s))) subs) ->
    map assigned_version
      (fst (submit_chain hashlib_md5 validate class_from_id
              link false subs st))
    = map Some
        (seq (length (objects (link_id_is link) st) + 1) (length subs)).
Proof.
  intros link subs. induction subs as [|s subs IH];
    intros st Hok Hlink Hall Hfresh Hnd; [reflexivity|].
  inversion Hfresh as [|? ? (Hd & Ht & Hy & Hs & Hr & Hnew) Hrest]; subst.
  inversion Hnd as [|? ? Hnotin Hnd']; subst.
  destruct (submit_succeeds (s_data s) (s_source s) (s_user s)
              (s_description s) (s_title s) (s_data_type s) link
              (s_method s) (s_reference s) false (s_buckets s) (s_ticket s)
              (s_timestamp s) (s_own_link s) st Hok Hd Ht Hy Hs Hr Hall)
    as (obj & st' & Hrun & Hty).
  assert (Hnone : relationships_to_copy link false st = None).
  { unfold relationships_to_copy. rewrite andb_false_r. reflexivity. }
  destruct (fresh_submission_version Hok Hlink Hnew Hnone Hrun) as (Hver & Hsig & Hcount).
  destruct (submit_leaves_record Hok Hrun) as (Hok' & _ & Hmd & _).
  cbn [submit_chain]. rewrite Hrun.
  cbn [fst snd map assigned_version length seq]. rewrite Hver.
  f_equal.
  rewrite (IH st' Hok' Hlink Hall).
  - rewrite Hcount, (Nat.add_1_r (_ + 1)). reflexivity.
  - rewrite Forall_forall in *. intros x Hx.
    destruct (Hrest x Hx) as (Hd' & Ht' & Hy' & Hs' & Hr' & Hnew').
    unfold fresh_submission, registered. rewrite Hty.
    repeat (split; [assumption|]).
    unfold objects in *. rewrite Hsig, filter_app.
    apply first_filter_none in Hnew'.
    assert (filter (md5_is (hashlib_md5 (str_value (s_data x))))
              (signatures st) = []) as ->.
    { apply first_filter_none in Hnew'.
      destruct (filter (md5_is (hashlib_md5 (str_value (s_data x))))
                  (signatures st)); [reflexivity|discriminate]. }
    simpl.
    destruct (md5_is (hashlib_md5 (str_value (s_data x))) obj) eqn:E;
      [|reflexivity].
    exfalso. apply Hnotin.
    apply first_filter_some in Hmd. destruct Hmd as (Hm & _).
    unfold md5_is in E, Hm.
    apply String.eqb_eq in E. apply String.eqb_eq in Hm.
    apply in_map_iff. exists x. split; [congruence|exact Hx].
  - exact Hnd'.
Qed.

(** *** Highlights of stored records are built highlights *)

Lemma write_built s st :
  all_built st -> built (highlights s) -> all_built (snd (write s st)).
Proof.
  unfold all_built, write. intros Hall Hs.
  destruct (_id s) as [i|].
  - destruct (existsb (id_is i) (signatures st)); simpl.
    + unfold replace_doc. apply Forall_map.
      apply (Forall_impl _ (P := fun d => built (highlights d)));
        [|exact Hall].
      intros d Hd. destruct (id_is i d); assumption.
    + apply Forall_app. split; [exact Hall|]. constructor; [exact Hs|constructor].
  - simpl. apply Forall_app. split; [exact Hall|].
    constructor; [exact Hs|constructor].
Qed.

Lemma try_save_built s u st r (h : string -> result) :
  all_built st -> built (highlights s) ->
  all_built
    (snd (try_except_ValidationError (save validate s u ;;; ret r)
            (fun msg => ret (h msg)) st)).
Proof.
  intros Hall Hs.
  destruct (validate s) as [msg|] eqn:Hv.
  - rewrite (try_save_invalid _ _ _ _ _ _ Hv). exact Hall.
  - rewrite (try_save_valid _ _ _ _ _ Hv). apply write_built; assumption.
Qed.

Lemma found_built st p s :
  all_built st -> first (objects p st) = Some s -> built (highlights s).
Proof.
  unfold all_built. intros Hall Hf. apply first_filter_some in Hf.
  rewrite Forall_forall in Hall. apply Hall. exact (proj1 (proj2 Hf)).
Qed.

Lemma highlight_loop_no_int change signature a analyst st :
  int_value int_of_str a = None ->
  forall rest before,
    snd (highlight_loop validate int_of_str change signature a analyst
           before rest st) = st.
Proof.
  intros Ha rest before. destruct rest as [|h rest]; simpl; [reflexivity|].
  unfold bind. destruct a as [z|s]; simpl in *; [discriminate|].
  rewrite Ha. reflexivity.
Qed.

Lemma highlight_loop_built f signature a analyst st :
  all_built st -> built (highlights signature) ->
  (forall n, built (change_first n f (highlights signature))) ->
  all_built
    (snd (highlight_loop validate int_of_str (fun h => ret (f h))
            signature a analyst [] (highlights signature) st)).
Proof.
  intros Hall Hs Hf.
  destruct (int_value int_of_str a) as [n|] eqn:Ha.
  - rewrite (highlight_loop_pure _ _ _ _ _ _ Ha).
    destruct (has_line n (highlights signature)); [|exact Hall].
    apply (try_save_built _ _ _ _ (fun msg => RStatus false msg));
      [exact Hall|]. apply Hf.
  - rewrite (highlight_loop_no_int _ _ _ _ _ Ha). exact Hall.
Qed.

(** The annotation handlers only ever store built highlights. *)
Theorem annotation_keeps_built :
  forall st, all_built st ->
    (forall oid c n a now,
       all_built (snd (new_inline_comment validate render_inline_comment
                         oid c n a now st))) /\
    (forall oid n d a now,
       all_built (snd (new_highlight validate render_signature_highlights
                         oid n d a now st))) /\
    (forall oid c l a,
       all_built (snd (update_signature_highlight_comment validate
                         int_of_str oid c l a st))) /\
    (forall oid d l a,
       all_built (snd (update_signature_highlight_date validate
                         parse_fuzzy int_of_str oid d l a st))) /\
    (forall oid n a,
       all_built (snd (delete_highlight validate
                         render_signature_highlights oid n a st))).
Proof.
  intros st Hall. repeat split.
  - intros oid c n a now. unfold new_inline_comment, bind at 1, Signature_first.
    destruct (first (objects (id_is oid) st)) as [s|] eqn:Hf; [|exact Hall].
    apply (try_save_built _ _ _ _ (fun msg => RException (ValidationError msg)));
      [exact Hall|]. simpl. eapply found_built; eassumption.
  - intros oid n d a now. unfold new_highlight, bind at 1, Signature_first.
    destruct (first (objects (id_is oid) st)) as [s|] eqn:Hf; [|exact Hall].
    apply (try_save_built _ _ _ _ (fun msg => RException (ValidationError msg)));
      [exact Hall|]. simpl. apply built_add. eapply found_built; eassumption.
  - intros oid c l a.
    unfold update_signature_highlight_comment, bind at 1, Signature_first.
    destruct (first (objects (id_is oid) st)) as [s|] eqn:Hf; [|exact Hall].
    pose proof (found_built _ _ _ Hall Hf) as Hs.
    apply highlight_loop_built; [exact Hall|exact Hs|].
    intros n. apply built_comment. exact Hs.
  - intros oid d l a.
    unfold update_signature_highlight_date, bind at 1, Signature_first.
    destruct (first (objects (id_is oid) st)) as [s|] eqn:Hf; [|exact Hall].
    pose proof (found_built _ _ _ Hall Hf) as Hs.
    destruct (parse_fuzzy d) as [z|].
    + apply (highlight_loop_built (fun h => set_line_date h z));
        [exact Hall|exact Hs|].
      intros n. apply built_date. exact Hs.
    + destruct (int_value int_of_str l) as [n|] eqn:Ha.
      * rewrite (highlight_loop_raise ValueError _ _ _ _ _ Ha).
        destruct (has_line n (highlights s)); exact Hall.
      * rewrite (highlight_loop_no_int _ _ _ _ _ Ha). exact Hall.
  - intros oid n a. unfold delete_highlight, bind at 1, Signature_first.
    destruct (first (objects (id_is oid) st)) as [s|] eqn:Hf; [|exact Hall].
    destruct (Nat.ltb _ _); [|exact Hall].
    apply (try_save_built _ _ _ _ (fun msg => RException (ValidationError msg)));
      [exact Hall|]. simpl. apply built_remove. eapply found_built; eassumption.
Qed.

(** A submission creates records without highlights and leaves the
    highlights of a record it reuses alone. *)
Theorem submission_keeps_built :
  forall data source_name user description title data_type link
         method reference copy_rels buckets ticket timestamp own_link st,
    store_ok st = true -> all_built st ->
    all_built
      (snd (submit data source_name user description title data_type link
              method reference copy_rels buckets ticket timestamp own_link st)).
Proof.
  intros data source_name user description title data_type link
         method reference copy_rels buckets ticket timestamp own_link st Hok Hall.
  destruct (truthy data) eqn:Hd, (truthy title) eqn:Ht,
    (truthy data_type) eqn:Hy, (source_truthy source_name) eqn:Hs,
    (registered data_type st) eqn:Hr;
    try (destruct (submit_rejected data source_name user description title
                     data_type link method reference copy_rels buckets
                     ticket timestamp own_link st) as (m & ->);
         [unfold invalid_submission; solve [auto 8]|exact Hall]).
  set (digest := hashlib_md5 (str_value data)).
  set (found := first (objects (md5_is digest) st)).
  set (base := submitted_record found timestamp own_link description digest data
                 title data_type).
  assert (Hb : built (highlights base)).
  { unfold base, submitted_record. destruct found as [s|] eqn:Hf.
    - eapply found_built; eassumption.
    - constructor. }
  destruct (submit_outcome data source_name user description title data_type
              link method reference copy_rels buckets ticket timestamp own_link st
              Hok Hd Ht Hy Hs Hr)
    as [(obj & st1 & -> & Hst & Hc & _)|(m & s & st1 & -> & _ & _ & Hst1)].
  - fold digest in Hst, Hc |- *. fold found in Hst, Hc |- *.
    fold base in Hst, Hc |- *.
    assert (Hobj : built (highlights obj)).
    { unfold same_content, content_of in Hc. injection Hc. intros.
      congruence. }
    assert (H1 : all_built st1).
    { destruct Hst as (_ & _ & Hshape). unfold all_built in *.
      destruct (_id base) as [i|].
      - destruct Hshape as (_ & _ & ->). unfold replace_doc.
        apply Forall_map.
        apply (Forall_impl _ (P := fun d => built (highlights d)));
          [|exact Hall].
        intros d Hd'. destruct (id_is i d); assumption.
      - destruct Hshape as (_ & _ & ->). apply Forall_app.
        split; [exact Hall|]. constructor; [exact Hobj|constructor]. }
    simpl. destruct found; exact H1.
  - fold digest in Hst1. fold found in Hst1. fold base in Hst1.
    simpl. destruct Hst1 as [->| ->]; [exact Hall|].
    apply write_built; [exact Hall|].
    destruct (sourced_frame base source_name timestamp method reference user)
      as ((_ & Hc) & _).
    simpl. unfold content_of in Hc. injection Hc. intros. congruence.
Qed.

(** *** Registration of signature types *)

Variable reverse_detail : option nat -> string.
Variable user_sources : string -> list string.
Variable sanitize : Signature -> string -> Signature.
Variable validate_type : string -> option string.

Lemma lstrip_idempotent s : lstrip (lstrip s) = lstrip s.
Proof.
  induction s as [|c s IH]; simpl; [reflexivity|].
  destruct (is_space c) eqn:E; [exact IH|]. simpl. rewrite E. reflexivity.
Qed.

Lemma rstrip_idempotent s : rstrip (rstrip s) = rstrip s.
Proof.
  induction s as [|c s IH]; simpl; [reflexivity|].
  destruct (is_space c && (rstrip s =? "")%string) eqn:E; simpl;
    [reflexivity|].
  rewrite IH, E. reflexivity.
Qed.

Lemma lstrip_keeps_rstripped s : rstrip s = s -> rstrip (lstrip s) = lstrip s.
Proof.
  induction s as [|c s IH]; simpl; [reflexivity|].
  intros H. destruct (is_space c) eqn:E.
  - apply IH. simpl in H.
    destruct (rstrip s =? "")%string; simpl in H; [discriminate|].
    inversion H. congruence.
  - simpl. rewrite E. simpl. simpl in H. exact H.
Qed.

Lemma strip_idempotent s : strip (strip s) = strip s.
Proof.
  unfold strip.
  rewrite (lstrip_keeps_rstripped (rstrip s) (rstrip_idempotent s)).
  apply lstrip_idempotent.
Qed.

Lemma add_new_signature_type_run name analyst st :
  add_new_signature_type validate_type name analyst st
  = if registered (Some (strip name)) st then (Return false, st)
    else match validate_type (strip name) with
         | Some _ => (Return false, st)
         | None =>
             (Return true,
              mkStore (signatures st) (signature_types st ++ [strip name])
                (next_id st) (triaged st))
         end.
Proof.
  unfold add_new_signature_type, try_except_ValidationError, bind.
  destruct (registered (Some (strip name)) st) eqn:Hr.
  - destruct (SignatureType_first_registered _ _ Hr) as (t & -> & _).
    reflexivity.
  - rewrite (SignatureType_first_unregistered _ _ Hr).
    unfold save_type. destruct (validate_type (strip name)); reflexivity.
Qed.

Lemma registered_app t l1 l2 sg n g :
  registered t (mkStore sg (l1 ++ l2) n g)
  = registered t (mkStore sg l1 n g) || registered t (mkStore sg l2 n g).
Proof. unfold registered. simpl. apply existsb_app. Qed.

(** X1: [add_new_signature_type] never raises.  It answers [True]
    exactly when the stripped name was not registered and the schema
    accepts it; then that name, and nothing else, becomes registered
    and no record is touched.  Otherwise the store is left as it was. *)
Theorem add_new_signature_type_outcome :
  forall name analyst st,
    exists b st',
      add_new_signature_type validate_type name analyst st
      = (Return b, st') /\
      (b = true <->
       registered (Some (strip name)) st = false /\
       validate_type (strip name) = None) /\
      (b = false -> st' = st) /\
      (b = true ->
       signatures st' = signatures st /\
       next_id st' = next_id st /\
       forall t, registered (Some t) st'
                 = registered (Some t) st || (strip name =? t)%string).
Proof.
  intros name analyst st. rewrite add_new_signature_type_run.
  destruct (registered (Some (strip name)) st) eqn:Hr.
  - exists false, st. split; [reflexivity|]. split.
    + split; [discriminate|]. intros (H & _). discriminate.
    + split; [reflexivity|discriminate].
  - destruct (validate_type (strip name)) as [msg|] eqn:Hv.
    + exists false, st. split; [reflexivity|]. split.
      * split; [discriminate|]. intros (_ & H). discriminate.
      * split; [reflexivity|discriminate].
    + eexists true, _. split; [reflexivity|]. split.
      * split; [intros _; split; reflexivity|reflexivity].
      * split; [discriminate|]. intros _. simpl.
        split; [reflexivity|]. split; [reflexivity|].
        intros t. unfold registered. simpl.
        rewrite existsb_app. simpl. rewrite orb_false_r. reflexivity.
Qed.

(** X2: registering is idempotent: once a name has been added, adding
    it again, with or without surrounding whitespace, answers [False]
    and changes nothing. *)
Theorem add_new_signature_type_twice :
  forall name again analyst analyst' st st',
    add_new_signature_type validate_type name analyst st
    = (Return true, st') ->
    strip again = strip name ->
    add_new_signature_type validate_type again analyst' st'
    = (Return false, st').
Proof.
  intros name again analyst analyst' st st' Hrun Hsame.
  rewrite add_new_signature_type_run in Hrun.
  destruct (registered (Some (strip name)) st) eqn:Hr; [discriminate|].
  destruct (validate_type (strip name)) eqn:Hv; [discriminate|].
  inversion Hrun; subst st'; clear Hrun.
  rewrite add_new_signature_type_run, Hsame, registered_app.
  assert (registered (Some (strip name))
            (mkStore (signatures st) [strip name] (next_id st) (triaged st))
          = true) as ->.
  { unfold registered. simpl. rewrite String.eqb_refl. reflexivity. }
  rewrite orb_true_r. reflexivity.
Qed.

(** X3: the name is stripped before anything else, and stripping twice
    is stripping once: a name and its stripped form are registered
    alike. *)
Theorem add_new_signature_type_strips :
  forall name analyst st,
    add_new_signature_type validate_type (strip name) analyst st
    = add_new_signature_type validate_type name analyst st.
Proof.
  intros name analyst st.
  rewrite !add_new_signature_type_run, strip_idempotent. reflexivity.
Qed.

(** X4: registered names stay pairwise different. *)
Theorem add_new_signature_type_keeps_names_distinct :
  forall name analyst st,
    NoDup (signature_types st) ->
    NoDup (signature_types
             (snd (add_new_signature_type validate_type name analyst st))).
Proof.
  intros name analyst st Hnd. rewrite add_new_signature_type_run.
  destruct (registered (Some (strip name)) st) eqn:Hr; [exact Hnd|].
  destruct (validate_type (strip name)); [exact Hnd|]. simpl.
  apply NoDup_app; [exact Hnd|repeat constructor; intros []|].
  intros t Hin [Heq|[]]. subst t. unfold registered in Hr.
  assert (existsb (fun x => py_str_eqb (Some x) (Some (strip name)))
            (signature_types st) = true); [|congruence].
  apply existsb_exists. exists (strip name). split; [exact Hin|].
  apply py_str_eqb_refl.
Qed.

(** *** Submission: which answer, and what is handed to triage *)

Lemma submit_missing_fields data source_name user description title
    data_type link method reference copy_rels buckets ticket timestamp
    own_link st :
  truthy data && truthy title && truthy data_type = false ->
  submit data source_name user description title data_type link
    method reference copy_rels buckets ticket timestamp own_link st
  = (Return (RStatus false "No data object, title, or data type passed in"),
     st).
Proof.
  intros H. unfold handle_signature_file.
  destruct (truthy data), (truthy title), (truthy data_type);
    try discriminate; reflexivity.
Qed.

Lemma submit_missing_source data source_name user description title
    data_type link method reference copy_rels buckets ticket timestamp
    own_link st :
  truthy data && truthy title && truthy data_type = true ->
  source_truthy source_name = false ->
  submit data source_name user description title data_type link
    method reference copy_rels buckets ticket timestamp own_link st
  = (Return (RStatus false "Missing source information."), st).
Proof.
  intros H Hs. unfold handle_signature_file.
  destruct (truthy data), (truthy title), (truthy data_type);
    try discriminate.
  rewrite Hs. reflexivity.
Qed.

Lemma submit_unregistered data source_name user description title
    data_type link method reference copy_rels buckets ticket timestamp
    own_link st :
  truthy data && truthy title && truthy data_type = true ->
  source_truthy source_name = true ->
  registered data_type st = false ->
  submit data source_name user description title data_type link
    method reference copy_rels buckets ticket timestamp own_link st
  = (Return (RStatus false "Invalid data type passed in"), st).
Proof.
  intros H Hs Hr. unfold handle_signature_file.
  destruct (truthy data), (truthy title), (truthy data_type);
    try discriminate.
  rewrite Hs. simpl. unfold bind.
  rewrite (SignatureType_first_unregistered _ _ Hr). reflexivity.
Qed.

Lemma bind_result {A B} (P : outcome B -> Prop) (c : M A) (k : A -> M B) st :
  (forall e, P (Raise e)) ->
  (forall a st', P (fst (k a st'))) ->
  P (fst (bind c k st)).
Proof.
  intros He Hk. unfold bind. destruct (c st) as [[a|e] st'].
  - apply Hk.
  - apply He.
Qed.

(** X5: the answer to a submission that is turned away names the first
    check that failed, in the order fields, source, data type; the
    fourth message, ['Data length <= 0'], is never given, whatever the
    input: content without length has already failed the first check. *)
Theorem handle_signature_file_messages :
  forall data source_name user description title data_type link
         method reference copy_rels buckets ticket timestamp own_link st,
    let run :=
      submit data source_name user description title data_type link
        method reference copy_rels buckets ticket timestamp own_link st in
    (truthy data && truthy title && truthy data_type = false ->
     run = (Return (RStatus false
                      "No data object, title, or data type passed in"), st)) /\
    (truthy data && truthy title && truthy data_type = true ->
     source_truthy source_name = false ->
     run = (Return (RStatus false "Missing source information."), st)) /\
    (truthy data && truthy title && truthy data_type = true ->
     source_truthy source_name = true ->
     registered data_type st = false ->
     run = (Return (RStatus false "Invalid data type passed in"), st)) /\
    fst run <> Return (RStatus false "Data length <= 0").
Proof.
  intros data source_name user description title data_type link
         method reference copy_rels buckets ticket timestamp own_link st run.
  split; [apply submit_missing_fields|].
  split; [apply submit_missing_source|].
  split; [apply submit_unregistered|].
  unfold run.
  destruct (truthy data && truthy title && truthy data_type) eqn:H.
  - destruct (source_truthy source_name) eqn:Hs.
    + destruct (registered data_type st) eqn:Hr.
      * apply andb_true_iff in H. destruct H as (H & Hy).
        apply andb_true_iff in H. destruct H as (Hd & Ht).
        rewrite (submit_run _ _ _ _ _ _ _ _ _ _ _ _ _ _ _ Hd Ht Hy Hs Hr).
        repeat (apply bind_result; [discriminate|intros ? ?]).
        discriminate.
      * rewrite (submit_unregistered _ _ _ _ _ _ _ _ _ _ _ _ _ _ _ H Hs Hr).
        discriminate.
    + rewrite (submit_missing_source _ _ _ _ _ _ _ _ _ _ _ _ _ _ _ H Hs).
      discriminate.
  - rewrite (submit_missing_fields _ _ _ _ _ _ _ _ _ _ _ _ _ _ _ H).
    discriminate.
Qed.

(** X6: a record is handed to the triage pipeline exactly when the
    upload created it: an upload of new content adds the id of the new
    record to what was handed over, an upload of known content adds
    nothing. *)
Theorem triage_only_for_new_records :
  forall data source_name user description title data_type link
         method reference copy_rels buckets ticket timestamp own_link
         st msg oid obj st',
    store_ok st = true ->
    submit data source_name user description title data_type link
      method reference copy_rels buckets ticket timestamp own_link st
    = (Return (RUploaded msg oid obj), st') ->
    match first (objects (md5_is (hashlib_md5 (str_value data))) st) with
    | None => oid = Some (next_id st) /\
              triaged st' = triaged st ++ [next_id st]
    | Some old => oid = _id old /\ triaged st' = triaged st
    end.
Proof.
  intros data source_name user description title data_type link
         method reference copy_rels buckets ticket timestamp own_link
         st msg oid obj st' Hok Hrun.
  destruct (submit_uploaded_valid Hrun) as (Hd & Ht & Hy & Hs & Hr).
  destruct (submit_outcome data source_name user description title data_type
              link method reference copy_rels buckets ticket timestamp
              own_link st Hok Hd Ht Hy Hs Hr)
    as [(o & st1 & Hcall & Hst & _)|(m & s & st1 & Hcall & _)];
    [|rewrite Hcall in Hrun; discriminate].
  rewrite Hcall in Hrun. inversion Hrun; subst; clear Hrun.
  destruct Hst as (_ & Htri & Hshape).
  destruct (first (objects (md5_is (hashlib_md5 (str_value data))) st))
    as [old|] eqn:Hf; simpl in *.
  - split; [|exact Htri].
    apply first_filter_some in Hf.
    destruct (stored_ids _ Hok _ (proj1 (proj2 Hf))) as (i & Hi).
    rewrite Hi in Hshape. destruct Hshape as (Hid & _). congruence.
  - destruct Hshape as (Hid & _). split; [exact Hid|].
    rewrite Hid, Htri. reflexivity.
Qed.

(** X7: names are stripped when they are registered, and only then.  A
    name with surrounding whitespace is registered in its stripped
    form; [update_signature_type] and [handle_signature_file] look the
    name up as it is given, so for them the unstripped name is still
    unknown. *)
Theorem stripped_on_registration_only :
  forall name analyst st st',
    add_new_signature_type validate_type name analyst st
    = (Return true, st') ->
    strip name <> name ->
    registered (Some name) st = false ->
    registered (Some (strip name)) st' = true /\
    (forall oid user,
       update_signature_type validate oid (Some name) user st'
       = (Return RNone, st')) /\
    (forall data source_name user description title link method reference
            copy_rels buckets ticket timestamp own_link,
       truthy data = true -> truthy title = true ->
       source_truthy source_name = true ->
       submit data source_name user description title (Some name) link
         method reference copy_rels buckets ticket timestamp own_link st'
       = (Return (RStatus false "Invalid data type passed in"), st')).
Proof.
  intros name analyst st st' Hrun Hne Hold.
  rewrite add_new_signature_type_run in Hrun.
  destruct (registered (Some (strip name)) st); [discriminate|].
  destruct (validate_type (strip name)); [discriminate|].
  inversion Hrun; subst st'; clear Hrun.
  assert (Hreg : forall t,
    registered (Some t)
      (mkStore (signatures st) (signature_types st ++ [strip name])
         (next_id st) (triaged st))
    = registered (Some t) st || (strip name =? t)%string).
  { intros t. unfold registered. simpl.
    rewrite existsb_app. simpl. rewrite orb_false_r. reflexivity. }
  assert (Hunknown :
    registered (Some name)
      (mkStore (signatures st) (signature_types st ++ [strip name])
         (next_id st) (triaged st)) = false).
  { rewrite Hreg, Hold. simpl. apply String.eqb_neq. exact Hne. }
  split; [rewrite Hreg, String.eqb_refl; apply orb_true_r|].
  split.
  - intros oid user. unfold update_signature_type, bind, Signature_first.
    rewrite (SignatureType_first_unregistered _ _ Hunknown). reflexivity.
  - intros data source_name user description title link method reference
           copy_rels buckets ticket timestamp own_link Hd Ht Hs.
    apply submit_unregistered; [|exact Hs|exact Hunknown].
    rewrite Hd, Ht. simpl. destruct name; [|reflexivity].
    exfalso. apply Hne. reflexivity.
Qed.

(** *** Chains: versions, look-up by version, listing *)

(** What an upload of new content leaves behind. *)
Lemma new_content_shape {data source_name user description title
    data_type link method reference copy_rels buckets ticket timestamp
    own_link st msg oid obj st'} :
  store_ok st = true ->
  first (objects (md5_is (hashlib_md5 (str_value data))) st) = None ->
  submit data source_name user description title data_type link
    method reference copy_rels buckets ticket timestamp own_link st
  = (Return (RUploaded msg oid obj), st') ->
  signatures st' = signatures st ++ [obj] /\
  oid = Some (next_id st) /\ _id obj = Some (next_id st) /\
  next_id st' = S (next_id st) /\
  signature_types st' = signature_types st /\
  link_id obj = (if truthy link then link else Some own_link) /\
  version obj
  = Some (length (objects (link_id_is link) st)
          + match relationships_to_copy link copy_rels st with
            | Some _ => 2
            | None => 1
            end).
Proof.
  intros Hok Hnew Hrun.
  destruct (submit_uploaded_valid Hrun) as (Hd & Ht & Hy & Hs & Hr).
  destruct (submit_outcome data source_name user description title data_type
              link method reference copy_rels buckets ticket timestamp
              own_link st Hok Hd Ht Hy Hs Hr)
    as [(o & st1 & Hcall & Hst & _ & _ & Hl & Hver & _)
       |(m & s & st1 & Hcall & _)];
    [|rewrite Hcall in Hrun; discriminate].
  rewrite Hnew in *. rewrite Hcall in Hrun.
  inversion Hrun; subst; clear Hrun.
  destruct Hst as (Hty & _ & Hid & Hn & Hsig). simpl in Hid, Hl.
  repeat (split; [assumption || (simpl; congruence)|]).
  rewrite Hver. unfold store_at_count.
  destruct (relationships_to_copy link copy_rels st) as [rels|] eqn:Hcopy;
    [|reflexivity].
  destruct (sourced_frame
              (submitted_record None timestamp own_link description
                 (hashlib_md5 (str_value data)) data title data_type)
              source_name timestamp method reference user)
    as ((Hsid & _) & _).
  unfold objects at 1.
  rewrite (write_new (set_link_id _ link) st Hsid).
  rewrite chain_count_append by reflexivity.
  unfold objects. f_equal. lia.
Qed.

Lemma chain_after_new_content link l obj sg n g sg' n' g' :
  link_id obj = link ->
  chain_versions link (mkStore (l ++ [obj]) sg n g)
  = chain_versions link (mkStore l sg' n' g') ++ [version obj].
Proof.
  intros Hl. unfold chain_versions, objects. simpl.
  rewrite filter_app, map_app. simpl.
  unfold link_id_is at 2. rewrite Hl, py_str_eqb_refl. reflexivity.
Qed.

Lemma chain_after st st' link obj :
  signatures st' = signatures st ++ [obj] -> link_id obj = link ->
  chain_versions link st' = chain_versions link st ++ [version obj].
Proof.
  intros Hsig Hl. destruct st, st'. simpl in Hsig. subst.
  apply chain_after_new_content. reflexivity.
Qed.

Lemma chain_length link st :
  length (chain_versions link st) = length (objects (link_id_is link) st).
Proof. apply length_map. Qed.

Lemma get_id_run link v st :
  get_id_from_link_and_version link v st
  = (Return
       match first (filter (fun s => link_id_is link s && version_is v s)
                      (signatures st)) with
       | Some s => _id s
       | None => None
       end, st).
Proof.
  unfold get_id_from_link_and_version, bind, Signature_first, objects.
  destruct (first _); reflexivity.
Qed.

Lemma version_is_eq v s : version_is v s = true <-> version s = Some v.
Proof.
  unfold version_is. destruct (version s) as [w|]; [|split; discriminate].
  rewrite Nat.eqb_eq. split; congruence.
Qed.

Lemma no_such_version link st k v :
  chain_versions link st = map Some (seq 1 k) -> k < v ->
  filter (fun s => link_id_is link s && version_is v s) (signatures st) = [].
Proof.
  unfold chain_versions, objects. intros Hc Hv.
  destruct (filter (fun s => link_id_is link s && version_is v s)
              (signatures st)) as [|s rest] eqn:E; [reflexivity|].
  exfalso.
  assert (Hin : In s (filter (fun s => link_id_is link s && version_is v s)
                        (signatures st))) by (rewrite E; left; reflexivity).
  apply filter_In in Hin. destruct Hin as (Hin & Hp).
  apply andb_true_iff in Hp. destruct Hp as (Hl & Hvs).
  apply version_is_eq in Hvs.
  assert (Hs : In (version s) (map Some (seq 1 k))).
  { rewrite <- Hc. apply in_map. apply filter_In. split; assumption. }
  rewrite Hvs in Hs. apply in_map_iff in Hs.
  destruct Hs as (x & Hx & Hseq). inversion Hx; subst x.
  apply in_seq in Hseq. lia.
Qed.

(** X8: a chain whose versions are [1 .. k] stays contiguous under an
    upload of new content that copies no relationships: afterwards the
    versions are [1 .. k+1], the new record carrying [k+1]. *)
Theorem plain_upload_keeps_chain_contiguous :
  forall data source_name user description title data_type link
         method reference copy_rels buckets ticket timestamp own_link
         st msg oid obj st' k,
    store_ok st = true -> truthy link = true ->
    first (objects (md5_is (hashlib_md5 (str_value data))) st) = None ->
    relationships_to_copy link copy_rels st = None ->
    chain_versions link st = map Some (seq 1 k) ->
    submit data source_name user description title data_type link
      method reference copy_rels buckets ticket timestamp own_link st
    = (Return (RUploaded msg oid obj), st') ->
    version obj = Some (S k) /\
    chain_versions link st' = map Some (seq 1 (S k)).
Proof.
  intros data source_name user description title data_type link
         method reference copy_rels buckets ticket timestamp own_link
         st msg oid obj st' k Hok Hlink Hnew Hnone Hchain Hrun.
  destruct (new_content_shape Hok Hnew Hrun)
    as (Hsig & _ & _ & _ & _ & Hl & Hver).
  rewrite Hlink in Hl. rewrite Hnone in Hver.
  rewrite <- chain_length, Hchain, length_map, length_seq in Hver.
  assert (Hv : version obj = Some (S k)) by (rewrite Hver; f_equal; lia).
  split; [exact Hv|].
  rewrite (chain_after st st' link obj Hsig Hl), Hchain, Hv.
  rewrite seq_S, map_app. reflexivity.
Qed.

(** X9: look-up after upload.  On such a chain, after such an upload,
    [get_id_from_link_and_version] with the link id and the new
    version gives the id the upload returned, and every other version
    resolves as it did before. *)
Theorem get_id_finds_uploaded_version :
  forall data source_name user description title data_type link
         method reference copy_rels buckets ticket timestamp own_link
         st msg oid obj st' k,
    store_ok st = true -> truthy link = true ->
    first (objects (md5_is (hashlib_md5 (str_value data))) st) = None ->
    relationships_to_copy link copy_rels st = None ->
    chain_versions link st = map Some (seq 1 k) ->
    submit data source_name user description title data_type link
      method reference copy_rels buckets ticket timestamp own_link st
    = (Return (RUploaded msg oid obj), st') ->
    get_id_from_link_and_version link (S k) st' = (Return oid, st') /\
    forall v, v <> S k ->
      fst (get_id_from_link_and_version link v st')
      = fst (get_id_from_link_and_version link v st).
Proof.
  intros data source_name user description title data_type link
         method reference copy_rels buckets ticket timestamp own_link
         st msg oid obj st' k Hok Hlink Hnew Hnone Hchain Hrun.
  destruct (new_content_shape Hok Hnew Hrun)
    as (Hsig & Hoid & Hid & _ & _ & Hl & Hver).
  rewrite Hlink in Hl. rewrite Hnone in Hver.
  rewrite <- chain_length, Hchain, length_map, length_seq in Hver.
  assert (Hv : version obj = Some (S k)) by (rewrite Hver; f_equal; lia).
  assert (Hlo : link_id_is link obj = true).
  { unfold link_id_is. rewrite Hl. apply py_str_eqb_refl. }
  split.
  - rewrite get_id_run, Hsig, filter_app.
    rewrite (no_such_version link st k (S k) Hchain) by lia.
    simpl. rewrite Hlo. simpl.
    apply version_is_eq in Hv. rewrite Hv. simpl. congruence.
  - intros v Hne. rewrite !get_id_run, Hsig, filter_app. simpl.
    assert (version_is v obj = false) as ->.
    { destruct (version_is v obj) eqn:E; [|reflexivity].
      apply version_is_eq in E. congruence. }
    rewrite andb_false_r, app_nil_r. reflexivity.
Qed.

(** X10: the version an upload with copied relationships skips cannot
    be looked up.  On a chain with versions [1 .. k], an upload of new
    content that copies relationships leaves the versions
    [1 .. k, k+2], and [get_id_from_link_and_version] finds nothing
    under [k+1]. *)
Theorem skipped_version_cannot_be_found :
  forall data source_name user description title data_type link
         method reference buckets ticket timestamp own_link
         st rels msg oid obj st' k,
    store_ok st = true ->
    first (objects (md5_is (hashlib_md5 (str_value data))) st) = None ->
    relationships_to_copy link true st = Some rels ->
    chain_versions link st = map Some (seq 1 k) ->
    submit data source_name user description title data_type link
      method reference true buckets ticket timestamp own_link st
    = (Return (RUploaded msg oid obj), st') ->
    chain_versions link st' = map Some (seq 1 k) ++ [Some (k + 2)] /\
    get_id_from_link_and_version link (S k) st' = (Return None, st') /\
    get_id_from_link_and_version link (k + 2) st' = (Return oid, st').
Proof.
  intros data source_name user description title data_type link
         method reference buckets ticket timestamp own_link
         st rels msg oid obj st' k Hok Hnew Hcopy Hchain Hrun.
  destruct (new_content_shape Hok Hnew Hrun)
    as (Hsig & Hoid & Hid & _ & _ & Hl & Hver).
  assert (Hlink : truthy link = true).
  { unfold relationships_to_copy in Hcopy.
    destruct (truthy link); [reflexivity|discriminate]. }
  rewrite Hlink in Hl. rewrite Hcopy in Hver.
  rewrite <- chain_length, Hchain, length_map, length_seq in Hver.
  assert (Hlo : link_id_is link obj = true).
  { unfold link_id_is. rewrite Hl. apply py_str_eqb_refl. }
  split; [rewrite (chain_after st st' link obj Hsig Hl), Hchain, Hver;
          reflexivity|].
  split.
  - rewrite get_id_run, Hsig, filter_app.
    rewrite (no_such_version link st k (S k) Hchain) by lia.
    simpl. rewrite Hlo. simpl.
    assert (version_is (S k) obj = false) as ->.
    { destruct (version_is (S k) obj) eqn:E; [|reflexivity].
      apply version_is_eq in E. rewrite Hver in E. inversion E. lia. }
    reflexivity.
  - rewrite get_id_run, Hsig, filter_app.
    rewrite (no_such_version link st k (k + 2) Hchain) by lia.
    simpl. rewrite Hlo. simpl.
    apply version_is_eq in Hver. rewrite Hver. simpl. congruence.
Qed.

(** *** Listings and the details page *)

Lemma generate_signature_versions_run i a st :
  first (objects (id_is i) st) = Some a ->
  generate_signature_versions reverse_detail i st
  = (Return (map (fun rv =>
                    mkVersionEntry (title rv) (version rv) (data rv)
                      (reverse_detail (_id rv)))
                 (objects (link_id_is (link_id a)) st)), st).
Proof.
  intros Hf. unfold generate_signature_versions, bind, Signature_first.
  rewrite Hf. reflexivity.
Qed.

(** X11: the version listing belongs to the chain, not to the record:
    two records of one chain give the same listing; it has one entry
    per record of the chain, in store order, the record's own entry
    among them, and the store is not touched. *)
Theorem generate_signature_versions_of_chain :
  forall i j a b st,
    first (objects (id_is i) st) = Some a ->
    first (objects (id_is j) st) = Some b ->
    link_id a = link_id b ->
    exists l,
      generate_signature_versions reverse_detail i st = (Return l, st) /\
      generate_signature_versions reverse_detail j st = (Return l, st) /\
      map v_version l = chain_versions (link_id a) st /\
      In (mkVersionEntry (title a) (version a) (data a)
            (reverse_detail (_id a))) l /\
      In (mkVersionEntry (title b) (version b) (data b)
            (reverse_detail (_id b))) l.
Proof.
  intros i j a b st Ha Hb Hl.
  eexists. split; [apply generate_signature_versions_run; exact Ha|].
  split; [rewrite Hl; apply generate_signature_versions_run; exact Hb|].
  split; [unfold chain_versions; rewrite map_map; reflexivity|].
  split.
  - apply (in_map (fun rv => mkVersionEntry (title rv) (version rv) (data rv)
                               (reverse_detail (_id rv)))).
    apply filter_In. apply first_filter_some in Ha.
    split; [exact (proj1 (proj2 Ha))|]. apply py_str_eqb_refl.
  - apply (in_map (fun rv => mkVersionEntry (title rv) (version rv) (data rv)
                               (reverse_detail (_id rv)))).
    apply filter_In. apply first_filter_some in Hb.
    split; [exact (proj1 (proj2 Hb))|].
    unfold link_id_is. rewrite Hl. apply py_str_eqb_refl.
Qed.

(** X12: upload, then list.  After an upload of new content without
    copied relationships into a chain with versions [1 .. k], the
    listing asked for under the returned id shows the versions
    [1 .. k+1], the last entry being the new record. *)
Theorem listing_after_upload :
  forall content source_name user description heading data_type link
         method reference copy_rels buckets ticket timestamp own_link
         st msg obj st' k,
    store_ok st = true -> truthy link = true ->
    first (objects (md5_is (hashlib_md5 (str_value content))) st) = None ->
    relationships_to_copy link copy_rels st = None ->
    chain_versions link st = map Some (seq 1 k) ->
    submit content source_name user description heading data_type link
      method reference copy_rels buckets ticket timestamp own_link st
    = (Return (RUploaded msg (Some (next_id st)) obj), st') ->
    exists l,
      generate_signature_versions reverse_detail (next_id st) st'
      = (Return (l ++ [mkVersionEntry (title obj) (Some (S k)) (data obj)
                         (reverse_detail (Some (next_id st)))]), st') /\
      map v_version l = map Some (seq 1 k).
Proof.
  intros content source_name user description heading data_type link
         method reference copy_rels buckets ticket timestamp own_link
         st msg obj st' k Hok Hlink Hnew Hnone Hchain Hrun.
  destruct (new_content_shape Hok Hnew Hrun)
    as (Hsig & _ & Hid & _ & _ & Hl & Hver).
  destruct (submit_leaves_record Hok Hrun) as (_ & _ & _ & i & Hi & Hfi).
  rewrite Hid in Hi. inversion Hi; subst i; clear Hi.
  rewrite Hlink in Hl. rewrite Hnone in Hver.
  rewrite <- chain_length, Hchain, length_map, length_seq in Hver.
  assert (Hv : version obj = Some (S k)) by (rewrite Hver; f_equal; lia).
  rewrite (generate_signature_versions_run _ _ _ Hfi), Hl.
  unfold objects. rewrite Hsig, filter_app, map_app. simpl.
  unfold link_id_is at 2. rewrite Hl, py_str_eqb_refl. simpl.
  rewrite Hv, Hid.
  eexists. split; [reflexivity|].
  rewrite map_map. exact Hchain.
Qed.

(** X13: inline comments are append-only as the listing shows them:
    after a successful [new_inline_comment] the listing of the record
    is the old listing followed by one entry for the commented line. *)
Theorem inline_comment_is_appended :
  forall oid comment line_num analyst now html st st',
    new_inline_comment validate render_inline_comment oid comment line_num
      analyst now st
    = (Return (RInline line_num html), st') ->
    exists old h,
      generate_inline_comments render_inline_comment oid st
      = (Return old, st) /\
      generate_inline_comments render_inline_comment oid st'
      = (Return (old ++ [(line_num, h)]), st').
Proof.
  intros oid comment line_num analyst now html st st' Hrun.
  unfold new_inline_comment, bind at 1, Signature_first in Hrun.
  destruct (first (objects (id_is oid) st)) as [s|] eqn:Hf;
    [|discriminate].
  set (s' := add_inline_comment s comment line_num analyst now) in *.
  destruct (validate s') as [msg|] eqn:Hv.
  - rewrite (try_save_invalid _ _ _ _ _ _ Hv) in Hrun. discriminate.
  - rewrite (try_save_valid _ _ _ _ _ Hv) in Hrun.
    destruct (write_found s s' st oid Hf) as (st2 & Hw & Hf' & _).
    { unfold s'. simpl. eapply found_id; eassumption. }
    rewrite Hw in Hrun. simpl in Hrun. inversion Hrun; subst st2.
    unfold generate_inline_comments, bind, Signature_first.
    rewrite Hf, Hf'. unfold s'. simpl. rewrite map_app. simpl.
    eexists. eexists. split; reflexivity.
Qed.

Lemma first_filter_and {A} (p q : A -> bool) l a :
  first (filter p l) = Some a -> q a = true ->
  first (filter (fun x => p x && q x) l) = Some a.
Proof.
  induction l as [|x l IH]; simpl; [discriminate|].
  destruct (p x) eqn:E; simpl.
  - intros H Hq. inversion H; subst x. rewrite Hq. reflexivity.
  - intros H Hq. apply IH; assumption.
Qed.

Lemma first_filter_never {A} (p : A -> bool) l :
  (forall x, In x l -> p x = false) -> first (filter p l) = None.
Proof.
  intros H. apply first_filter_none.
  induction l as [|x l IH]; simpl; [reflexivity|].
  rewrite (H x) by (left; reflexivity). apply IH.
  intros y Hy. apply H. right. exact Hy.
Qed.

(** X14: the details page does not tell a record the user may not see
    from a record that does not exist: when no record of that id has a
    source among the user's sources, the answer is the error page, the
    very answer a false id gets, and the store is not touched. *)
Theorem get_signature_details_denied :
  forall i analyst st,
    (forall s, In s (signatures st) -> _id s = Some i ->
               source_name_in (user_sources analyst) s = false) ->
    get_signature_details user_sources sanitize (Some i) analyst st
    = (Return (Some "error.html",
               ErrorArgs
                 "signature not yet available or you do not have access to view it."),
       st) /\
    get_signature_details user_sources sanitize (Some i) analyst st
    = get_signature_details user_sources sanitize None analyst st.
Proof.
  intros i analyst st H.
  assert (Hrun :
    get_signature_details user_sources sanitize (Some i) analyst st
    = (Return (Some "error.html",
               ErrorArgs
                 "signature not yet available or you do not have access to view it."),
       st)).
  { unfold get_signature_details, bind, Signature_first, objects.
    rewrite first_filter_never; [reflexivity|].
    intros s Hin. destruct (id_is i s) eqn:E; [|reflexivity].
    apply id_is_eq in E. simpl. apply H; assumption. }
  split; [exact Hrun|]. rewrite Hrun. reflexivity.
Qed.

(** X15: the details page and the version listing agree.  For a record
    the user may see, and a sanitizing that keeps the link id, the
    number of versions on the details page is the number of entries of
    the record's version listing. *)
Theorem details_count_the_listing :
  forall i analyst s st,
    first (objects (id_is i) st) = Some s ->
    source_name_in (user_sources analyst) s = true ->
    link_id (sanitize s analyst) = link_id s ->
    exists l,
      generate_signature_versions reverse_detail i st = (Return l, st) /\
      get_signature_details user_sources sanitize (Some i) analyst st
      = (Return (None, DetailArgs (sanitize s analyst) (length l)), st).
Proof.
  intros i analyst s st Hf Hsrc Hl.
  eexists. split; [apply generate_signature_versions_run; exact Hf|].
  unfold get_signature_details, bind at 1, Signature_first, objects.
  rewrite (first_filter_and (id_is i) _ _ s Hf Hsrc).
  unfold bind, Signature_count. rewrite Hl, length_map. reflexivity.
Qed.

(** X16: a record uploaded without provenance can be seen by nobody.
    After an upload of new content with a truthy [source_name] that
    carries no source, the details page of the returned id is the
    error page for every user. *)
Theorem unsourced_upload_is_invisible :
  forall data source_name user description title data_type link
         method reference copy_rels buckets ticket timestamp own_link
         st msg oid obj st',
    store_ok st = true ->
    first (objects (md5_is (hashlib_md5 (str_value data))) st) = None ->
    carries_no_source source_name = true ->
    submit data source_name user description title data_type link
      method reference copy_rels buckets ticket timestamp own_link st
    = (Return (RUploaded msg oid obj), st') ->
    oid = Some (next_id st) /\
    first (objects (id_is (next_id st)) st') = Some obj /\
    forall analyst,
      get_signature_details user_sources sanitize oid analyst st'
      = (Return (Some "error.html",
                 ErrorArgs
                   "signature not yet available or you do not have access to view it."),
         st').
Proof.
  intros data source_name user description title data_type link
         method reference copy_rels buckets ticket timestamp own_link
         st msg oid obj st' Hok Hnew Hno Hrun.
  destruct (new_content_shape Hok Hnew Hrun)
    as (Hsig & Hoid & Hid & _).
  destruct (submit_leaves_record Hok Hrun) as (_ & _ & _ & i & Hi & Hfi).
  rewrite Hid in Hi. inversion Hi; subst i; clear Hi.
  assert (Hsrc : source obj = []).
  { destruct (submit_uploaded_valid Hrun) as (Hd & Ht & Hy & Hs & Hr).
    destruct (submit_outcome data source_name user description title
                data_type link method reference copy_rels buckets ticket
                timestamp own_link st Hok Hd Ht Hy Hs Hr)
      as [(o & st1 & Hcall & _ & _ & Hso & _)|(m & s & st1 & Hcall & _)];
      [|rewrite Hcall in Hrun; discriminate].
    rewrite Hnew in Hso.
    rewrite (proj2 (no_source_added _ _ _ _ _ _ Hno)) in Hso.
    rewrite Hcall in Hrun. inversion Hrun; subst o. exact Hso. }
  split; [exact Hoid|]. split; [exact Hfi|].
  intros analyst. subst oid.
  unfold get_signature_details, bind, Signature_first, objects.
  rewrite first_filter_never; [reflexivity|].
  intros s Hin. rewrite Hsig in Hin. apply in_app_or in Hin.
  destruct Hin as [Hin|[<-|[]]].
  - assert (id_is (next_id st) s = false) as ->; [|reflexivity].
    pose proof (fresh_id_unused _ Hok) as Hfresh.
    destruct (id_is (next_id st) s) eqn:E; [|reflexivity].
    assert (existsb (id_is (next_id st)) (signatures st) = true);
      [|congruence].
    apply existsb_exists. exists s. split; assumption.
  - unfold source_name_in. rewrite Hsrc. apply andb_false_r.
Qed.

(** *** Edges of the guarded handlers *)

(** X17: an id that matches no record.  The handlers that test what
    the look-up gave answer softly and leave the store alone: both
    highlight updates give [None], both listings are empty, and an
    administrator's delete gives [False]. *)
Theorem guarded_handlers_on_missing_record :
  forall oid st,
    first (objects (id_is oid) st) = None ->
    (forall c l a,
       update_signature_highlight_comment validate int_of_str oid c l a st
       = (Return RNone, st)) /\
    (forall d l a,
       update_signature_highlight_date validate parse_fuzzy int_of_str
         oid d l a st = (Return RNone, st)) /\
    generate_inline_comments render_inline_comment oid st
    = (Return [], st) /\
    generate_signature_versions reverse_detail oid st = (Return [], st) /\
    (forall u, delete_signature is_admin oid u st = (Return false, st)).
Proof.
  intros oid st Hf.
  unfold update_signature_highlight_comment, update_signature_highlight_date,
    generate_inline_comments, generate_signature_versions, delete_signature,
    bind, Signature_first.
  rewrite Hf. repeat split.
  intros u. destruct (is_admin u); [rewrite Hf|]; reflexivity.
Qed.

Lemma highlight_loop_bad_int change signature a analyst st :
  int_value int_of_str a = None ->
  forall rest before,
    highlight_loop validate int_of_str change signature a analyst
      before rest st
    = match rest with
      | [] => (Return (RStatus false "Could not find highlight."), st)
      | _ :: _ => (Raise ValueError, st)
      end.
Proof.
  intros Ha rest before. destruct rest as [|h rest]; simpl; [reflexivity|].
  unfold bind. destruct a as [z|s]; simpl in *; [discriminate|].
  rewrite Ha. reflexivity.
Qed.

(** X18: [int(line)] is evaluated inside the loop over the highlights.
    With a line that is no number, both highlight updates raise
    [ValueError] on a record that has a highlight, and answer
    ['Could not find highlight.'] on a record that has none.  Nothing
    is stored either way. *)
Theorem line_that_is_no_number :
  forall oid line_arg analyst st signature,
    first (objects (id_is oid) st) = Some signature ->
    int_value int_of_str line_arg = None ->
    let answer :=
      match highlights signature with
      | [] => (Return (RStatus false "Could not find highlight."), st)
      | _ :: _ => (Raise ValueError, st)
      end in
    (forall c,
       update_signature_highlight_comment validate int_of_str
         oid c line_arg analyst st = answer) /\
    (forall d,
       update_signature_highlight_date validate parse_fuzzy int_of_str
         oid d line_arg analyst st = answer).
Proof.
  intros oid line_arg analyst st signature Hf Ha answer. split.
  - intros c.
    unfold update_signature_highlight_comment, bind at 1, Signature_first.
    rewrite Hf. apply highlight_loop_bad_int. exact Ha.
  - intros d.
    unfold update_signature_highlight_date, bind at 1, Signature_first.
    rewrite Hf. apply highlight_loop_bad_int. exact Ha.
Qed.

(** X19: the date is parsed only once a highlight of the line has been
    found.  On a record without a highlight on that line the date
    update answers ['Could not find highlight.'] for every date
    string, parseable or not, and stores nothing. *)
Theorem date_of_missing_line_is_not_parsed :
  forall oid date line_arg analyst st signature n,
    first (objects (id_is oid) st) = Some signature ->
    int_value int_of_str line_arg = Some n ->
    has_line n (highlights signature) = false ->
    update_signature_highlight_date validate parse_fuzzy int_of_str
      oid date line_arg analyst st
    = (Return (RStatus false "Could not find highlight."), st).
Proof.
  intros oid date line_arg analyst st signature n Hf Ha Hl.
  unfold update_signature_highlight_date, bind at 1, Signature_first.
  rewrite Hf. destruct (parse_fuzzy date) as [d|].
  - rewrite (highlight_loop_pure (fun h => set_line_date h d) _ _ _ _ _ Ha).
    rewrite Hl. reflexivity.
  - rewrite (highlight_loop_raise ValueError _ _ _ _ _ Ha).
    rewrite Hl. reflexivity.
Qed.

(** X20: when the save of a new inline comment or of a new highlight
    is refused, the handler returns the [ValidationError] object
    itself, not a result dict, and the store keeps the record as it
    was. *)
Theorem refused_annotation_returns_the_exception :
  forall oid st signature,
    first (objects (id_is oid) st) = Some signature ->
    (forall comment line_num analyst now msg,
       validate (add_inline_comment signature comment line_num analyst now)
       = Some msg ->
       new_inline_comment validate render_inline_comment
         oid comment line_num analyst now st
       = (Return (RException (ValidationError msg)), st)) /\
    (forall line_num line_data analyst now msg,
       validate (add_highlight signature line_num line_data analyst now)
       = Some msg ->
       new_highlight validate render_signature_highlights
         oid line_num line_data analyst now st
       = (Return (RException (ValidationError msg)), st)).
Proof.
  intros oid st signature Hf. split.
  - intros comment line_num analyst now msg Hv.
    unfold new_inline_comment, bind at 1, Signature_first. rewrite Hf.
    rewrite (try_save_invalid _ _ _ _ _ _ Hv). reflexivity.
  - intros line_num line_data analyst now msg Hv.
    unfold new_highlight, bind at 1, Signature_first. rewrite Hf.
    rewrite (try_save_invalid _ _ _ _ _ _ Hv). reflexivity.
Qed.

(** *** Deletion and ids *)

Lemma filter_keeps_ids (p : Signature -> bool) l n :
  forallb (id_below n) l = true -> distinct_ids l = true ->
  forallb (id_below n) (filter p l) = true /\
  distinct_ids (filter p l) = true /\
  forall j, existsb (id_is j) l = false ->
            existsb (id_is j) (filter p l) = false.
Proof.
  induction l as [|d l IH]; simpl; [repeat split|].
  intros Hb Hd. apply andb_true_iff in Hb. destruct Hb as (Hb1 & Hb2).
  destruct (_id d) as [i|] eqn:Ei; [|discriminate].
  apply andb_true_iff in Hd. destruct Hd as (Hd1 & Hd2).
  destruct (IH Hb2 Hd2) as (H1 & H2 & H3).
  destruct (p d); simpl.
  - rewrite Hb1, H1, Ei, H2. simpl. split; [reflexivity|]. split.
    + apply negb_true_iff in Hd1. rewrite (H3 i Hd1). reflexivity.
    + intros j Hj. apply orb_false_iff in Hj. destruct Hj as (Hj1 & Hj2).
      rewrite Hj1, (H3 j Hj2). reflexivity.
  - split; [exact H1|]. split; [exact H2|].
    intros j Hj. apply orb_false_iff in Hj. apply H3. exact (proj2 Hj).
Qed.

Lemma remove_one l i :
  distinct_ids l = true -> existsb (id_is i) l = true ->
  S (length (filter (fun d => negb (id_is i d)) l)) = length l.
Proof.
  induction l as [|d l IH]; simpl; [discriminate|].
  destruct (_id d) as [j|] eqn:Ej; [|discriminate].
  intros Hd Hex. apply andb_true_iff in Hd. destruct Hd as (Hd1 & Hd2).
  destruct (id_is i d) eqn:E; simpl.
  - apply id_is_eq in E. rewrite Ej in E. inversion E; subst j.
    apply negb_true_iff in Hd1. rewrite (filter_none_id _ _ Hd1).
    reflexivity.
  - simpl in Hex. rewrite (IH Hd2 Hex). reflexivity.
Qed.

Lemma filter_other_after_removal i j l :
  j <> i ->
  filter (id_is j) (filter (fun d => negb (id_is i d)) l)
  = filter (id_is j) l.
Proof.
  intros Hj. induction l as [|d l IH]; simpl; [reflexivity|].
  destruct (id_is i d) eqn:E; simpl.
  - assert (id_is j d = false) as ->; [|exact IH].
    apply id_is_eq in E. unfold id_is. rewrite E.
    apply Nat.eqb_neq. exact Hj.
  - destruct (id_is j d); rewrite IH; reflexivity.
Qed.

(** X21: an administrator's delete of a stored record takes out that
    record and no other: one record fewer, every other id resolves as
    before, and from then on the id matches nothing, so that a second
    delete answers [False] and changes nothing. *)
Theorem delete_signature_removes_one_record :
  forall oid username again st,
    store_ok st = true ->
    is_admin username = true -> is_admin again = true ->
    existsb (id_is oid) (signatures st) = true ->
    exists st',
      delete_signature is_admin oid username st = (Return true, st') /\
      S (length (signatures st')) = length (signatures st) /\
      store_ok st' = true /\
      first (objects (id_is oid) st') = None /\
      (forall j, j <> oid ->
         objects (id_is j) st' = objects (id_is j) st) /\
      delete_signature is_admin oid again st' = (Return false, st').
Proof.
  intros oid username again st Hok Hadm Hadm' Hex.
  unfold store_ok in Hok. apply andb_true_iff in Hok.
  destruct Hok as (Hb & Hd).
  destruct (first (objects (id_is oid) st)) as [s|] eqn:Hf;
    [|apply first_filter_none in Hf; unfold objects in Hf; congruence].
  pose proof (found_id _ _ _ Hf) as Hid.
  set (st' := with_signatures st
                (filter (fun d => negb (id_is oid d)) (signatures st))).
  assert (Hgone : first (objects (id_is oid) st') = None).
  { unfold objects, st'. simpl. rewrite filter_filter_neg. reflexivity. }
  exists st'. split.
  { unfold delete_signature, bind, Signature_first. rewrite Hadm, Hf.
    unfold delete. rewrite Hid. reflexivity. }
  split; [apply remove_one; assumption|].
  split.
  { destruct (filter_keeps_ids (fun d => negb (id_is oid d)) _ _ Hb Hd)
      as (H1 & H2 & _).
    unfold store_ok, st'. simpl. rewrite H1, H2. reflexivity. }
  split; [exact Hgone|]. split.
  - intros j Hj. unfold objects, st'. simpl.
    apply filter_other_after_removal. exact Hj.
  - unfold delete_signature, bind, Signature_first.
    rewrite Hadm', Hgone. reflexivity.
Qed.

(** *** Submission: copied relationships, new records, digests *)

Lemma copy_relationships_result s rels u :
  relationships (copy_relationships class_from_id s rels u)
  = relationships s ++
    map (fun rel =>
           mkRelationship (rel_type rel) (rel_object_id rel)
             (relationship rel) (relationship_date rel) u)
        (filter (fun rel => class_from_id (rel_type rel) (rel_object_id rel))
           rels).
Proof.
  unfold copy_relationships. revert s.
  induction rels as [|rel rels IH]; intros s; simpl.
  - rewrite app_nil_r. reflexivity.
  - rewrite IH.
    destruct (class_from_id (rel_type rel) (rel_object_id rel)); simpl.
    + rewrite <- app_assoc. reflexivity.
    + reflexivity.
Qed.

(** X22: relationships are copied from the first record of the chain
    and from no other: when a link id is given, copying is asked for
    and the first record of the chain has relationships, the uploaded
    record has, after its own, those of that first record which the
    resolver finds, in their order, with kind and date kept and the
    submitting user as analyst.  Relationships whose object is not
    found are skipped. *)
Theorem relationships_come_from_the_chain_head :
  forall data source_name user description title data_type link
         method reference buckets ticket timestamp own_link
         st rels msg oid obj st',
    store_ok st = true ->
    relationships_to_copy link true st = Some rels ->
    submit data source_name user description title data_type link
      method reference true buckets ticket timestamp own_link st
    = (Return (RUploaded msg oid obj), st') ->
    (exists head,
       first (objects (link_id_is link) st) = Some head /\
       rels = relationships head) /\
    relationships obj
    = relationships
        (submitted_record
           (first (objects (md5_is (hashlib_md5 (str_value data))) st))
           timestamp own_link description (hashlib_md5 (str_value data))
           data title data_type) ++
      map (fun rel =>
             mkRelationship (rel_type rel) (rel_object_id rel)
               (relationship rel) (relationship_date rel) user)
          (filter (fun rel =>
                     class_from_id (rel_type rel) (rel_object_id rel))
             rels).
Proof.
  intros data source_name user description title data_type link
         method reference buckets ticket timestamp own_link
         st rels msg oid obj st' Hok Hcopy Hrun.
  split.
  { unfold relationships_to_copy in Hcopy.
    destruct (truthy link && true); [|discriminate].
    destruct (first (objects (link_id_is link) st)) as [head|];
      [|discriminate].
    destruct (Nat.ltb 0 (length (relationships head))); [|discriminate].
    exists head. split; [reflexivity|congruence]. }
  destruct (submit_uploaded_valid Hrun) as (Hd & Ht & Hy & Hs & Hr).
  pose proof (submit_run data source_name user description title data_type
                link method reference true buckets ticket timestamp
                own_link st Hd Ht Hy Hs Hr) as Hcall.
  cbv zeta in Hcall. rewrite Hcall in Hrun. clear Hcall.
  set (found := first (objects (md5_is (hashlib_md5 (str_value data))) st))
    in *.
  set (base := submitted_record found timestamp own_link description
                 (hashlib_md5 (str_value data)) data title data_type) in *.
  set (sourced := add_submitted_sources base source_name timestamp method
                    reference user) in *.
  destruct (sourced_frame base source_name timestamp method reference user)
    as ((Hsid & _) & _ & Hsr).
  fold sourced in Hsid, Hsr.
  assert (Hbase : match _id base with
                  | Some i => existsb (id_is i) (signatures st) = true
                  | None => True
                  end).
  { unfold base, submitted_record. destruct found as [s|] eqn:Hf.
    - unfold found, objects in Hf. apply first_filter_some in Hf.
      destruct (_id s) as [i|] eqn:Ei; [|exact I].
      apply existsb_exists. exists s. split; [exact (proj1 (proj2 Hf))|].
      apply id_is_eq; exact Ei.
    - exact I. }
  assert (Hatt : attached sourced st).
  { unfold attached. rewrite Hsid. exact Hbase. }
  unfold bind at 1 in Hrun.
  rewrite (link_signature_run _ _ _ _ _ Hok Hatt), Hcopy in Hrun.
  set (linked := set_link_id sourced link) in *.
  destruct (validate linked) as [m|] eqn:Hv; [discriminate|].
  assert (Hatt' : attached linked st) by exact Hatt.
  destruct (write_first _ _ Hok Hatt') as (Hst & _).
  destruct (write_fst_frame linked st) as (_ & _ & Hwr & _).
  set (early := fst (write linked st)) in *.
  set (st_e := snd (write linked st)) in *.
  pose proof (copy_relationships_result early rels user) as Hcr.
  destruct (copied_frame early rels user) as ((Hcid & _) & _).
  set (s1 := copy_relationships class_from_id early rels user) in *.
  unfold bind at 1, Signature_count in Hrun.
  set (n := length (objects (link_id_is link) st_e)) in *.
  destruct (finish_frame s1 n buckets ticket user)
    as ((Hfid & _) & _ & Hfr & _).
  set (s2 := finish s1 n buckets ticket user) in *.
  unfold bind at 1 in Hrun.
  destruct (validate s2) as [m|] eqn:Hv2.
  { rewrite (save_invalid _ _ _ _ Hv2) in Hrun. discriminate. }
  rewrite (save_valid _ _ _ Hv2) in Hrun.
  destruct (write_again st (_id linked) early st_e s2 Hok Hatt' Hst)
    as (Hw & Hst2); [congruence|].
  assert (Hfst : fst (write s2 st_e) = s2) by (rewrite Hw; reflexivity).
  rewrite Hfst in Hrun.
  assert (Hobj : obj = s2).
  { unfold bind at 1 in Hrun. destruct found.
    - inversion Hrun. reflexivity.
    - unfold bind at 1 in Hrun.
      rewrite (reload_stored st (_id linked) s2 _ Hok Hatt' Hst2) in Hrun.
      inversion Hrun. reflexivity. }
  rewrite Hobj, Hfr, Hcr, Hwr.
  change (relationships linked) with (relationships sourced).
  rewrite Hsr. reflexivity.
Qed.

Lemma filter_absent {A} (p : A -> bool) (l : list A) :
  existsb p l = false -> filter p l = [].
Proof.
  induction l as [|a l IH]; simpl; [reflexivity|].
  destruct (p a); simpl; [discriminate|exact IH].
Qed.

(** X23: what a new record holds.  An upload of new content stores a
    record with the submitted content, title, data type and
    description, the digest of the content, the time of the
    submission, no highlights and no inline comments.  The id the
    call returns is the id of that record, no record had it before,
    and afterwards the records of that id are this record and no
    other: a look-up by the returned id finds exactly it. *)
Theorem new_record_holds_the_submission :
  forall content source_name user summary heading kind link
         method reference copy_rels buckets ticket timestamp own_link
         st msg oid obj st',
    store_ok st = true ->
    first (objects (md5_is (hashlib_md5 (str_value content))) st) = None ->
    submit content source_name user summary heading kind link
      method reference copy_rels buckets ticket timestamp own_link st
    = (Return (RUploaded msg oid obj), st') ->
    (data obj = str_value content /\ title obj = str_value heading /\
     data_type obj = str_value kind /\ description obj = summary /\
     md5 obj = hashlib_md5 (str_value content) /\
     created obj = timestamp /\
     highlights obj = [] /\ inlines obj = []) /\
    exists i,
      oid = Some i /\ _id obj = Some i /\ i = next_id st /\
      existsb (id_is i) (signatures st) = false /\
      objects (id_is i) st' = [obj] /\
      first (objects (id_is i) st') = Some obj.
Proof.
  intros content source_name user summary heading kind link
         method reference copy_rels buckets ticket timestamp own_link
         st msg oid obj st' Hok Hnew Hrun.
  destruct (submit_uploaded_valid Hrun) as (Hd & Ht & Hy & Hs & Hr).
  destruct (new_content_shape Hok Hnew Hrun) as (Hsig & Hoid & Hid & _).
  pose proof (fresh_id_unused st Hok) as Hfresh.
  destruct (submit_outcome content source_name user summary heading kind
              link method reference copy_rels buckets ticket timestamp
              own_link st Hok Hd Ht Hy Hs Hr)
    as [(o & st1 & Hcall & _ & Hc & _)|(m & s & st1 & Hcall & _)];
    [|rewrite Hcall in Hrun; discriminate].
  assert (Ho : o = obj).
  { pose proof Hrun as Hrun'. rewrite Hcall in Hrun'.
    inversion Hrun'. reflexivity. }
  subst o.
  rewrite Hnew in Hc. unfold same_content, content_of in Hc. simpl in Hc.
  injection Hc. intros.
  assert (Hall : objects (id_is (next_id st)) st' = [obj]).
  { unfold objects. rewrite Hsig, filter_app, (filter_absent _ _ Hfresh).
    simpl. rewrite (proj2 (id_is_eq (next_id st) obj) Hid). reflexivity. }
  split; [repeat (split; [congruence|]); congruence|].
  exists (next_id st).
  split; [exact Hoid|]. split; [exact Hid|]. split; [reflexivity|].
  split; [exact Hfresh|]. split; [exact Hall|].
  rewrite Hall. reflexivity.
Qed.

Lemma same_id_same_record l a b i :
  distinct_ids l = true -> In a l -> In b l ->
  _id a = Some i -> _id b = Some i -> a = b.
Proof.
  induction l as [|d l IH]; simpl; [intros _ []|].
  destruct (_id d) as [j|] eqn:Ej; [|discriminate].
  intros Hd Ha Hb Hia Hib. apply andb_true_iff in Hd.
  destruct Hd as (Hd1 & Hd2). apply negb_true_iff in Hd1.
  assert (Hno : forall x, In x l -> _id x = Some i -> j <> i).
  { intros x Hx Hix Hji. subst j.
    assert (existsb (id_is i) l = true); [|congruence].
    apply existsb_exists. exists x. split; [exact Hx|].
    apply id_is_eq; exact Hix. }
  destruct Ha as [Ha|Ha], Hb as [Hb|Hb].
  - congruence.
  - subst d. exfalso. apply (Hno b Hb Hib). congruence.
  - subst d. exfalso. apply (Hno a Ha Hia). congruence.
  - apply IH; assumption.
Qed.

(** X24: digests stay unique.  A successful upload adds the digest of
    the content to the digests of the stored records when no record
    had it, and leaves the digests as they are, in number and order,
    when a record had it: also when that record is saved twice, early
    for the relationships and again at the end, both writes go to the
    one record of its id.  So if no two stored records have the same
    digest, no two have after the upload. *)
Theorem upload_keeps_digests_unique :
  forall content source_name user summary heading kind link
         method reference copy_rels buckets ticket timestamp own_link
         st msg oid obj st',
    store_ok st = true ->
    NoDup (map md5 (signatures st)) ->
    submit content source_name user summary heading kind link
      method reference copy_rels buckets ticket timestamp own_link st
    = (Return (RUploaded msg oid obj), st') ->
    map md5 (signatures st')
    = map md5 (signatures st) ++
      match first (objects (md5_is (hashlib_md5 (str_value content))) st)
      with
      | Some _ => []
      | None => [hashlib_md5 (str_value content)]
      end /\
    NoDup (map md5 (signatures st')).
Proof.
  intros content source_name user summary heading kind link
         method reference copy_rels buckets ticket timestamp own_link
         st msg oid obj st' Hok Hnd Hrun.
  destruct (submit_uploaded_valid Hrun) as (Hd & Ht & Hy & Hs & Hr).
  destruct (submit_outcome content source_name user summary heading kind
              link method reference copy_rels buckets ticket
              timestamp own_link st Hok Hd Ht Hy Hs Hr)
    as [(o & st1 & Hcall & Hst & Hc & _)|(m & s & st1 & Hcall & _)];
    [|rewrite Hcall in Hrun; discriminate].
  rewrite Hcall in Hrun. inversion Hrun; subst o; clear Hrun.
  destruct Hst as (_ & _ & Hshape).
  assert (Hmd : md5 (submitted_record
                       (first (objects
                                 (md5_is (hashlib_md5 (str_value content)))
                                 st))
                       timestamp own_link summary
                       (hashlib_md5 (str_value content)) content heading
                       kind)
                = md5 obj).
  { unfold same_content, content_of in Hc. injection Hc. intros.
    assumption. }
  destruct (first (objects (md5_is (hashlib_md5 (str_value content))) st))
    as [old|] eqn:Hf; simpl in *.
  - apply first_filter_some in Hf. destruct Hf as (_ & Hin & _).
    destruct (stored_ids _ Hok _ Hin) as (i & Hi).
    rewrite Hi in Hshape. destruct Hshape as (_ & _ & ->).
    assert (map md5 (replace_doc i obj (signatures st))
            = map md5 (signatures st)) as ->;
      [|rewrite app_nil_r; split; [reflexivity|exact Hnd]].
    unfold replace_doc. rewrite map_map. apply map_ext_in.
    intros d Hd'. destruct (id_is i d) eqn:E; [|reflexivity].
    apply id_is_eq in E.
    unfold store_ok in Hok. apply andb_true_iff in Hok.
    rewrite (same_id_same_record _ d old i (proj2 Hok) Hd' Hin E Hi).
    symmetry. exact Hmd.
  - destruct Hshape as (_ & _ & ->). rewrite map_app. simpl.
    rewrite <- Hmd. split; [reflexivity|].
    apply NoDup_app; [exact Hnd|repeat constructor; intros []|].
    intros h Hh [<-|[]].
    apply in_map_iff in Hh. destruct Hh as (d & Hdm & Hdin).
    apply first_filter_none in Hf. unfold objects in Hf.
    assert (existsb (md5_is (hashlib_md5 (str_value content)))
              (signatures st) = true); [|congruence].
    apply existsb_exists. exists d. split; [exact Hdin|].
    unfold md5_is. rewrite Hdm. apply String.eqb_refl.
Qed.

End Properties.

(** ** Concrete runs *)

Lemma highlighted_built : built (highlights highlighted).
Proof.
  apply (built_add [mkHighlight 5 "foo" None 100 "alice"] 7 "baz" "alice" 101).
  apply (built_add [] 5 "foo" "alice" 100).
  apply built_nil.
Defined.



(** C2, the failing run: chain [L] holds one record, version 1, with a
    relationship.  ["ruleB"] uploaded with [copy_rels=True] gets version
    3: version 2 is skipped.  ["ruleC"] uploaded next without copying
    gets version 3 again. *)
Lemma copy_rels_run :
  length (objects (link_id_is (Some "L")) chain_store) = 1 /\
  handle_signature_file demo_md5 accept_all resolve_all
    (Some "ruleB") (SrcStr "OSINT") (Some "bob") None
    (Some "T2") (Some "YARA") (Some "L") "" "" true [] [] 200 "uuid-1"
    chain_store
  = (Return (RUploaded "Uploaded signature" (Some 1) copied_record),
     copied_store) /\
  version copied_record = Some 3 /\
  assigned_version
    (fst (handle_signature_file demo_md5 accept_all resolve_all
            (Some "ruleC") (SrcStr "OSINT") (Some "bob") None
            (Some "T3") (Some "YARA") (Some "L") "" "" false [] [] 300
            "uuid-2" copied_store))
  = Some 3.
Proof.
  split; [reflexivity|]. split; [vm_compute; reflexivity|].
  split; [reflexivity|]. vm_compute; reflexivity.
Qed.

Lemma copy_rels_skips_a_version_witness :
  store_ok chain_store = true /\
  first (objects (md5_is (demo_md5 "ruleB")) chain_store) = None /\
  relationships_to_copy (Some "L") true chain_store
  = Some [demo_relationship] /\
  version copied_record
  = Some (length (objects (link_id_is (Some "L")) chain_store) + 2) /\
  length (objects (link_id_is (Some "L")) copied_store)
  = length (objects (link_id_is (Some "L")) chain_store) + 1.
Proof.
  assert (H :
    handle_signature_file demo_md5 accept_all resolve_all
      (Some "ruleB") (SrcStr "OSINT") (Some "bob") None
      (Some "T2") (Some "YARA") (Some "L") "" "" true [] [] 200 "uuid-1"
    chain_store
    = (Return (RUploaded "Uploaded signature" (Some 1) copied_record),
       copied_store)) by (vm_compute; reflexivity).
  split; [reflexivity|]. split; [reflexivity|]. split; [reflexivity|].
  exact (copy_rels_skips_a_version demo_md5 accept_all resolve_all
           _ _ _ _ _ _ _ _ _ _ _ _ _ _ _ _ _ _ _
           (eq_refl : store_ok chain_store = true)
           (eq_refl : first (objects (md5_is (demo_md5 (str_value (Some "ruleB"))))
                               chain_store) = None)
           (eq_refl : relationships_to_copy (Some "L") true chain_store
                      = Some [demo_relationship]) H).
Defined.

Lemma sequential_versions_without_copy_witness :
  map assigned_version
    (fst (submit_chain demo_md5 accept_all resolve_all (Some "L") false
            [mkSubmission (Some "ruleA") (SrcStr "OSINT") (Some "alice") None
               (Some "T1") (Some "YARA") "" "" [] [] 100 "uuid-0";
             mkSubmission (Some "ruleB") (SrcStr "OSINT") (Some "alice") None
               (Some "T2") (Some "YARA") "" "" [] [] 200 "uuid-1";
             mkSubmission (Some "ruleC") (SrcStr "OSINT") (Some "alice") None
               (Some "T3") (Some "YARA") "" "" [] [] 300 "uuid-2"]
            empty_store))
  = [Some 1; Some 2; Some 3].
Proof.
  refine (sequential_versions_without_copy demo_md5 accept_all resolve_all
            (Some "L") _ empty_store eq_refl eq_refl (fun _ => eq_refl) _ _).
  - repeat constructor.
  - repeat constructor; simpl; intros H;
      repeat (destruct H as [H|H]; [discriminate H|]); exact H.
Defined.

Lemma handle_signature_file_rejects_witness :
  invalid_submission (Some "ruleA") (SrcStr "OSINT") (Some "T1")
    (Some "Sigma") empty_store /\
  exists msg,
    handle_signature_file demo_md5 accept_all resolve_all
      (Some "ruleA") (SrcStr "OSINT") (Some "alice") None (Some "T1")
      (Some "Sigma") None "" "" false [] [] 100 "uuid-0"
    empty_store
    = (Return (RStatus false msg), empty_store).
Proof.
  assert (H : invalid_submission (Some "ruleA") (SrcStr "OSINT") (Some "T1")
                (Some "Sigma") empty_store)
    by (right; right; right; right; left; reflexivity).
  split; [exact H|].
  exact (handle_signature_file_rejects demo_md5 accept_all resolve_all
           _ _ _ _ _ _ _ _ _ _ _ _ _ _ _ H).
Defined.

(** C10, refuted as stated: whether the record is persisted is not the
    handler's to say.  Under a schema that requires a source the
    submission of the claim is stopped by [save] and the store stays
    empty; and under that schema no submission of new content that
    carries no source returns an uploaded record or changes the
    store. *)
Lemma unsourced_submission_refused_by_schema :
  carries_no_source (SrcList [ItemOther]) = true /\
  handle_signature_file demo_md5 require_source resolve_all
    (Some "ruleA") (SrcList [ItemOther]) (Some "alice") None (Some "T1")
    (Some "YARA") None "" "" false [] [] 100 "uuid-0"
    empty_store
  = (Raise (ValidationError "Field is required: source"), empty_store) /\
  signatures empty_store = [] /\
  (forall content source_name user summary heading kind link method
          reference copy_rels buckets ticket timestamp own_link st,
     store_ok st = true ->
     carries_no_source source_name = true ->
     first (objects (md5_is (demo_md5 (str_value content))) st) = None ->
     let run :=
       handle_signature_file demo_md5 require_source resolve_all
         content source_name user summary heading kind link method
         reference copy_rels buckets ticket timestamp own_link st in
     snd run = st /\
     forall msg oid obj, fst run <> Return (RUploaded msg oid obj)).
Proof.
  split; [reflexivity|]. split; [vm_compute; reflexivity|].
  split; [reflexivity|].
  intros content source_name user summary heading kind link method
         reference copy_rels buckets ticket timestamp own_link st
         Hok Hno Hnew run.
  destruct (no_source_added
              (submitted_record None timestamp own_link summary
                 (demo_md5 (str_value content)) content heading kind)
              source_name timestamp method reference user Hno)
    as (Hs & Hsrc).
  assert (Hcases :
    invalid_submission content source_name heading kind st \/
    (truthy content = true /\ truthy heading = true /\
     truthy kind = true /\ registered kind st = true)).
  { unfold invalid_submission.
    destruct (truthy content), (truthy heading), (truthy kind),
      (registered kind st);
      try solve [right; repeat split]; left; auto 8. }
  destruct Hcases as [Hbad|(Hd & Ht & Hy & Hr)].
  - destruct (submit_rejected demo_md5 require_source resolve_all
                content source_name user summary heading kind link method
                reference copy_rels buckets ticket timestamp own_link st
                Hbad) as (m & Hm).
    unfold run. rewrite Hm. split; [reflexivity|]. intros; discriminate.
  - pose proof (submit_refused demo_md5 require_source resolve_all
                  content source_name user summary heading kind link method
                  reference copy_rels buckets ticket timestamp own_link st
                  Hok Hd Ht Hy Hs Hr) as Href.
    cbv zeta in Href. rewrite Hnew in Href.
    destruct Href as (m & Hm).
    { intros s Hss. unfold require_source. rewrite Hss, Hsrc. simpl.
      discriminate. }
    unfold run. rewrite Hm. split; [reflexivity|]. intros; discriminate.
Qed.

Lemma submission_without_provenance_witness :
  store_ok empty_store = true /\
  carries_no_source (SrcList [ItemOther]) = true /\
  (exists obj st',
     handle_signature_file demo_md5 accept_all resolve_all
       (Some "ruleA") (SrcList [ItemOther]) (Some "alice") None (Some "T1")
       (Some "YARA") None "" "" false [] [] 100 "uuid-0"
     empty_store
     = (Return (RUploaded "Uploaded signature" (_id obj) obj), st') /\
     source obj = [] /\
     data obj = "ruleA" /\
     signatures st' = signatures empty_store ++ [obj] /\
     first (objects (md5_is (demo_md5 (str_value (Some "ruleA")))) st')
     = Some obj) /\
  (exists msg,
     handle_signature_file demo_md5 require_source resolve_all
       (Some "ruleA") (SrcList [ItemOther]) (Some "alice") None (Some "T1")
       (Some "YARA") None "" "" false [] [] 100 "uuid-0"
     empty_store
     = (Raise (ValidationError msg), empty_store)).
Proof.
  split; [reflexivity|]. split; [reflexivity|]. split.
  - exact (proj1 (proj2
             (submission_without_provenance demo_md5 accept_all resolve_all
                (Some "ruleA") (SrcList [ItemOther]) (Some "alice") None
                (Some "T1") (Some "YARA") None "" "" false [] [] 100 "uuid-0"
                empty_store
                eq_refl eq_refl eq_refl eq_refl eq_refl eq_refl eq_refl))
             (fun _ _ => eq_refl)).
  - apply (proj2 (proj2
             (submission_without_provenance demo_md5 require_source
                resolve_all
                (Some "ruleA") (SrcList [ItemOther]) (Some "alice") None
                (Some "T1") (Some "YARA") None "" "" false [] [] 100 "uuid-0"
                empty_store
                eq_refl eq_refl eq_refl eq_refl eq_refl eq_refl eq_refl))).
    intros s Hs. unfold require_source. rewrite Hs. discriminate.
Defined.

(** The record stored under the accepting schema, spelled out. *)
Lemma submission_without_provenance_run :
  handle_signature_file demo_md5 accept_all resolve_all
    (Some "ruleA") (SrcList [ItemOther]) (Some "alice") None (Some "T1")
    (Some "YARA") None "" "" false [] [] 100 "uuid-0"
    empty_store
  = (Return (RUploaded "Uploaded signature" (Some 0) unsourced_record),
     mkStore [unsourced_record] ["YARA"; "Snort"] 1 [0]) /\
  source unsourced_record = [].
Proof. split; [vm_compute; reflexivity|reflexivity]. Qed.

(** C6, refuted as stated: [bob] is no administrator, [root] is one, no
    record has id 7; the refusal [bob] gets and the answer [root] gets
    for the missing record are the same. *)
Lemma delete_signature_refusal_same_as_not_found :
  only_root (Some "bob") = false /\
  only_root (Some "root") = true /\
  first (objects (id_is 7) chain_store) = None /\
  delete_signature only_root 7 (Some "bob") chain_store
  = (Return false, chain_store) /\
  delete_signature only_root 7 (Some "bob") chain_store
  = delete_signature only_root 7 (Some "root") chain_store.
Proof. repeat split. Qed.

Lemma delete_signature_outcomes_witness :
  delete_signature only_root 0 (Some "bob") chain_store
  = (Return false, chain_store) /\
  exists st',
    delete_signature only_root 0 (Some "root") chain_store
    = (Return (existsb (id_is 0) (signatures chain_store)), st') /\
    objects (id_is 0) st' = [].
Proof.
  split.
  - exact (proj1 (delete_signature_outcomes only_root 0 (Some "bob")
                    chain_store) eq_refl).
  - destruct (proj2 (delete_signature_outcomes only_root 0 (Some "root")
                       chain_store) eq_refl) as (st' & H1 & H2 & _).
    exists st'. split; [exact H1|exact H2].
Defined.

Lemma update_signature_type_outcomes_witness :
  update_signature_type accept_all 0 (Some "Sigma") (Some "alice") chain_store
  = (Return RNone, chain_store) /\
  first (objects (id_is 7) chain_store) = None /\
  update_signature_type accept_all 7 (Some "Snort") (Some "alice") chain_store
  = (Raise AttributeError, chain_store) /\
  exists st',
    update_signature_type accept_all 0 (Some "Snort") (Some "alice")
      chain_store
    = (Return (RSuccessOnly true), st') /\
    first (objects (id_is 0) st') = Some (set_data_type chain_root "Snort") /\
    data_type (set_data_type chain_root "Snort") = "Snort".
Proof.
  split.
  - exact (proj1 (update_signature_type_outcomes accept_all 0 (Some "Sigma")
                    (Some "alice") chain_store) eq_refl).
  - split; [reflexivity|]. split.
    + exact (proj1 (proj2 (update_signature_type_outcomes accept_all 7
                             (Some "Snort") (Some "alice") chain_store)
                      "Snort" eq_refl eq_refl) eq_refl).
    + destruct (proj1 (proj2 (proj2 (update_signature_type_outcomes accept_all 0
                                       (Some "Snort") (Some "alice")
                                       chain_store)
                                "Snort" eq_refl eq_refl)
                         chain_root (set_data_type chain_root "Snort")
                         eq_refl eq_refl eq_refl) eq_refl)
        as (st' & H1 & H2 & _).
      exists st'. split; [exact H1|]. split; [exact H2|reflexivity].
Defined.

Lemma annotation_on_missing_record_raises_witness :
  first (objects (id_is 7) chain_store) = None /\
  new_inline_comment accept_all demo_inline 7 "note" 5 "alice" 300 chain_store
  = (Raise AttributeError, chain_store) /\
  new_highlight accept_all demo_highlights 7 5 "foo" "alice" 300 chain_store
  = (Raise AttributeError, chain_store) /\
  delete_highlight accept_all demo_highlights 7 5 "alice" chain_store
  = (Raise AttributeError, chain_store).
Proof.
  split; [reflexivity|].
  exact (annotation_on_missing_record_raises accept_all demo_inline
           demo_highlights 7 "note" 5%Z "foo" "alice" 300%Z chain_store
           eq_refl).
Defined.

Lemma delete_highlight_outcomes_witness :
  first (objects (id_is 0) highlight_store) = Some highlighted /\
  (exists st',
     delete_highlight accept_all demo_highlights 0 5 "alice" highlight_store
     = (Return (RHtml ""), st') /\
     first (objects (id_is 0) st') = Some shortened) /\
  delete_highlight accept_all demo_highlights 0 99 "alice" highlight_store
  = (Return (RSuccessOnly false), highlight_store).
Proof.
  split; [reflexivity|]. split.
  - destruct (delete_highlight_outcomes accept_all demo_highlights 0 5%Z
                "alice" highlight_store highlighted eq_refl)
      as (_ & _ & Hhit & _).
    exact (proj1 (Hhit eq_refl) eq_refl).
  - destruct (delete_highlight_outcomes accept_all demo_highlights 0 99%Z
                "alice" highlight_store highlighted eq_refl)
      as (_ & _ & _ & Hmiss).
    exact (proj2 (Hmiss eq_refl)).
Defined.

Lemma update_signature_highlight_comment_outcomes_witness :
  first (objects (id_is 0) highlight_store) = Some highlighted /\
  int_value demo_int (StrArg "5") = Some 5%Z /\
  built (highlights highlighted) /\
  (exists st',
     update_signature_highlight_comment accept_all demo_int 0 "bar"
       (StrArg "5") (Some "alice") highlight_store
     = (Return (RSuccessOnly true), st') /\
     first (objects (id_is 0) st') = Some commented /\
     count_bearing 5 "bar" (highlights commented) = 1) /\
  update_signature_highlight_comment accept_all demo_int 0 "x"
    (StrArg "99") (Some "alice") highlight_store
  = (Return (RStatus false "Could not find highlight."), highlight_store).
Proof.
  split; [reflexivity|]. split; [reflexivity|].
  split; [exact highlighted_built|]. split.
  - exact (proj1 (proj1 (update_signature_highlight_comment_outcomes
                           accept_all demo_int 0 "bar" (StrArg "5")
                           (Some "alice") highlight_store highlighted 5%Z
                           eq_refl eq_refl highlighted_built)
                    [] (mkHighlight 5 "foo" None 100 "alice")
                    [mkHighlight 7 "baz" None 101 "alice"]
                    eq_refl eq_refl eq_refl) eq_refl).
  - exact (proj2 (update_signature_highlight_comment_outcomes
                    accept_all demo_int 0 "x" (StrArg "99")
                    (Some "alice") highlight_store highlighted 99%Z
                    eq_refl eq_refl highlighted_built) eq_refl).
Defined.

(** Without the hypothesis on how the highlights came about the count can
    be two: on [doubled] the update of line 5 to ["bar"] changes the first
    highlight, and the second one already had that comment. *)
Lemma comment_pair_on_unbuilt_highlights :
  exists st',
    update_signature_highlight_comment accept_all demo_int 0 "bar"
      (IntArg 5) (Some "bob") doubled_store
    = (Return (RSuccessOnly true), st') /\
    exists s, first (objects (id_is 0) st') = Some s /\
              count_bearing 5 "bar" (highlights s) = 2.
Proof.
  eexists. split; [vm_compute; reflexivity|].
  eexists. split; [vm_compute; reflexivity|]. reflexivity.
Qed.

(** C8, refuted as stated: line 5 has a highlight, the parser rejects
    the date, and the handler does not answer with a failure status: the
    [ValueError] of the parser leaves it. *)
Lemma unparseable_date_raises_ValueError :
  first (objects (id_is 0) highlight_store) = Some highlighted /\
  has_line 5 (highlights highlighted) = true /\
  demo_parse "no date here" = None /\
  update_signature_highlight_date accept_all demo_parse demo_int 0
    "no date here" (IntArg 5) (Some "alice") highlight_store
  = (Raise ValueError, highlight_store).
Proof. repeat split. Qed.

Lemma update_signature_highlight_date_outcomes_witness :
  first (objects (id_is 0) highlight_store) = Some highlighted /\
  int_value demo_int (IntArg 5) = Some 5%Z /\
  has_line 5 (highlights highlighted) = true /\
  (exists st',
     update_signature_highlight_date accept_all demo_parse demo_int 0
       "2015-03-01 or so" (IntArg 5) (Some "alice") highlight_store
     = (Return (RSuccessOnly true), st') /\
     first (objects (id_is 0) st') = Some dated) /\
  update_signature_highlight_date accept_all demo_parse demo_int 0
    "no date here" (IntArg 5) (Some "alice") highlight_store
  = (Raise ValueError, highlight_store).
Proof.
  split; [reflexivity|]. split; [reflexivity|]. split; [reflexivity|].
  split.
  - exact (proj1 (proj1 (update_signature_highlight_date_outcomes
                           accept_all demo_parse demo_int 0
                           "2015-03-01 or so" (IntArg 5) (Some "alice")
                           highlight_store highlighted 5%Z
                           eq_refl eq_refl eq_refl)
                    20150301%Z eq_refl) eq_refl).
  - exact (proj2 (update_signature_highlight_date_outcomes
                    accept_all demo_parse demo_int 0
                    "no date here" (IntArg 5) (Some "alice")
                    highlight_store highlighted 5%Z
                    eq_refl eq_refl eq_refl) eq_refl).
Defined.

(** ** Concrete runs of the look-ups, listings and registration *)

Lemma add_new_signature_type_twice_witness :
  add_new_signature_type accept_type " Sigma " (Some "alice") empty_store
  = (Return true, sigma_store) /\
  strip "Sigma  " = strip " Sigma " /\
  add_new_signature_type accept_type "Sigma  " (Some "bob") sigma_store
  = (Return false, sigma_store).
Proof.
  split; [reflexivity|]. split; [reflexivity|].
  exact (add_new_signature_type_twice accept_type " Sigma " "Sigma  "
           (Some "alice") (Some "bob") empty_store sigma_store
           eq_refl eq_refl).
Defined.

Lemma add_new_signature_type_keeps_names_distinct_witness :
  NoDup (signature_types empty_store) /\
  NoDup (signature_types
           (snd (add_new_signature_type accept_type " Sigma " (Some "alice")
                   empty_store))).
Proof.
  assert (H : NoDup (signature_types empty_store)).
  { simpl. constructor.
    - intros [H|[]]. discriminate H.
    - constructor; [intros []|constructor]. }
  split; [exact H|].
  exact (add_new_signature_type_keeps_names_distinct accept_type " Sigma "
           (Some "alice") empty_store H).
Defined.

Lemma stripped_on_registration_only_witness :
  add_new_signature_type accept_type " Sigma " (Some "alice") empty_store
  = (Return true, sigma_store) /\
  strip " Sigma " <> " Sigma " /\
  registered (Some " Sigma ") empty_store = false /\
  registered (Some (strip " Sigma ")) sigma_store = true /\
  update_signature_type accept_all 0 (Some " Sigma ") (Some "alice")
    sigma_store = (Return RNone, sigma_store).
Proof.
  assert (Hne : strip " Sigma " <> " Sigma ") by discriminate.
  split; [reflexivity|]. split; [exact Hne|]. split; [reflexivity|].
  destruct (stripped_on_registration_only demo_md5 accept_all resolve_all
              accept_type " Sigma " (Some "alice") empty_store sigma_store
              eq_refl Hne eq_refl) as (H1 & H2 & _).
  split; [exact H1|exact (H2 0 (Some "alice"))].
Defined.

Lemma triage_only_for_new_records_witness :
  store_ok empty_store = true /\
  first (objects (md5_is (demo_md5 "ruleA")) empty_store) = None /\
  triaged first_store = triaged empty_store ++ [next_id empty_store] /\
  first (objects (md5_is (demo_md5 "ruleA")) first_store)
  = Some first_record /\
  triaged second_store = triaged first_store.
Proof.
  assert (H1 :
    handle_signature_file demo_md5 accept_all resolve_all
      (Some "ruleA") (SrcStr "OSINT") (Some "alice") (Some "first")
      (Some "T1") (Some "YARA") (Some "L") "" "" false [] [] 100 "uuid-0"
      empty_store
    = (Return (RUploaded "Uploaded signature" (Some 0) first_record),
       first_store)) by (vm_compute; reflexivity).
  assert (H2 :
    handle_signature_file demo_md5 accept_all resolve_all
      (Some "ruleA") (SrcStr "OtherFeed") (Some "bob") (Some "second")
      (Some "T2") (Some "YARA") (Some "L") "" "" false [] [] 200 "uuid-1"
      first_store
    = (Return (RUploaded "Uploaded signature" (Some 0) second_record),
       second_store)) by (vm_compute; reflexivity).
  split; [reflexivity|]. split; [reflexivity|].
  split.
  - exact (proj2 (triage_only_for_new_records demo_md5 accept_all resolve_all
                    _ _ _ _ _ _ _ _ _ _ _ _ _ _ _ _ _ _ _
                    (eq_refl : store_ok empty_store = true) H1)).
  - split; [reflexivity|].
    exact (proj2 (triage_only_for_new_records demo_md5 accept_all resolve_all
                    _ _ _ _ _ _ _ _ _ _ _ _ _ _ _ _ _ _ _
                    (eq_refl : store_ok first_store = true) H2)).
Defined.

Lemma plain_upload_keeps_chain_contiguous_witness :
  store_ok chain_store = true /\
  relationships_to_copy (Some "L") false chain_store = None /\
  chain_versions (Some "L") chain_store = map Some (seq 1 1) /\
  version plain_record = Some 2 /\
  chain_versions (Some "L") plain_store = map Some (seq 1 2).
Proof.
  assert (H :
    handle_signature_file demo_md5 accept_all resolve_all
      (Some "ruleB") (SrcStr "OSINT") (Some "bob") None
      (Some "T2") (Some "YARA") (Some "L") "" "" false [] [] 200 "uuid-1"
      chain_store
    = (Return (RUploaded "Uploaded signature" (Some 1) plain_record),
       plain_store)) by (vm_compute; reflexivity).
  split; [reflexivity|]. split; [reflexivity|]. split; [reflexivity|].
  exact (plain_upload_keeps_chain_contiguous demo_md5 accept_all resolve_all
           _ _ _ _ _ _ _ _ _ _ _ _ _ _ _ _ _ _ _ 1
           (eq_refl : store_ok chain_store = true)
           (eq_refl : truthy (Some "L") = true)
           (eq_refl : first (objects (md5_is (demo_md5 (str_value (Some "ruleB"))))
                               chain_store) = None)
           (eq_refl : relationships_to_copy (Some "L") false chain_store = None)
           (eq_refl : chain_versions (Some "L") chain_store
                      = map Some (seq 1 1)) H).
Defined.

Lemma get_id_finds_uploaded_version_witness :
  store_ok chain_store = true /\
  chain_versions (Some "L") chain_store = map Some (seq 1 1) /\
  get_id_from_link_and_version (Some "L") 2 plain_store
  = (Return (Some 1), plain_store) /\
  fst (get_id_from_link_and_version (Some "L") 1 plain_store)
  = fst (get_id_from_link_and_version (Some "L") 1 chain_store).
Proof.
  assert (H :
    handle_signature_file demo_md5 accept_all resolve_all
      (Some "ruleB") (SrcStr "OSINT") (Some "bob") None
      (Some "T2") (Some "YARA") (Some "L") "" "" false [] [] 200 "uuid-1"
      chain_store
    = (Return (RUploaded "Uploaded signature" (Some 1) plain_record),
       plain_store)) by (vm_compute; reflexivity).
  split; [reflexivity|]. split; [reflexivity|].
  destruct (get_id_finds_uploaded_version demo_md5 accept_all resolve_all
              _ _ _ _ _ _ _ _ _ _ _ _ _ _ _ _ _ _ _ 1
              (eq_refl : store_ok chain_store = true)
              (eq_refl : truthy (Some "L") = true)
              (eq_refl : first (objects (md5_is (demo_md5 (str_value (Some "ruleB"))))
                                  chain_store) = None)
              (eq_refl : relationships_to_copy (Some "L") false chain_store
                         = None)
              (eq_refl : chain_versions (Some "L") chain_store
                         = map Some (seq 1 1)) H) as (H1 & H2).
  split; [exact H1|]. apply H2. discriminate.
Defined.

Lemma skipped_version_cannot_be_found_witness :
  store_ok chain_store = true /\
  relationships_to_copy (Some "L") true chain_store
  = Some [demo_relationship] /\
  chain_versions (Some "L") chain_store = map Some (seq 1 1) /\
  chain_versions (Some "L") copied_store = [Some 1; Some 3] /\
  get_id_from_link_and_version (Some "L") 2 copied_store
  = (Return None, copied_store) /\
  get_id_from_link_and_version (Some "L") 3 copied_store
  = (Return (Some 1), copied_store).
Proof.
  assert (H :
    handle_signature_file demo_md5 accept_all resolve_all
      (Some "ruleB") (SrcStr "OSINT") (Some "bob") None
      (Some "T2") (Some "YARA") (Some "L") "" "" true [] [] 200 "uuid-1"
      chain_store
    = (Return (RUploaded "Uploaded signature" (Some 1) copied_record),
       copied_store)) by (vm_compute; reflexivity).
  split; [reflexivity|]. split; [reflexivity|]. split; [reflexivity|].
  exact (skipped_version_cannot_be_found demo_md5 accept_all resolve_all
           _ _ _ _ _ _ _ _ _ _ _ _ _ _ _ _ _ _ _ 1
           (eq_refl : store_ok chain_store = true)
           (eq_refl : first (objects (md5_is (demo_md5 (str_value (Some "ruleB"))))
                               chain_store) = None)
           (eq_refl : relationships_to_copy (Some "L") true chain_store
                      = Some [demo_relationship])
           (eq_refl : chain_versions (Some "L") chain_store
                      = map Some (seq 1 1)) H).
Defined.

Lemma generate_signature_versions_of_chain_witness :
  first (objects (id_is 0) copied_store) = Some chain_root /\
  first (objects (id_is 1) copied_store) = Some copied_record /\
  link_id chain_root = link_id copied_record /\
  exists l,
    generate_signature_versions demo_reverse 0 copied_store
    = (Return l, copied_store) /\
    generate_signature_versions demo_reverse 1 copied_store
    = (Return l, copied_store) /\
    map v_version l = chain_versions (link_id chain_root) copied_store /\
    In (mkVersionEntry (title chain_root) (version chain_root)
          (data chain_root) (demo_reverse (_id chain_root))) l /\
    In (mkVersionEntry (title copied_record) (version copied_record)
          (data copied_record) (demo_reverse (_id copied_record))) l.
Proof.
  split; [reflexivity|]. split; [reflexivity|]. split; [reflexivity|].
  exact (generate_signature_versions_of_chain demo_reverse 0 1 chain_root
           copied_record copied_store eq_refl eq_refl eq_refl).
Defined.

Lemma listing_after_upload_witness :
  store_ok chain_store = true /\
  chain_versions (Some "L") chain_store = map Some (seq 1 1) /\
  exists l,
    generate_signature_versions demo_reverse (next_id chain_store) plain_store
    = (Return (l ++ [mkVersionEntry (title plain_record) (Some 2)
                       (data plain_record)
                       (demo_reverse (Some (next_id chain_store)))]),
       plain_store) /\
    map v_version l = map Some (seq 1 1).
Proof.
  assert (H :
    handle_signature_file demo_md5 accept_all resolve_all
      (Some "ruleB") (SrcStr "OSINT") (Some "bob") None
      (Some "T2") (Some "YARA") (Some "L") "" "" false [] [] 200 "uuid-1"
      chain_store
    = (Return (RUploaded "Uploaded signature" (Some (next_id chain_store))
                 plain_record),
       plain_store)) by (vm_compute; reflexivity).
  split; [reflexivity|]. split; [reflexivity|].
  exact (listing_after_upload demo_md5 accept_all resolve_all demo_reverse
           _ _ _ _ _ _ _ _ _ _ _ _ _ _ _ _ _ _ 1
           (eq_refl : store_ok chain_store = true)
           (eq_refl : truthy (Some "L") = true)
           (eq_refl : first (objects (md5_is (demo_md5 (str_value (Some "ruleB"))))
                               chain_store) = None)
           (eq_refl : relationships_to_copy (Some "L") false chain_store = None)
           (eq_refl : chain_versions (Some "L") chain_store
                      = map Some (seq 1 1)) H).
Defined.

Lemma inline_comment_is_appended_witness :
  new_inline_comment accept_all demo_inline 0 "note" 5 "alice" 300
    highlight_store
  = (Return (RInline 5 "note"), noted_store) /\
  exists old h,
    generate_inline_comments demo_inline 0 highlight_store
    = (Return old, highlight_store) /\
    generate_inline_comments demo_inline 0 noted_store
    = (Return (old ++ [(5%Z, h)]), noted_store).
Proof.
  assert (H :
    new_inline_comment accept_all demo_inline 0 "note" 5 "alice" 300
      highlight_store
    = (Return (RInline 5 "note"), noted_store)) by reflexivity.
  split; [exact H|].
  exact (inline_comment_is_appended accept_all demo_inline 0 "note" 5%Z
           "alice" 300%Z "note" highlight_store noted_store H).
Defined.

Lemma get_signature_details_denied_witness :
  (forall s, In s (signatures chain_store) -> _id s = Some 0 ->
             source_name_in (demo_sources "bob") s = false) /\
  get_signature_details demo_sources demo_sanitize (Some 0) "bob" chain_store
  = (Return (Some "error.html",
             ErrorArgs
               "signature not yet available or you do not have access to view it."),
     chain_store) /\
  get_signature_details demo_sources demo_sanitize (Some 0) "bob" chain_store
  = get_signature_details demo_sources demo_sanitize None "bob" chain_store.
Proof.
  assert (H : forall s, In s (signatures chain_store) -> _id s = Some 0 ->
                        source_name_in (demo_sources "bob") s = false).
  { intros s [<-|[]] _. reflexivity. }
  split; [exact H|].
  exact (get_signature_details_denied demo_sources demo_sanitize 0 "bob"
           chain_store H).
Defined.

Lemma details_count_the_listing_witness :
  first (objects (id_is 0) copied_store) = Some chain_root /\
  source_name_in (demo_sources "alice") chain_root = true /\
  link_id (demo_sanitize chain_root "alice") = link_id chain_root /\
  exists l,
    generate_signature_versions demo_reverse 0 copied_store
    = (Return l, copied_store) /\
    get_signature_details demo_sources demo_sanitize (Some 0) "alice"
      copied_store
    = (Return (None, DetailArgs (demo_sanitize chain_root "alice") (length l)),
       copied_store).
Proof.
  split; [reflexivity|]. split; [reflexivity|]. split; [reflexivity|].
  exact (details_count_the_listing demo_reverse demo_sources demo_sanitize
           0 "alice" chain_root copied_store eq_refl eq_refl eq_refl).
Defined.

Lemma unsourced_upload_is_invisible_witness :
  store_ok empty_store = true /\
  carries_no_source (SrcList [ItemOther]) = true /\
  first (objects (id_is (next_id empty_store)) unsourced_store)
  = Some unsourced_record /\
  get_signature_details demo_sources demo_sanitize (Some 0) "alice"
    unsourced_store
  = (Return (Some "error.html",
             ErrorArgs
               "signature not yet available or you do not have access to view it."),
     unsourced_store).
Proof.
  assert (H :
    handle_signature_file demo_md5 accept_all resolve_all
      (Some "ruleA") (SrcList [ItemOther]) (Some "alice") None (Some "T1")
      (Some "YARA") None "" "" false [] [] 100 "uuid-0" empty_store
    = (Return (RUploaded "Uploaded signature" (Some 0) unsourced_record),
       unsourced_store)) by (vm_compute; reflexivity).
  split; [reflexivity|]. split; [reflexivity|].
  destruct (unsourced_upload_is_invisible demo_md5 accept_all resolve_all
              demo_sources demo_sanitize
              _ _ _ _ _ _ _ _ _ _ _ _ _ _ _ _ _ _ _
              (eq_refl : store_ok empty_store = true)
              (eq_refl : first (objects (md5_is (demo_md5 (str_value (Some "ruleA"))))
                                  empty_store) = None)
              (eq_refl : carries_no_source (SrcList [ItemOther]) = true) H)
    as (_ & H1 & H2).
  split; [exact H1|exact (H2 "alice")].
Defined.

Lemma guarded_handlers_on_missing_record_witness :
  first (objects (id_is 7) chain_store) = None /\
  update_signature_highlight_comment accept_all demo_int 7 "bar" (IntArg 5)
    (Some "alice") chain_store = (Return RNone, chain_store) /\
  generate_signature_versions demo_reverse 7 chain_store
  = (Return [], chain_store) /\
  delete_signature only_root 7 (Some "root") chain_store
  = (Return false, chain_store).
Proof.
  destruct (guarded_handlers_on_missing_record accept_all only_root demo_parse
              demo_int demo_inline demo_reverse 7 chain_store eq_refl)
    as (H1 & _ & _ & H4 & H5).
  split; [reflexivity|]. split; [exact (H1 "bar" (IntArg 5) (Some "alice"))|].
  split; [exact H4|exact (H5 (Some "root"))].
Defined.

Lemma line_that_is_no_number_witness :
  int_value demo_int (StrArg "five") = None /\
  update_signature_highlight_comment accept_all demo_int 0 "bar"
    (StrArg "five") (Some "alice") highlight_store
  = (Raise ValueError, highlight_store) /\
  update_signature_highlight_comment accept_all demo_int 0 "bar"
    (StrArg "five") (Some "alice") chain_store
  = (Return (RStatus false "Could not find highlight."), chain_store).
Proof.
  split; [reflexivity|]. split.
  - exact (proj1 (line_that_is_no_number accept_all demo_parse demo_int 0
                    (StrArg "five") (Some "alice") highlight_store highlighted
                    eq_refl eq_refl) "bar").
  - exact (proj1 (line_that_is_no_number accept_all demo_parse demo_int 0
                    (StrArg "five") (Some "alice") chain_store chain_root
                    eq_refl eq_refl) "bar").
Defined.

Lemma date_of_missing_line_is_not_parsed_witness :
  has_line 99 (highlights highlighted) = false /\
  demo_parse "no date here" = None /\
  update_signature_highlight_date accept_all demo_parse demo_int 0
    "no date here" (StrArg "99") (Some "alice") highlight_store
  = (Return (RStatus false "Could not find highlight."), highlight_store).
Proof.
  split; [reflexivity|]. split; [reflexivity|].
  exact (date_of_missing_line_is_not_parsed accept_all demo_parse demo_int 0
           "no date here" (StrArg "99") (Some "alice") highlight_store
           highlighted 99%Z eq_refl eq_refl eq_refl).
Defined.

Lemma refused_annotation_returns_the_exception_witness :
  first (objects (id_is 0) highlight_store) = Some highlighted /\
  new_inline_comment reject_all demo_inline 0 "note" 5 "alice" 300
    highlight_store
  = (Return (RException (ValidationError "invalid")), highlight_store) /\
  new_highlight reject_all demo_highlights 0 9 "qux" "alice" 300
    highlight_store
  = (Return (RException (ValidationError "invalid")), highlight_store).
Proof.
  destruct (refused_annotation_returns_the_exception reject_all demo_inline
              demo_highlights 0 highlight_store highlighted eq_refl)
    as (H1 & H2).
  split; [reflexivity|]. split.
  - exact (H1 "note" 5%Z "alice" 300%Z "invalid" eq_refl).
  - exact (H2 9%Z "qux" "alice" 300%Z "invalid" eq_refl).
Defined.

Lemma delete_signature_removes_one_record_witness :
  store_ok copied_store = true /\
  only_root (Some "root") = true /\
  existsb (id_is 0) (signatures copied_store) = true /\
  exists st',
    delete_signature only_root 0 (Some "root") copied_store
    = (Return true, st') /\
    S (length (signatures st')) = length (signatures copied_store) /\
    store_ok st' = true /\
    first (objects (id_is 0) st') = None /\
    (forall j, j <> 0 ->
       objects (id_is j) st' = objects (id_is j) copied_store) /\
    delete_signature only_root 0 (Some "root") st' = (Return false, st').
Proof.
  split; [reflexivity|]. split; [reflexivity|]. split; [reflexivity|].
  exact (delete_signature_removes_one_record only_root 0 (Some "root")
           (Some "root") copied_store eq_refl eq_refl eq_refl eq_refl).
Defined.

Lemma relationships_come_from_the_chain_head_witness :
  store_ok chain_store = true /\
  relationships_to_copy (Some "L") true chain_store
  = Some [demo_relationship] /\
  first (objects (link_id_is (Some "L")) chain_store) = Some chain_root /\
  relationships copied_record
  = [mkRelationship "Sample" 41 "Related_To" 100 (Some "bob")].
Proof.
  assert (H :
    handle_signature_file demo_md5 accept_all resolve_all
      (Some "ruleB") (SrcStr "OSINT") (Some "bob") None
      (Some "T2") (Some "YARA") (Some "L") "" "" true [] [] 200 "uuid-1"
      chain_store
    = (Return (RUploaded "Uploaded signature" (Some 1) copied_record),
       copied_store)) by (vm_compute; reflexivity).
  split; [reflexivity|]. split; [reflexivity|]. split; [reflexivity|].
  exact (proj2 (relationships_come_from_the_chain_head demo_md5 accept_all
                  resolve_all
                  _ _ _ _ _ _ _ _ _ _ _ _ _ _ _ _ _ _ _
                  (eq_refl : store_ok chain_store = true)
                  (eq_refl : relationships_to_copy (Some "L") true chain_store
                             = Some [demo_relationship]) H)).
Defined.

Lemma new_record_holds_the_submission_witness :
  store_ok empty_store = true /\
  first (objects (md5_is (demo_md5 "ruleA")) empty_store) = None /\
  data first_record = "ruleA" /\ title first_record = "T1" /\
  created first_record = 100%Z /\ highlights first_record = [] /\
  exists i,
    Some 0 = Some i /\ _id first_record = Some i /\
    objects (id_is i) first_store = [first_record].
Proof.
  assert (H :
    handle_signature_file demo_md5 accept_all resolve_all
      (Some "ruleA") (SrcStr "OSINT") (Some "alice") (Some "first")
      (Some "T1") (Some "YARA") (Some "L") "" "" false [] [] 100 "uuid-0"
      empty_store
    = (Return (RUploaded "Uploaded signature" (Some 0) first_record),
       first_store)) by (vm_compute; reflexivity).
  destruct (new_record_holds_the_submission demo_md5 accept_all resolve_all
              _ _ _ _ _ _ _ _ _ _ _ _ _ _ _ _ _ _ _
              (eq_refl : store_ok empty_store = true)
              (eq_refl : first (objects (md5_is (demo_md5 (str_value (Some "ruleA"))))
                                  empty_store) = None) H)
    as ((H1 & H2 & _ & _ & _ & H6 & H7 & _) & i & Hi & Hid & _ & _ & Hall & _).
  split; [reflexivity|]. split; [reflexivity|].
  split; [exact H1|]. split; [exact H2|]. split; [exact H6|].
  split; [exact H7|].
  exists i. split; [exact Hi|]. split; [exact Hid|exact Hall].
Defined.

(** The upload of ["ruleD"], which [stray_record] holds, into chain [L]
    with [copy_rels=True], under a schema that refuses the source-less
    documents of [L]: with a source the call succeeds after two saves
    and the digests are as they were; without one the early save is
    refused, the call raises and the store is as it was. *)
Lemma upload_keeps_digests_unique_witness :
  store_ok stray_store = true /\
  NoDup (map md5 (signatures stray_store)) /\
  first (objects (md5_is (demo_md5 "ruleD")) stray_store)
  = Some stray_record /\
  relationships_to_copy (Some "L") true stray_store
  = Some [demo_relationship] /\
  handle_signature_file demo_md5 chain_schema resolve_all
    (Some "ruleD") (SrcStr "OSINT") (Some "bob") None
    (Some "T5") (Some "YARA") (Some "L") "" "" true [] [] 200 "uuid-2"
    stray_store
  = (Return (RUploaded "Uploaded signature" (Some 1) adopted_record),
     adopted_store) /\
  map md5 (signatures adopted_store)
  = [demo_md5 "ruleA"; demo_md5 "ruleD"] /\
  NoDup (map md5 (signatures adopted_store)) /\
  handle_signature_file demo_md5 chain_schema resolve_all
    (Some "ruleD") (SrcOther true) (Some "bob") None
    (Some "T5") (Some "YARA") (Some "L") "" "" true [] [] 200 "uuid-2"
    stray_store
  = (Raise (ValidationError "no source"), stray_store).
Proof.
  assert (H :
    handle_signature_file demo_md5 chain_schema resolve_all
      (Some "ruleD") (SrcStr "OSINT") (Some "bob") None
      (Some "T5") (Some "YARA") (Some "L") "" "" true [] [] 200 "uuid-2"
      stray_store
    = (Return (RUploaded "Uploaded signature" (Some 1) adopted_record),
       adopted_store)) by (vm_compute; reflexivity).
  assert (Hnd : NoDup (map md5 (signatures stray_store))).
  { simpl. constructor.
    - intros [E|[]]. discriminate E.
    - constructor; [intros []|constructor]. }
  destruct (upload_keeps_digests_unique demo_md5 chain_schema resolve_all
              _ _ _ _ _ _ _ _ _ _ _ _ _ _ _ _ _ _ _
              (eq_refl : store_ok stray_store = true) Hnd H)
    as (Hmap & Hnd').
  split; [reflexivity|]. split; [exact Hnd|]. split; [reflexivity|].
  split; [reflexivity|]. split; [exact H|]. split; [exact Hmap|].
  split; [exact Hnd'|]. vm_compute; reflexivity.
Defined.
